(** * Ronda attendance tracker: a shallow embedding and its checked properties

    The development follows the repository file by file: [Types] (types.ts),
    [Constants] (constants.ts), [AttendanceForm] (components/AttendanceForm.tsx),
    [LocalApp] (App.tsx), [AttendanceRecap] (components/AttendanceRecap.tsx),
    and, for the variant of index.tsx that keeps its data in a GitHub
    repository, [Github] (API helpers and App) and [ScheduleEditorModal].
    [JS], [Date] and [JSON] hold the built-ins of the language that the code
    calls.  The definitions come first, the theorems follow in the order of
    the modules.

    Conventions.  A JavaScript string is a [string]: the bytes of its UTF-8
    text, so that every ASCII character is one element.  A JavaScript number
    that the code only ever uses as an integer is a [Z] (exact, as a double
    is below 2^53), and a number that may be [NaN] is an [option Z] with
    [None] for [NaN].  Objects used as dictionaries are [gmap]s.  The typed
    records of types.ts are Rocq records; where the code hands values to
    [JSON.stringify] or takes them from [JSON.parse], the run-time value is
    a [JSON.value] and [toJS] gives the object a typed record is. *)

From Stdlib Require Import ZArith List String Ascii Bool Lia Permutation Sorted.
From stdpp Require Import gmap strings.
Import ListNotations.
Open Scope Z_scope.

(** * JavaScript built-ins used by the form *)

Module JS.

(** The character class [0-9]. *)
Definition isDigit (c : ascii) : bool :=
  ((48 <=? N_of_ascii c) && (N_of_ascii c <=? 57))%N.

(** [s.replace(/[^0-9]/g, '')]: every code unit outside [0-9] is dropped. *)
Fixpoint replaceNonDigits (s : string) : string :=
  match s with
  | EmptyString => EmptyString
  | String c r =>
      if isDigit c then String c (replaceNonDigits r) else replaceNonDigits r
  end.

(** [s.split(sep)[0]]: the part of [s] before the first [sep]. *)
Fixpoint splitHead (sep : ascii) (s : string) : string :=
  match s with
  | EmptyString => EmptyString
  | String c r => if Ascii.eqb c sep then EmptyString else String c (splitHead sep r)
  end.

(** The ASCII white space and line terminators that [parseInt] and [trim]
    skip. *)
Definition isWhiteSpace (c : ascii) : bool :=
  let n := N_of_ascii c in
  ((n =? 9) || (n =? 10) || (n =? 11) || (n =? 12) || (n =? 13) || (n =? 32))%N.

Fixpoint trimStart (s : string) : string :=
  match s with
  | String c r => if isWhiteSpace c then trimStart r else s
  | EmptyString => EmptyString
  end.

Fixpoint trimEnd (s : string) : string :=
  match s with
  | EmptyString => EmptyString
  | String c r =>
      match trimEnd r with
      | EmptyString => if isWhiteSpace c then EmptyString else String c EmptyString
      | r' => String c r'
      end
  end.

(** [s.trim()]. *)
Definition trim (s : string) : string := trimEnd (trimStart s).

Definition digitValue (c : ascii) : Z := Z.of_N (N_of_ascii c) - 48.

(** The longest prefix of decimal digits, read as a number; [None] when the
    prefix is empty. *)
Fixpoint parseDigits (seen : bool) (acc : Z) (s : string) : option Z :=
  match s with
  | String c r =>
      if isDigit c then parseDigits true (10 * acc + digitValue c) r
      else if seen then Some acc else None
  | EmptyString => if seen then Some acc else None
  end.

(** [parseInt(s, 10)]; [None] is [NaN]. *)
Definition parseInt (s : string) : option Z :=
  match trimStart s with
  | EmptyString => None
  | String c r =>
      if Ascii.eqb c "-" then Z.opp <$> parseDigits false 0 r
      else if Ascii.eqb c "+" then parseDigits false 0 r
      else parseDigits false 0 (String c r)
  end.

(** [x || 0] on a number: [NaN] and [0] are falsy. *)
Definition orZero (x : option Z) : Z :=
  match x with
  | Some v => v
  | None => 0
  end.

(** [s.endsWith(suffix)]. *)
Fixpoint endsWith (suffix s : string) : bool :=
  String.eqb s suffix ||
  match s with
  | EmptyString => false
  | String _ r => endsWith suffix r
  end.

(** [Array.prototype.sort(comparefn)].  The comparator returns a number,
    [None] for [NaN], which the sort reads as [+0].  The sort is stable, so
    for a consistent comparator its result is the one list that insertion
    from the right builds: each element is put into the sorted rest, behind
    the elements it compares greater than and before the first one it does
    not.  For a comparator that is not consistent the standard leaves the
    order to the engine. *)
Section Sort.
Context {A : Type}.
Variable comparefn : A -> A -> option Z.

Definition sortCompare (x y : A) : Z :=
  match comparefn x y with
  | Some v => v
  | None => 0
  end.

Fixpoint insert (x : A) (l : list A) : list A :=
  match l with
  | [] => [x]
  | y :: l' => if 0 <? sortCompare x y then y :: insert x l' else x :: l
  end.

Definition sort (l : list A) : list A := fold_right insert [] l.

End Sort.

End JS.

(** * types.ts *)

Module Types.

Inductive AttendanceStatus := Hadir | Ijin | Alpa.

Record OfficerAttendance := {
  name : string;
  status : AttendanceStatus;
}.

Record AttendanceRecord := {
  id : string;
  date : string;
  day : string;
  officers : list OfficerAttendance;
  notes : string;
  collection : Z;
}.

(** [interface Schedule { [key: number]: string[] }] of index.tsx. *)
Abbreviation Schedule := (gmap Z (list string)).

End Types.

(** * constants.ts *)

Module Constants.

Definition JADWAL_RONDA : Types.Schedule :=
  list_to_map [
    (1, ["Bp Aris H01"; "Bp Asep H03"; "Bp Iyeng H04"; "Bp Yayan"; "Bp Erik"]);
    (2, ["Bp Ma'ruf"; "Bp Sunara"; "Bp Eka"]);
    (3, ["Bp Ujang Nur"; "Bp Lili"; "Bp Kosim"; "Bp Asep Sarboah"]);
    (4, ["Bp Didin"; "Bp Hamzah"; "Bp Amrin"; "Bp Aden"; "Bp Nanda"]);
    (5, ["Bp Ujang Guru"; "Bp Wawan"; "Bp Riyan"; "Bp Asep H62"; "Bp Irwan";
         "Bp Carkaya"; "Bp Andre"]);
    (6, ["Bp Imam Kurtubi"; "Bp Ayo"; "Bp Ajo"; "Bp Rizki"]);
    (0, ["Bp Haji Udin"; "Bp Imam H47"; "Bp Ikhsan"; "Bp Rastam"])
  ].

Definition NAMA_HARI : gmap Z string :=
  list_to_map [
    (0, "Minggu"); (1, "Senin"); (2, "Selasa"); (3, "Rabu");
    (4, "Kamis"); (5, "Jumat"); (6, "Sabtu")
  ].

End Constants.

(** * components/AttendanceForm.tsx *)

Module AttendanceForm.
Import Types.

(** What the component reads of a [Date]: the local weekday and the UTC
    ISO-8601 rendering. *)
Record Date := {
  getDay : Z;
  toISOString : string;
}.

(** The props.  The local variant reads the roster from the constant
    [JADWAL_RONDA]; the variant of index.tsx receives it as [schedule]. *)
Record Props := {
  existingRecords : list AttendanceRecord;
  schedule : Schedule;
}.

(** The three [useState] cells: the status chosen for each officer, the
    notes, and the text of the collection field. *)
Record State := {
  statuses : gmap string AttendanceStatus;
  notes : string;
  collection : string;
}.

(** What a handler does to the outside: a call of the [addRecord] prop or
    an [alert]. *)
Inductive Effect :=
  | AddRecord (record : AttendanceRecord)
  | Alert (message : string).

Section Component.
Variable props : Props.
Variable today : Date.

Definition dayOfWeek : Z := getDay today.
Definition todayDateString : string := JS.splitHead "T" (toISOString today).

Definition officersOnDuty : list string :=
  default [] (schedule props !! dayOfWeek).

Definition initialStatuses : gmap string AttendanceStatus :=
  fold_left (fun acc name => <[name := Hadir]> acc) officersOnDuty ∅.

Definition initialState : State :=
  {| statuses := initialStatuses; notes := ""; collection := "" |}.

Definition isAlreadySubmitted : bool :=
  existsb (fun record => String.eqb (date record) todayDateString)
          (existingRecords props).

Definition handleStatusChange (name : string) (status : AttendanceStatus)
    (st : State) : State :=
  {| statuses := <[name := status]> (statuses st);
     notes := notes st;
     collection := collection st |}.

Definition setNotes (value : string) (st : State) : State :=
  {| statuses := statuses st; notes := value; collection := collection st |}.

Definition handleCollectionChange (value : string) (st : State) : State :=
  let rawValue := JS.replaceNonDigits value in
  {| statuses := statuses st; notes := notes st; collection := rawValue |}.

(** A template-literal hole over [NAMA_HARI]: a missing key prints as
    [undefined]. *)
Definition namaHari (i : Z) : string :=
  default "undefined" (Constants.NAMA_HARI !! i).

Definition officerData (st : State) : list OfficerAttendance :=
  map (fun name =>
         {| Types.name := name;
            status := default Alpa (statuses st !! name) |})
      officersOnDuty.

(** The record literal of [handleSubmit]; [now] is the second clock
    reading, [new Date().toISOString()]. *)
Definition newRecord (now : string) (st : State) : AttendanceRecord :=
  {| id := now;
     date := todayDateString;
     day := namaHari dayOfWeek +:+ " malam " +:+ namaHari (Z.rem (dayOfWeek + 1) 7);
     officers := officerData st;
     Types.notes := notes st;
     Types.collection := JS.orZero (JS.parseInt (collection st)) |}.

Definition handleSubmit (now : string) (st : State) : State * list Effect :=
  if isAlreadySubmitted then
    (st, [Alert "Absensi untuk hari ini sudah diisi."])
  else
    (initialState,
     [AddRecord (newRecord now st); Alert "Data absensi berhasil disimpan!"]).

End Component.

End AttendanceForm.

(** * App.tsx: the local record store

    The collection lives in one [useState] cell (every change of it is also
    written to [localStorage], which nothing here reads back). *)

Module LocalApp.
Import Types.

Record State := {
  records : list AttendanceRecord;
  alerts : list string;
}.

Definition addRecord (newRecord : AttendanceRecord) (app : State) : State :=
  {| records := records app ++ [newRecord]; alerts := alerts app |}.

Definition handleSetRecords (newRecords : list AttendanceRecord) (app : State) : State :=
  {| records := newRecords; alerts := alerts app |}.

Definition alert (message : string) (app : State) : State :=
  {| records := records app; alerts := alerts app ++ [message] |}.

Definition perform (app : State) (e : AttendanceForm.Effect) : State :=
  match e with
  | AttendanceForm.AddRecord r => addRecord r app
  | AttendanceForm.Alert m => alert m app
  end.

(** The form is rendered with [existingRecords = records]; one click on
    the submit button. *)
Definition formProps (schedule : Schedule) (app : State) : AttendanceForm.Props :=
  {| AttendanceForm.existingRecords := records app;
     AttendanceForm.schedule := schedule |}.

Definition submit (schedule : Schedule) (today : AttendanceForm.Date) (now : string)
    (app : State) (form : AttendanceForm.State) : State * AttendanceForm.State :=
  let '(form', effects) :=
    AttendanceForm.handleSubmit (formProps schedule app) today now form in
  (fold_left perform effects app, form').

End LocalApp.

(** * Numbers as the engine holds them

    Where a number comes from digits that the user typed, without a bound
    on their count, the integer they denote need not be a number of the
    language: a Number is a double.  [Number.t] is the Number that an
    integer becomes. *)

Module Number.

(** A Number with an integer value, an infinity, or [NaN].  (The two zeros
    are not told apart: [-0 || 0] is [0].) *)
Inductive t :=
  | Finite (n : Z)
  | Infinity (negative : bool)
  | NaN.

(** The Number value for the integer [n]: [n] itself below 2^53; from there
    on the nearest double, which is a multiple [q * 2^e] with [q] of 53
    bits, the even [q] of two that are equally near; an infinity when that
    reaches 2^1024. *)
Definition ofZ (n : Z) : t :=
  let a := Z.abs n in
  if a <? 2 ^ 53 then Finite n
  else
    let e := Z.log2 a - 52 in
    let q := a / 2 ^ e in
    let r := a mod 2 ^ e in
    let q' := if (2 ^ e <? 2 * r) || ((2 ^ e =? 2 * r) && Z.odd q) then q + 1 else q in
    let m := q' * 2 ^ e in
    if 2 ^ 1024 <=? m then Infinity (n <? 0) else Finite (Z.sgn n * m).

(** [parseInt(s, 10)] as the Number it returns: the integer that
    [JS.parseInt] reads, converted; [NaN] where there is no digit. *)
Definition parseInt (s : string) : t :=
  match JS.parseInt s with
  | Some v => ofZ v
  | None => NaN
  end.

(** [x || 0] on a Number: [NaN] and the zeros are falsy. *)
Definition orZero (x : t) : t :=
  match x with
  | NaN => Finite 0
  | _ => x
  end.

End Number.

(** ** components/AttendanceForm.tsx: the amount as a Number *)

Module Amount.

(** [parseInt(collection, 10) || 0] in the record literal of
    [handleSubmit]. *)
Definition submitted (st : AttendanceForm.State) : Number.t :=
  Number.orZero (Number.parseInt (AttendanceForm.collection st)).

(** The amount that a submission stores when [input] was the last text
    typed into the collection field. *)
Definition stored (input : string) (st : AttendanceForm.State) : Number.t :=
  submitted (AttendanceForm.handleCollectionChange input st).

End Amount.

(** * The [Date] constructor on a date string *)

Module Date.

(** [new Date(s).getTime()] for the date-only form [YYYY-MM-DD] of the
    ECMAScript date-time format, read as UTC midnight in milliseconds;
    [None] is [NaN] (an invalid date).  Other spellings of a date are left
    to each engine by the standard and are [None] here; the theorems on the
    recap view hold for any function from strings to time values. *)

Definition isLeapYear (y : Z) : bool :=
  ((y mod 4 =? 0) && negb (y mod 100 =? 0)) || (y mod 400 =? 0).

Definition daysInMonth (y m : Z) : Z :=
  if m =? 2 then (if isLeapYear y then 29 else 28)
  else if (m =? 4) || (m =? 6) || (m =? 9) || (m =? 11) then 30
  else 31.

(** Days from 1970-01-01 to the civil date [y]-[m]-[d]. *)
Definition daysFromCivil (y m d : Z) : Z :=
  let y' := if m <=? 2 then y - 1 else y in
  let era := y' / 400 in
  let yoe := y' - era * 400 in
  let mp := if 2 <? m then m - 3 else m + 9 in
  let doy := (153 * mp + 2) / 5 + d - 1 in
  let doe := yoe * 365 + yoe / 4 - yoe / 100 + doy in
  era * 146097 + doe - 719468.

Definition digits2 (a b : ascii) : option Z :=
  if JS.isDigit a && JS.isDigit b
  then Some (10 * JS.digitValue a + JS.digitValue b)
  else None.

Definition parseDateOnly (s : string) : option (Z * Z * Z) :=
  match s with
  | String y1 (String y2 (String y3 (String y4 (String "-"
      (String m1 (String m2 (String "-" (String d1 (String d2 EmptyString))))))))) =>
      match digits2 y1 y2, digits2 y3 y4, digits2 m1 m2, digits2 d1 d2 with
      | Some yh, Some yl, Some m, Some d => Some (100 * yh + yl, m, d)
      | _, _, _, _ => None
      end
  | _ => None
  end.

Definition getTime (s : string) : option Z :=
  match parseDateOnly s with
  | Some (y, m, d) =>
      if (1 <=? m) && (m <=? 12) && (1 <=? d) && (d <=? daysInMonth y m)
      then Some (daysFromCivil y m d * 86400000)
      else None
  | None => None
  end.

End Date.


(** * JSON: the values, [JSON.stringify(value, null, 2)] and [JSON.parse] *)

Module JSON.

#[local] Set Warnings "-register-all".

(** A value that [JSON.parse] can return.  A number written without
    fraction and exponent is the integer it denotes; a number written with
    one is kept as its literal, the double it denotes is not computed.  The
    members of an object stand in property order. *)
Inductive value :=
  | JNull
  | JBool (b : bool)
  | JNumber (n : Z)
  | JDecimal (literal : string)
  | JString (s : string)
  | JArray (elements : list value)
  | JObject (members : list (string * value)).

Definition quote : ascii := ascii_of_N 34.
Definition backslash : ascii := ascii_of_N 92.
Definition newline : ascii := ascii_of_N 10.

(** ** Printing *)

Definition hexDigit (n : N) : ascii :=
  if (n <? 10)%N then ascii_of_N (48 + n) else ascii_of_N (87 + n).

(** [QuoteJSONString] on one character: the short escapes, a [\u00xx]
    escape for the other control characters, the character itself
    otherwise. *)
Definition quoteChar (c : ascii) : string :=
  let n := N_of_ascii c in
  let esc (e : ascii) := String backslash (String e EmptyString) in
  if (n =? 8)%N then esc "b"%char
  else if (n =? 9)%N then esc "t"%char
  else if (n =? 10)%N then esc "n"%char
  else if (n =? 12)%N then esc "f"%char
  else if (n =? 13)%N then esc "r"%char
  else if (n =? 34)%N then esc quote
  else if (n =? 92)%N then esc backslash
  else if (n <? 32)%N then
    String backslash (String "u" (String "0" (String "0"
      (String (hexDigit (n / 16)) (String (hexDigit (n mod 16)) EmptyString)))))
  else String c EmptyString.

Fixpoint quoteChars (s : string) : string :=
  match s with
  | EmptyString => EmptyString
  | String c r => quoteChar c +:+ quoteChars r
  end.

Definition quoteJSONString (s : string) : string :=
  String quote (quoteChars s +:+ String quote EmptyString).

(** The decimal digits of a natural number, most significant first, put in
    front of [acc]. *)
Fixpoint digitsOf (fuel : nat) (n : Z) (acc : string) : string :=
  match fuel with
  | O => acc
  | S fuel' =>
      let acc' := String (ascii_of_N (48 + Z.to_N (n mod 10))) acc in
      if n <? 10 then acc' else digitsOf fuel' (n / 10) acc'
  end.

Definition printNat (n : Z) : string :=
  digitsOf (S (Z.to_nat (Z.log2 n))) n EmptyString.

Definition printZ (n : Z) : string :=
  if n <? 0 then String "-" (printNat (- n)) else printNat n.

Fixpoint spaces (n : nat) : string :=
  match n with
  | O => EmptyString
  | S k => String " " (spaces k)
  end.

(** Every item of a non-empty array or object stands on a line of its own:
    a line break and the indentation, then the item. *)
Section Items.
Context {A : Type}.
Variable item : A -> string.
Variable indent : nat.

Definition line (x : A) : string :=
  String newline (spaces indent +:+ item x).

Fixpoint moreLines (l : list A) : string :=
  match l with
  | [] => EmptyString
  | x :: l' => String "," (line x +:+ moreLines l')
  end.

Definition lines (l : list A) : string :=
  match l with
  | [] => EmptyString
  | x :: l' => line x +:+ moreLines l'
  end.

End Items.

(** The indentation step, the third argument of [JSON.stringify]. *)
Definition gap : nat := 2.

Fixpoint print (indent : nat) (v : value) : string :=
  match v with
  | JNull => "null"
  | JBool true => "true"
  | JBool false => "false"
  | JNumber n => printZ n
  | JDecimal literal => literal
  | JString s => quoteJSONString s
  | JArray [] => "[]"
  | JArray elements =>
      String "[" (lines (print (indent + gap)) (indent + gap) elements
        +:+ String newline (spaces indent +:+ "]"))
  | JObject [] => "{}"
  | JObject members =>
      String "{" (lines (fun m : string * value =>
                           quoteJSONString (fst m) +:+ ": " +:+ print (indent + gap) (snd m))
                        (indent + gap) members
        +:+ String newline (spaces indent +:+ "}"))
  end.

(** [JSON.stringify(value, null, 2)]. *)
Definition stringify (v : value) : string := print 0 v.

(** ** Parsing *)

Definition isWhiteSpace (c : ascii) : bool :=
  let n := N_of_ascii c in
  ((n =? 9) || (n =? 10) || (n =? 13) || (n =? 32))%N.

Fixpoint skipWs (s : string) : string :=
  match s with
  | String c r => if isWhiteSpace c then skipWs r else s
  | EmptyString => EmptyString
  end.

Fixpoint stripPrefix (p s : string) : option string :=
  match p with
  | EmptyString => Some s
  | String a p' =>
      match s with
      | String b s' => if Ascii.eqb a b then stripPrefix p' s' else None
      | EmptyString => None
      end
  end.

(** *** Strings *)

Definition hexValue (c : ascii) : option N :=
  let n := N_of_ascii c in
  if ((48 <=? n) && (n <=? 57))%N then Some (n - 48)%N
  else if ((97 <=? n) && (n <=? 102))%N then Some (n - 87)%N
  else if ((65 <=? n) && (n <=? 70))%N then Some (n - 55)%N
  else None.

Definition hex4 (a b c d : ascii) : option N :=
  match hexValue a, hexValue b, hexValue c, hexValue d with
  | Some x, Some y, Some z, Some w => Some (((x * 16 + y) * 16 + z) * 16 + w)%N
  | _, _, _, _ => None
  end.

(** The UTF-8 bytes of a code point; a surrogate that stands alone keeps
    its three-byte form. *)
Definition utf8 (n : N) : string :=
  let b (k : N) := ascii_of_N k in
  (if n <? 128 then String (b n) EmptyString
   else if n <? 2048 then
     String (b (192 + n / 64)) (String (b (128 + n mod 64)) EmptyString)
   else if n <? 65536 then
     String (b (224 + n / 4096))
       (String (b (128 + (n / 64) mod 64)) (String (b (128 + n mod 64)) EmptyString))
   else
     String (b (240 + n / 262144))
       (String (b (128 + (n / 4096) mod 64))
          (String (b (128 + (n / 64) mod 64)) (String (b (128 + n mod 64)) EmptyString))))%N.

Definition isHighSurrogate (n : N) : bool := ((55296 <=? n) && (n <? 56320))%N.
Definition isLowSurrogate (n : N) : bool := ((56320 <=? n) && (n <? 57344))%N.

Definition unescape (e : ascii) : option ascii :=
  if Ascii.eqb e quote then Some quote
  else if Ascii.eqb e backslash then Some backslash
  else if Ascii.eqb e "/" then Some "/"%char
  else if Ascii.eqb e "b" then Some (ascii_of_N 8)
  else if Ascii.eqb e "f" then Some (ascii_of_N 12)
  else if Ascii.eqb e "n" then Some (ascii_of_N 10)
  else if Ascii.eqb e "r" then Some (ascii_of_N 13)
  else if Ascii.eqb e "t" then Some (ascii_of_N 9)
  else None.

Definition prepend (p : string) (res : option (string * string)) : option (string * string) :=
  match res with
  | Some (str, r) => Some (p +:+ str, r)
  | None => None
  end.

(** The characters of a string after its opening quote, up to the closing
    quote: the string denoted and the text behind the closing quote. *)
Fixpoint parseChars (s : string) : option (string * string) :=
  match s with
  | EmptyString => None
  | String c r =>
      if Ascii.eqb c quote then Some (EmptyString, r)
      else if Ascii.eqb c backslash then
        match r with
        | EmptyString => None
        | String e r1 =>
            if Ascii.eqb e "u" then
              match r1 with
              | String h1 (String h2 (String h3 (String h4 r2))) =>
                  match hex4 h1 h2 h3 h4 with
                  | None => None
                  | Some hi =>
                      if isHighSurrogate hi then
                        match r2 with
                        | String b (String u (String l1 (String l2 (String l3 (String l4 r3))))) =>
                            match hex4 l1 l2 l3 l4 with
                            | Some lo =>
                                if Ascii.eqb b backslash && Ascii.eqb u "u" && isLowSurrogate lo
                                then prepend (utf8 (65536 + (hi - 55296) * 1024 + (lo - 56320))%N)
                                             (parseChars r3)
                                else prepend (utf8 hi) (parseChars r2)
                            | None => prepend (utf8 hi) (parseChars r2)
                            end
                        | _ => prepend (utf8 hi) (parseChars r2)
                        end
                      else prepend (utf8 hi) (parseChars r2)
                  end
              | _ => None
              end
            else
              match unescape e with
              | Some c' => prepend (String c' EmptyString) (parseChars r1)
              | None => None
              end
        end
      else if (N_of_ascii c <? 32)%N then None
      else prepend (String c EmptyString) (parseChars r)
  end.

(** *** Numbers *)

Fixpoint readDigits (s : string) (acc : Z) : Z * string :=
  match s with
  | String c r =>
      if JS.isDigit c then readDigits r (10 * acc + JS.digitValue c) else (acc, s)
  | EmptyString => (acc, EmptyString)
  end.

Fixpoint scanDigits (s : string) : string * string :=
  match s with
  | String c r =>
      if JS.isDigit c then (let '(ds, r') := scanDigits r in (String c ds, r'))
      else (EmptyString, s)
  | EmptyString => (EmptyString, EmptyString)
  end.

(** The fraction of a number, if one is written: its text and the rest. *)
Definition parseFraction (s : string) : option (string * string) :=
  match s with
  | String c r =>
      if Ascii.eqb c "." then
        match scanDigits r with
        | (EmptyString, _) => None
        | (ds, r') => Some (String c ds, r')
        end
      else Some (EmptyString, s)
  | EmptyString => Some (EmptyString, EmptyString)
  end.

(** The exponent of a number, if one is written: its text and the rest. *)
Definition parseExponent (s : string) : option (string * string) :=
  match s with
  | String c r =>
      if Ascii.eqb c "e" || Ascii.eqb c "E" then
        let '(sign, r1) :=
          match r with
          | String g r' =>
              if Ascii.eqb g "+" || Ascii.eqb g "-"
              then (String g EmptyString, r') else (EmptyString, r)
          | EmptyString => (EmptyString, r)
          end in
        match scanDigits r1 with
        | (EmptyString, _) => None
        | (ds, r2) => Some (String c (sign +:+ ds), r2)
        end
      else Some (EmptyString, s)
  | EmptyString => Some (EmptyString, EmptyString)
  end.

(** The integer part: a single [0], or digits that do not start with [0]:
    its value, its text and the rest. *)
Definition parseInteger (s : string) : option (Z * string * string) :=
  match s with
  | String c r =>
      if Ascii.eqb c "0" then Some (0, "0", r)
      else if JS.isDigit c then
        Some (fst (readDigits s 0), fst (scanDigits s), snd (readDigits s 0))
      else None
  | EmptyString => None
  end.

Definition parseNumber (s : string) : option (value * string) :=
  let '(neg, s1) :=
    match s with
    | String c r => if Ascii.eqb c "-" then (true, r) else (false, s)
    | EmptyString => (false, s)
    end in
  match parseInteger s1 with
  | None => None
  | Some (n, int, r1) =>
      match parseFraction r1 with
      | None => None
      | Some (frac, r2) =>
          match parseExponent r2 with
          | None => None
          | Some (exp, r3) =>
              match frac, exp with
              | EmptyString, EmptyString => Some (JNumber (if neg then - n else n), r3)
              | _, _ =>
                  Some (JDecimal ((if neg then "-" else "") +:+ int +:+ frac +:+ exp), r3)
              end
          end
      end
  end.

(** *** Objects in property order *)

Fixpoint allDigitsb (s : string) : bool :=
  match s with
  | EmptyString => true
  | String c r => JS.isDigit c && allDigitsb r
  end.

(** An array index: the canonical decimal text of a number below 2^32 - 1.
    Such keys come first in property order, by value. *)
Definition arrayIndex (k : string) : option Z :=
  match k with
  | EmptyString => None
  | String c r =>
      if allDigitsb k && (negb (Ascii.eqb c "0") || String.eqb r EmptyString) then
        (let n := fst (readDigits k 0) in if n <? 4294967295 then Some n else None)
      else None
  end.

Fixpoint replaceMember (k : string) (v : value) (ms : list (string * value))
    : option (list (string * value)) :=
  match ms with
  | [] => None
  | (k', v') :: ms' =>
      if String.eqb k' k then Some ((k', v) :: ms')
      else
        match replaceMember k v ms' with
        | Some ms'' => Some ((k', v') :: ms'')
        | None => None
        end
  end.

Fixpoint insertIndexed (n : Z) (k : string) (v : value) (ms : list (string * value))
    : list (string * value) :=
  match ms with
  | [] => [(k, v)]
  | (k', v') :: ms' =>
      match arrayIndex k' with
      | Some n' => if n' <? n then (k', v') :: insertIndexed n k v ms' else (k, v) :: ms
      | None => (k, v) :: ms
      end
  end.

(** [CreateDataProperty]: a key already there keeps its place and takes the
    new value; a new array index goes among the indices; any other new key
    goes last. *)
Definition setProperty (k : string) (v : value) (ms : list (string * value))
    : list (string * value) :=
  match replaceMember k v ms with
  | Some ms' => ms'
  | None =>
      match arrayIndex k with
      | Some n => insertIndexed n k v ms
      | None => ms ++ [(k, v)]
      end
  end.

(** *** Values *)

(** Recursive descent; [fuel] bounds the number of nested calls.  Every call
    consumes a character, so the length of the text plus one is enough for
    every text ([parse_any_fuel] below). *)
Fixpoint parseValue (fuel : nat) (s : string) : option (value * string) :=
  match fuel with
  | O => None
  | S fuel' =>
      match skipWs s with
      | EmptyString => None
      | String c r =>
          if Ascii.eqb c "[" then
            match skipWs r with
            | EmptyString => None
            | String c' r' =>
                if Ascii.eqb c' "]" then Some (JArray [], r')
                else parseElements fuel' r []
            end
          else if Ascii.eqb c "{" then
            match skipWs r with
            | EmptyString => None
            | String c' r' =>
                if Ascii.eqb c' "}" then Some (JObject [], r')
                else parseMembers fuel' r []
            end
          else if Ascii.eqb c quote then
            match parseChars r with
            | Some (str, r') => Some (JString str, r')
            | None => None
            end
          else if Ascii.eqb c "n" then
            match stripPrefix "ull" r with Some r' => Some (JNull, r') | None => None end
          else if Ascii.eqb c "t" then
            match stripPrefix "rue" r with Some r' => Some (JBool true, r') | None => None end
          else if Ascii.eqb c "f" then
            match stripPrefix "alse" r with Some r' => Some (JBool false, r') | None => None end
          else parseNumber (String c r)
      end
  end
with parseElements (fuel : nat) (s : string) (acc : list value) : option (value * string) :=
  match fuel with
  | O => None
  | S fuel' =>
      match parseValue fuel' s with
      | None => None
      | Some (v, r) =>
          match skipWs r with
          | EmptyString => None
          | String c r' =>
              if Ascii.eqb c "," then parseElements fuel' r' (acc ++ [v])
              else if Ascii.eqb c "]" then Some (JArray (acc ++ [v]), r')
              else None
          end
      end
  end
with parseMembers (fuel : nat) (s : string) (acc : list (string * value))
    : option (value * string) :=
  match fuel with
  | O => None
  | S fuel' =>
      match skipWs s with
      | EmptyString => None
      | String q r =>
          if Ascii.eqb q quote then
            match parseChars r with
            | None => None
            | Some (key, r1) =>
                match skipWs r1 with
                | EmptyString => None
                | String c1 r2 =>
                    if Ascii.eqb c1 ":" then
                      match parseValue fuel' r2 with
                      | None => None
                      | Some (v, r3) =>
                          match skipWs r3 with
                          | EmptyString => None
                          | String c3 r4 =>
                              if Ascii.eqb c3 "," then
                                parseMembers fuel' r4 (setProperty key v acc)
                              else if Ascii.eqb c3 "}" then
                                Some (JObject (setProperty key v acc), r4)
                              else None
                          end
                      end
                    else None
                end
            end
          else None
      end
  end.

(** ** The values the printer keeps apart

    A value is [plain] when it holds no number literal with a fraction or an
    exponent and every object lists each key once and no array index among
    its keys: then its members stand as [setProperty] leaves them. *)

Fixpoint plainKeys (ks : list string) : bool :=
  match ks with
  | [] => true
  | k :: ks' =>
      negb (existsb (String.eqb k) ks')
      && match arrayIndex k with None => true | Some _ => false end
      && plainKeys ks'
  end.

Fixpoint plain (v : value) : bool :=
  match v with
  | JDecimal _ => false
  | JArray elements => forallb plain elements
  | JObject members =>
      plainKeys (map fst members) && forallb (fun m => plain (snd m)) members
  | _ => true
  end.

(** The number of nested calls the parser makes on the text of [v]. *)
Fixpoint cost (v : value) : nat :=
  match v with
  | JArray elements => S (list_sum (map (fun e => S (cost e)) elements))
  | JObject members => S (list_sum (map (fun m => S (cost (snd m))) members))
  | _ => 1
  end.

(** [JSON.parse(text)]; [None] is the [SyntaxError] it throws. *)
Definition parse (text : string) : option value :=
  match parseValue (S (String.length text)) text with
  | Some (v, r) =>
      match skipWs r with
      | EmptyString => Some v
      | _ => None
      end
  | None => None
  end.

End JSON.

(** * The run-time objects of the typed records *)

Module Runtime.
Import Types.

(** The string enum of types.ts. *)
Definition statusToJS (s : AttendanceStatus) : JSON.value :=
  JSON.JString
    match s with
    | Hadir => "Hadir"
    | Ijin => "Ijin"
    | Alpa => "Alpa"
    end.

(** The object literal of [officerData]. *)
Definition officerToJS (o : OfficerAttendance) : JSON.value :=
  JSON.JObject [("name", JSON.JString (name o)); ("status", statusToJS (status o))].

(** The object literal [newRecord] of [handleSubmit], its properties in
    the order written there. *)
Definition toJS (r : AttendanceRecord) : JSON.value :=
  JSON.JObject
    [("id", JSON.JString (id r));
     ("date", JSON.JString (date r));
     ("day", JSON.JString (day r));
     ("officers", JSON.JArray (map officerToJS (officers r)));
     ("notes", JSON.JString (notes r));
     ("collection", JSON.JNumber (collection r))].

(** The object a schedule literal with the keys 0 to 6 is: integer keys
    stand in ascending order. *)
Definition scheduleToJS (s : Schedule) : JSON.value :=
  JSON.JObject
    (map (fun d => (JSON.printZ d, JSON.JArray (map JSON.JString (default [] (s !! d)))))
         [0; 1; 2; 3; 4; 5; 6]).

End Runtime.
(** * components/AttendanceRecap.tsx *)

Module AttendanceRecap.
Import Types.

Section View.
(** [s => new Date(s).getTime()], [None] for [NaN]. *)
Variable getTime : string -> option Z.

(** [(a, b) => new Date(b.date).getTime() - new Date(a.date).getTime()];
    a difference with [NaN] is [NaN]. *)
Definition byDateDescending (a b : AttendanceRecord) : option Z :=
  match getTime (date b), getTime (date a) with
  | Some tb, Some ta => Some (tb - ta)
  | _, _ => None
  end.

(** The [useMemo] of the local variant: the filter runs before the sort. *)
Definition filteredRecords (records : list AttendanceRecord) (filterDate : string)
    : list AttendanceRecord :=
  match filterDate with
  | EmptyString => JS.sort byDateDescending records
  | _ =>
      JS.sort byDateDescending
        (List.filter (fun record => String.eqb (date record) filterDate) records)
  end.

(** The [useMemo] of index.tsx: the sort runs before the filter. *)
Definition filteredRecordsRemote (records : list AttendanceRecord) (filterDate : string)
    : list AttendanceRecord :=
  let sortedRecords := JS.sort byDateDescending records in
  match filterDate with
  | EmptyString => sortedRecords
  | _ => List.filter (fun record => String.eqb (date record) filterDate) sortedRecords
  end.

End View.

(** Import and export work on the run-time values of the records. *)

(** What a handler does to the outside: a call of the [setRecords] prop or
    an [alert]. *)
Inductive Effect :=
  | SetRecords (parsedData : list JSON.value)
  | Alert (message : string).

(** [handleDownload]: the text [dataStr] offered for download as
    data_ronda.json. *)
Definition handleDownload (records : list JSON.value) : string :=
  let dataStr := JSON.stringify (JSON.JArray records) in
  dataStr.

(** [handleUpload]: [file] is the text of the chosen file as [readAsText]
    delivers it, [None] when no file was chosen. *)
Definition handleUpload (file : option string) : list Effect :=
  match file with
  | None => []
  | Some text =>
      match JSON.parse text with
      | None => [Alert "Gagal membaca file JSON. Pastikan formatnya benar."]
      | Some (JSON.JArray parsedData) =>
          [SetRecords parsedData; Alert "Data berhasil diimpor!"]
      | Some _ => [Alert "Format file JSON tidak valid."]
      end
  end.

(** The record collection after an effect: [setRecords] of App.tsx
    replaces it, an [alert] leaves it. *)
Definition perform (records : list JSON.value) (e : Effect) : list JSON.value :=
  match e with
  | SetRecords newRecords => newRecords
  | Alert _ => records
  end.

Definition alertsOf (effects : list Effect) : list string :=
  flat_map (fun e => match e with Alert m => [m] | SetRecords _ => [] end) effects.

(** One import: the collection afterwards and what the user was told. *)
Definition import (records : list JSON.value) (file : option string)
    : list JSON.value * list string :=
  let effects := handleUpload file in
  (fold_left perform effects records, alertsOf effects).

End AttendanceRecap.

(** * index.tsx: the store on GitHub and the App that synchronises with it *)

Module Github.

Record GithubSettings := {
  user : string;
  repo : string;
  token : string;
}.

(** ** The remote store

    Modelled from the spec: the repository behind the GitHub contents API,
    which is no code of this repository, as far as the App can observe it:
    the files with their decoded text and version token (the blob hash), and
    what the access token in use is allowed to do.  The base64 coding of the
    transport is the identity on the text and is left out. *)

Record RemoteFile := {
  text : string;
  sha : string;
}.

Inductive Access := Denied | ReadOnly | ReadWrite.

Record Remote := {
  files : gmap string RemoteFile;
  access : Access;
}.

(** A response: a file (status 200), a new blob hash (status 200 or 201),
    or a failure with its status and status text. *)
Inductive Response (A : Type) :=
  | Success (data : A)
  | Failure (status : Z) (statusText : string).
Arguments Success {A} data.
Arguments Failure {A} status statusText.

(** A thrown [Error] with its message, or a value. *)
Inductive Result (A : Type) :=
  | Ok (a : A)
  | Throw (message : string).
Arguments Ok {A} a.
Arguments Throw {A} message.

Section Api.
(** The hash the store gives to a content. *)
Variable blobSha : string -> string.

(** Modelled from the spec: [GET /repos/:user/:repo/contents/:path]
    answers with the file, with not-found for a path that has none, and
    with a failure for a token that may not read. *)
Definition GET (remote : Remote) (path : string) : Response RemoteFile :=
  match access remote with
  | Denied => Failure 401 "Unauthorized"
  | _ =>
      match files remote !! path with
      | Some file => Success file
      | None => Failure 404 "Not Found"
      end
  end.

(** Modelled from the spec: [PUT /repos/:user/:repo/contents/:path]
    creates the file when there is none and no version token is sent,
    replaces it when the token sent is the token of the file in the store,
    and refuses the write otherwise, as it does for a token that may not
    write. *)
Definition PUT (remote : Remote) (path content : string) (sent : option string)
    : Response string * Remote :=
  let stored :=
    {| files := <[path := {| text := content; sha := blobSha content |}]> (files remote);
       access := access remote |} in
  match access remote with
  | Denied => (Failure 401 "Unauthorized", remote)
  | ReadOnly => (Failure 403 "Forbidden", remote)
  | ReadWrite =>
      match files remote !! path, sent with
      | None, None => (Success (blobSha content), stored)
      | None, Some _ => (Failure 409 "Conflict", remote)
      | Some file, None => (Failure 422 "Unprocessable Entity", remote)
      | Some file, Some h =>
          if String.eqb h (sha file) then (Success (blobSha content), stored)
          else (Failure 409 "Conflict", remote)
      end
  end.

(** ** The API helpers *)

Definition DEFAULT_JADWAL_RONDA : JSON.value := Runtime.scheduleToJS Constants.JADWAL_RONDA.

(** The message of the [SyntaxError] that [JSON.parse] throws; its wording
    is the engine's. *)
Definition syntaxError : string := "Unexpected token in JSON".

(** [getFile]: [Ok None] is the [null] returned for a missing file. *)
Definition getFile (remote : Remote) (path : string)
    : Result (option (JSON.value * option string)) :=
  match GET remote path with
  | Failure status statusText =>
      if status =? 404 then Ok None
      else Throw ("Gagal mengambil file " +:+ path +:+ ": " +:+ statusText)
  | Success data =>
      let decodedContent := text data in
      match decodedContent with
      | EmptyString =>
          let defaultContent :=
            if JS.endsWith "data.json" path then JSON.JArray [] else DEFAULT_JADWAL_RONDA in
          Ok (Some (defaultContent, Some (sha data)))
      | _ =>
          match JSON.parse decodedContent with
          | Some content => Ok (Some (content, Some (sha data)))
          | None => Throw syntaxError
          end
      end
  end.

(** [updateFile]: the new blob hash, [result.content.sha].  A hash that is
    [undefined] or empty is left out of the request body. *)
Definition updateFile (remote : Remote) (path : string) (content : JSON.value)
    (sha : option string) : Result string * Remote :=
  let sent :=
    match sha with
    | Some EmptyString => None
    | _ => sha
    end in
  match PUT remote path (JSON.stringify content) sent with
  | (Success newSha, remote') => (Ok newSha, remote')
  | (Failure _ statusText, remote') =>
      (Throw ("Gagal menyimpan file " +:+ path +:+ ": " +:+ statusText), remote')
  end.

(** ** The App *)

(** The [useState] cells and refs of [App] that the synchronisation reads
    or writes, the settings kept in [localStorage], and the alerts shown. *)
Record App := {
  records : JSON.value;
  schedule : JSON.value;
  githubSettings : option GithubSettings;
  showSettings : bool;
  isInitialized : bool;
  recordsSha : option string;
  scheduleSha : option string;
  storedSettings : option GithubSettings;
  alerts : list string;
}.

Definition setRecords (v : JSON.value) (a : App) : App :=
  {| records := v; schedule := schedule a; githubSettings := githubSettings a;
     showSettings := showSettings a; isInitialized := isInitialized a;
     recordsSha := recordsSha a; scheduleSha := scheduleSha a;
     storedSettings := storedSettings a; alerts := alerts a |}.

Definition setSchedule (v : JSON.value) (a : App) : App :=
  {| records := records a; schedule := v; githubSettings := githubSettings a;
     showSettings := showSettings a; isInitialized := isInitialized a;
     recordsSha := recordsSha a; scheduleSha := scheduleSha a;
     storedSettings := storedSettings a; alerts := alerts a |}.

Definition setRecordsSha (h : option string) (a : App) : App :=
  {| records := records a; schedule := schedule a; githubSettings := githubSettings a;
     showSettings := showSettings a; isInitialized := isInitialized a;
     recordsSha := h; scheduleSha := scheduleSha a;
     storedSettings := storedSettings a; alerts := alerts a |}.

Definition setScheduleSha (h : option string) (a : App) : App :=
  {| records := records a; schedule := schedule a; githubSettings := githubSettings a;
     showSettings := showSettings a; isInitialized := isInitialized a;
     recordsSha := recordsSha a; scheduleSha := h;
     storedSettings := storedSettings a; alerts := alerts a |}.

Definition setIsInitialized (b : bool) (a : App) : App :=
  {| records := records a; schedule := schedule a; githubSettings := githubSettings a;
     showSettings := showSettings a; isInitialized := b;
     recordsSha := recordsSha a; scheduleSha := scheduleSha a;
     storedSettings := storedSettings a; alerts := alerts a |}.

Definition alert (message : string) (a : App) : App :=
  {| records := records a; schedule := schedule a; githubSettings := githubSettings a;
     showSettings := showSettings a; isInitialized := isInitialized a;
     recordsSha := recordsSha a; scheduleSha := scheduleSha a;
     storedSettings := storedSettings a; alerts := alerts a ++ [message] |}.

(** The three statements of the [catch] of [loadDataFromGithub]: the stored
    settings are removed, the settings are cleared, the modal opens. *)
Definition forgetSettings (a : App) : App :=
  {| records := records a; schedule := schedule a; githubSettings := None;
     showSettings := true; isInitialized := isInitialized a;
     recordsSha := recordsSha a; scheduleSha := scheduleSha a;
     storedSettings := None; alerts := alerts a |}.

(** The App as first rendered. *)
Definition initialApp : App :=
  {| records := JSON.JArray []; schedule := DEFAULT_JADWAL_RONDA;
     githubSettings := None; showSettings := false; isInitialized := false;
     recordsSha := None; scheduleSha := None; storedSettings := None; alerts := [] |}.

(** An asynchronous function of the App: it runs on the App and the remote
    store, changes both, and ends with a value or a thrown error. *)
Definition Async (A : Type) : Type := App * Remote -> Result A * (App * Remote).

Definition ret {A} (a : A) : Async A := fun w => (Ok a, w).

Definition bind {A B} (m : Async A) (k : A -> Async B) : Async B :=
  fun w =>
    match m w with
    | (Ok a, w') => k a w'
    | (Throw message, w') => (Throw message, w')
    end.

Definition throw {A} (message : string) : Async A := fun w => (Throw message, w).

(** [try { m } catch (error) { handler(error.message) }]. *)
Definition tryCatch {A} (m : Async A) (handler : string -> Async A) : Async A :=
  fun w =>
    match m w with
    | (Ok a, w') => (Ok a, w')
    | (Throw message, w') => handler message w'
    end.

(** [try { m } finally { last }] for a [last] that does not throw. *)
Definition tryFinally {A} (m : Async A) (last : App -> App) : Async A :=
  fun w =>
    match m w with
    | (r, (a, remote)) => (r, (last a, remote))
    end.

Definition modify (f : App -> App) : Async unit :=
  fun w => (Ok tt, (f (fst w), snd w)).

Definition await_getFile (path : string) : Async (option (JSON.value * option string)) :=
  fun w =>
    match getFile (snd w) path with
    | Ok r => (Ok r, w)
    | Throw message => (Throw message, w)
    end.

Definition await_updateFile (path : string) (content : JSON.value) (sha : option string)
    : Async string :=
  fun w =>
    match updateFile (snd w) path content sha with
    | (r, remote') => (r, (fst w, remote'))
    end.

Notation "'await' x := m 'in' k" := (bind m (fun x => k))
  (at level 10, x name, m at level 100, k at level 200).
Notation "'perform' m 'in' k" := (bind m (fun _ => k))
  (at level 10, m at level 100, k at level 200).

(** The step that [loadDataFromGithub] takes for each of its two files:
    fetch it, and when it is missing create it with the default payload and
    go on with that payload and no hash. *)
Definition loadOrCreate (path : string) (defaultPayload : JSON.value)
    : Async (JSON.value * option string) :=
  await data := await_getFile path in
  match data with
  | Some found => ret found
  | None =>
      perform await_updateFile path defaultPayload None in
      ret (defaultPayload, None)
  end.

Definition loadDataFromGithub (settings : GithubSettings) : Async unit :=
  match token settings with
  | EmptyString => ret tt
  | _ =>
      tryFinally
        (tryCatch
           (await scheduleData := loadOrCreate "schedule.json" DEFAULT_JADWAL_RONDA in
            perform modify (setSchedule (fst scheduleData)) in
            perform modify (setScheduleSha (snd scheduleData)) in
            await recordsData := loadOrCreate "data.json" (JSON.JArray []) in
            perform modify (setRecords (fst recordsData)) in
            modify (setRecordsSha (snd recordsData)))
           (fun message =>
              perform modify (alert ("Gagal memuat data dari GitHub: " +:+ message)) in
              modify forgetSettings))
        (setIsInitialized true)
  end.

(** [[...records, newRecord]]: the spread of a value that is no array
    throws a [TypeError] (the form that calls [addRecord] is rendered for an
    array only). *)
Definition spread (records : JSON.value) (newRecord : JSON.value) : Async JSON.value :=
  match records with
  | JSON.JArray l => ret (JSON.JArray (l ++ [newRecord]))
  | _ => throw "records is not iterable"
  end.

Definition addRecord (newRecord : JSON.value) : Async unit :=
  fun w =>
    match githubSettings (fst w) with
    | None => (Ok tt, w)
    | Some settings =>
        tryCatch
          (await updatedRecords := spread (records (fst w)) newRecord in
           await newSha :=
             await_updateFile "data.json" updatedRecords (recordsSha (fst w)) in
           perform modify (setRecordsSha (Some newSha)) in
           perform modify (setRecords updatedRecords) in
           modify (alert "Data absensi berhasil disimpan!"))
          (fun message =>
             perform modify (alert ("Gagal menyimpan absensi: " +:+ message)) in
             loadDataFromGithub settings)
          w
    end.

End Api.

End Github.

(** * index.tsx: the schedule editor *)

Module ScheduleEditorModal.
Import Types.

(** The two [useState] cells of the modal. *)
Record State := {
  schedule : Schedule;
  newOfficerName : gmap Z string;
}.

(** A handler either runs to its end or throws a [TypeError]; React keeps
    the state of a handler that throws. *)
Inductive Outcome :=
  | Done (st : State)
  | TypeError.

Definition stateAfter (st : State) (o : Outcome) : State :=
  match o with
  | Done st' => st'
  | TypeError => st
  end.

Definition addOfficer (dayIndex : Z) (st : State) : Outcome :=
  match JS.trim <$> (newOfficerName st !! dayIndex) with
  | None => Done st
  | Some EmptyString => Done st
  | Some name =>
      match schedule st !! dayIndex with
      | None => TypeError
      | Some officers =>
          if existsb (String.eqb name) officers then Done st
          else
            Done {| schedule := <[dayIndex := officers ++ [name]]> (schedule st);
                    newOfficerName := <[dayIndex := ""]> (newOfficerName st) |}
      end
  end.

Definition removeOfficer (dayIndex : Z) (name : string) (st : State) : Outcome :=
  match schedule st !! dayIndex with
  | None => TypeError
  | Some officers =>
      Done {| schedule :=
                <[dayIndex := List.filter (fun n => negb (String.eqb n name)) officers]>
                  (schedule st);
              newOfficerName := newOfficerName st |}
  end.

(** Typing [value] into the input of [dayIndex]. *)
Definition setNewOfficerName (dayIndex : Z) (value : string) (st : State) : State :=
  {| schedule := schedule st;
     newOfficerName := <[dayIndex := value]> (newOfficerName st) |}.

End ScheduleEditorModal.

(** * Texts of ASCII characters

    On a text of ASCII characters the model and the built-ins agree where
    they could part: the white space that [JS.trim] removes is all the
    white space that [trim] removes, and [btoa] takes the text and [atob]
    gives it back, byte for character. *)

Module Text.

Fixpoint asciiOnly (s : string) : bool :=
  match s with
  | EmptyString => true
  | String c r => (N_of_ascii c <? 128)%N && asciiOnly r
  end.

End Text.

(** * Runs of the handlers

    A component is driven by the events of its controls.  A run applies the
    handlers of a list of events, in order, to the state of the component. *)

(** ** The form of components/AttendanceForm.tsx *)

Module FormSession.
Import Types AttendanceForm.

(** The controls of the form below its submit button: a radio button of an
    officer ([handleStatusChange]), the notes ([setNotes]) and the
    collection field ([handleCollectionChange]). *)
Inductive Event :=
  | StatusChange (name : string) (status : AttendanceStatus)
  | NotesChange (value : string)
  | CollectionChange (value : string).

Definition handle (st : State) (e : Event) : State :=
  match e with
  | StatusChange name status => handleStatusChange name status st
  | NotesChange value => setNotes value st
  | CollectionChange value => handleCollectionChange value st
  end.

(** The state of a form that was mounted by a render with [props] and
    [today] and has then seen [events]. *)
Definition run (props : Props) (today : Date) (events : list Event) : State :=
  fold_left handle events (initialState props today).

(** The status last chosen for [name] on the radio buttons, [Hadir] when
    none was chosen: what the form shows as checked. *)
Definition lastChoice (name : string) (events : list Event) : AttendanceStatus :=
  fold_left
    (fun chosen e =>
       match e with
       | StatusChange name' status => if String.eqb name' name then status else chosen
       | _ => chosen
       end)
    events Hadir.

(** The text last typed into the notes, empty when nothing was typed. *)
Definition lastNotes (events : list Event) : string :=
  fold_left
    (fun typed e => match e with NotesChange value => value | _ => typed end)
    events "".

End FormSession.

(** ** The schedule editor of index.tsx *)

Module EditorSession.
Import Types ScheduleEditorModal.

(** The controls of the modal: the input of a weekday, its Tambah button,
    and the button beside a listed name. *)
Inductive Action :=
  | Typed (dayIndex : Z) (value : string)
  | Add (dayIndex : Z)
  | Remove (dayIndex : Z) (name : string).

Definition handle (st : State) (a : Action) : State :=
  match a with
  | Typed dayIndex value => setNewOfficerName dayIndex value st
  | Add dayIndex => stateAfter st (addOfficer dayIndex st)
  | Remove dayIndex name => stateAfter st (removeOfficer dayIndex name st)
  end.

Definition run (actions : list Action) (st : State) : State :=
  fold_left handle actions st.

(** No weekday lists a name twice. *)
Definition uniqueNames (s : Schedule) : Prop :=
  map_Forall (fun (_ : Z) (l : list string) => NoDup l) s.

End EditorSession.

(** * index.tsx: the settings modal, the form and the rest of the App *)

Module SettingsModal.
Import Github.

(** The three inputs of the modal, by their [name] attribute. *)
Inductive Field := User | Repo | Token.

(** The [useState] cell of the modal.  [untouched] tells that [settings] is
    still the object that came in as [currentSettings]: React compares the
    values of a state cell and of the dependencies of an effect by
    identity, and every [handleChange] makes a new object. *)
Record State := {
  settings : GithubSettings;
  untouched : bool;
}.

(** [useState(currentSettings || { user: '', repo: '', token: '' })]. *)
Definition initialState (currentSettings : option GithubSettings) : State :=
  match currentSettings with
  | Some current => {| settings := current; untouched := true |}
  | None => {| settings := {| user := ""; repo := ""; token := "" |}; untouched := false |}
  end.

(** [handleChange]: [{ ...settings, [e.target.name]: e.target.value }]. *)
Definition handleChange (st : State) (change : Field * string) : State :=
  let value := snd change in
  {| settings :=
       match fst change with
       | User => {| user := value; repo := repo (settings st); token := token (settings st) |}
       | Repo => {| user := user (settings st); repo := value; token := token (settings st) |}
       | Token => {| user := user (settings st); repo := repo (settings st); token := value |}
       end;
     untouched := false |}.

(** What [handleSave] does to the outside: a call of the [onSave] prop,
    with the object it passes, or an [alert]. *)
Inductive Effect :=
  | OnSave (settings : GithubSettings) (sameObject : bool)
  | Alert (message : string).

Definition isEmpty (s : string) : bool :=
  match s with
  | EmptyString => true
  | _ => false
  end.

Definition handleSave (st : State) : list Effect :=
  if isEmpty (user (settings st)) || isEmpty (repo (settings st))
     || isEmpty (token (settings st))
  then [Alert "Semua kolom harus diisi."]
  else [OnSave (settings st) (untouched st)].

(** The modal as opened on [currentSettings], after the [changes] typed
    into its inputs. *)
Definition run (currentSettings : option GithubSettings) (changes : list (Field * string))
    : State :=
  fold_left handleChange changes (initialState currentSettings).

End SettingsModal.

(** The transport of a document.  [updateFile] hands the text of the content
    to [btoa], which throws for a character above U+00FF, and [getFile]
    reads the bytes of the file with [atob] as one character each.  For a
    content whose strings and keys are ASCII text the two are exact, and
    the text in the store is the text that was sent. *)
Module Transport.
Import JSON.

Fixpoint ascii (v : value) : bool :=
  match v with
  | JNull | JBool _ | JNumber _ => true
  | JDecimal literal => Text.asciiOnly literal
  | JString s => Text.asciiOnly s
  | JArray elements => forallb ascii elements
  | JObject members =>
      forallb (fun m : string * value => Text.asciiOnly (fst m) && ascii (snd m)) members
  end.

End Transport.

Module GithubApp.
Import Github.

(** [handleSaveSettings], the [onSave] of the settings modal: the settings
    go to [localStorage] and into the state, the modal closes. *)
Definition handleSaveSettings (settings : GithubSettings) (a : App) : App :=
  {| records := records a; schedule := schedule a; githubSettings := Some settings;
     showSettings := false; isInitialized := false;
     recordsSha := recordsSha a; scheduleSha := scheduleSha a;
     storedSettings := Some settings; alerts := alerts a |}.

Definition setGithubSettings (settings : option GithubSettings) (a : App) : App :=
  {| records := records a; schedule := schedule a; githubSettings := settings;
     showSettings := showSettings a; isInitialized := isInitialized a;
     recordsSha := recordsSha a; scheduleSha := scheduleSha a;
     storedSettings := storedSettings a; alerts := alerts a |}.

Definition setShowSettings (b : bool) (a : App) : App :=
  {| records := records a; schedule := schedule a; githubSettings := githubSettings a;
     showSettings := b; isInitialized := isInitialized a;
     recordsSha := recordsSha a; scheduleSha := scheduleSha a;
     storedSettings := storedSettings a; alerts := alerts a |}.

Section Api.
Variable blobSha : string -> string.

Notation "'await' x := m 'in' k" := (bind m (fun x => k))
  (at level 10, x name, m at level 100, k at level 200).
Notation "'perform' m 'in' k" := (bind m (fun _ => k))
  (at level 10, m at level 100, k at level 200).

(** The store after [updateFile] has written [content] under [path]. *)
Definition written (remote : Remote) (path : string) (content : JSON.value) : Remote :=
  {| files := <[path := {| text := JSON.stringify content;
                           sha := blobSha (JSON.stringify content) |}]> (files remote);
     access := access remote |}.

(** The effect on [githubSettings]: settings that are set are loaded
    with. *)
Definition settingsEffect : Async unit :=
  fun w =>
    match githubSettings (fst w) with
    | Some settings => loadDataFromGithub blobSha settings w
    | None => (Ok tt, w)
    end.

(** The effect of the first render, followed by the effect on the settings
    it has set: stored settings are taken into the state, and without
    stored settings the modal opens. *)
Definition mount : Async unit :=
  fun w =>
    match storedSettings (fst w) with
    | Some savedSettings =>
        (perform modify (setGithubSettings (Some savedSettings)) in settingsEffect) w
    | None => modify (setShowSettings true) w
    end.

(** The message of the exception that [localStorage.setItem] throws for an
    item it does not take; its wording is the engine's. *)
Definition quotaExceeded : string := "The quota has been exceeded.".

(** The [onSave] of the settings modal with what follows it.  [accepted]
    tells whether [localStorage.setItem] takes the item: when it throws,
    the statements of [handleSaveSettings] behind it are not reached.  The
    effect on the settings runs when [githubSettings] has become another
    object. *)
Definition onSave (accepted : bool) (settings : GithubSettings) (sameObject : bool)
    : Async unit :=
  if accepted then
    perform modify (handleSaveSettings settings) in
    if sameObject then ret tt else settingsEffect
  else throw quotaExceeded.

(** One click on Simpan in the settings modal. *)
Definition clickSave (accepted : bool) (st : SettingsModal.State) : Async unit :=
  fold_right
    (fun e rest =>
       perform
         match e with
         | SettingsModal.OnSave settings sameObject => onSave accepted settings sameObject
         | SettingsModal.Alert message => modify (alert message)
         end in
       rest)
    (ret tt) (SettingsModal.handleSave st).

(** [handleSaveSchedule], the [onSave] of the schedule editor.  The cell
    [showScheduleEditor] is passed in and its new value is the result:
    [setShowScheduleEditor(false)] closes the editor after a save that went
    through. *)
Definition handleSaveSchedule (newSchedule : JSON.value) (showScheduleEditor : bool)
    : Async bool :=
  fun w =>
    match githubSettings (fst w) with
    | None => (Ok showScheduleEditor, w)
    | Some settings =>
        tryCatch
          (await newSha :=
             await_updateFile blobSha "schedule.json" newSchedule (scheduleSha (fst w)) in
           perform modify (setScheduleSha (Some newSha)) in
           perform modify (setSchedule newSchedule) in
           perform modify (alert "Jadwal berhasil diperbarui!") in
           ret false)
          (fun message =>
             perform modify (alert ("Gagal menyimpan jadwal: " +:+ message)) in
             perform loadDataFromGithub blobSha settings in
             ret showScheduleEditor)
          w
    end.

(** [handleSubmit] of the form of index.tsx: the record goes to the
    [addRecord] of the App, which is awaited, and the fields are reset
    behind it.  The record is handed over as the object it is at run
    time. *)
Definition handleSubmit (props : AttendanceForm.Props) (today : AttendanceForm.Date)
    (now : string) (st : AttendanceForm.State) : Async AttendanceForm.State :=
  if AttendanceForm.isAlreadySubmitted props today then
    perform modify (alert "Absensi untuk hari ini sudah diisi.") in
    ret st
  else
    perform addRecord blobSha (Runtime.toJS (AttendanceForm.newRecord props today now st)) in
    ret (AttendanceForm.initialState props today).

(** Saves of records one after the other, each awaited. *)
Fixpoint addRecords (newRecords : list JSON.value) : Async unit :=
  match newRecords with
  | [] => ret tt
  | r :: rest => perform addRecord blobSha r in addRecords rest
  end.

End Api.

(** The App holds the version token of the records document in the store,
    a token that is sent with a save. *)
Definition recordsTokenInSync (a : App) (remote : Remote) : Prop :=
  exists file,
    files remote !! "data.json" = Some file /\
    recordsSha a = Some (sha file) /\
    sha file <> "".

End GithubApp.

(** * Reference notions the statements compare the code with *)

Module Reference.

(** A string made of decimal digits only. *)
Fixpoint allDigits (s : string) : Prop :=
  match s with
  | EmptyString => True
  | String c r => JS.isDigit c = true /\ allDigits r
  end.

(** What may follow a number: no digit, no fraction, no exponent. *)
Definition numberEnd (k : string) : Prop :=
  match k with
  | EmptyString => True
  | String c _ =>
      JS.isDigit c = false /\ Ascii.eqb c "." = false /\
      Ascii.eqb c "e" = false /\ Ascii.eqb c "E" = false
  end.

(** The characters a printed value can start with. *)
Definition valueStart (c : ascii) : bool :=
  existsb (Ascii.eqb c)
    ["["; "{"; JSON.quote; "n"; "t"; "f"; "-"; "0"; "1"; "2"; "3"; "4"; "5"; "6"; "7";
     "8"; "9"]%char.

(** The statement proved by induction on the value: the text of [v], with
    anything behind it that is no part of a number, is read back as [v], and
    the reader stops where the text of [v] ends. *)
Definition readsBack (v : JSON.value) : Prop :=
  JSON.plain v = true ->
  forall indent k fuel,
    numberEnd k -> (JSON.cost v <= fuel)%nat ->
    JSON.parseValue fuel (JSON.print indent v +:+ k) = Some (v, k).

(** A well-formed record: the collection is a non-negative integer, one
    that a double holds exactly. *)
Definition wellFormed (r : Types.AttendanceRecord) : Prop :=
  0 <= Types.collection r < 2 ^ 53.

(** Removal of the first entry equal to [n], all other entries staying in
    place: what "removes the first match" says. *)
Fixpoint removeFirst (n : string) (l : list string) : list string :=
  match l with
  | [] => []
  | x :: l' => if String.eqb x n then l' else x :: removeFirst n l'
  end.

(** "Ordered by date descending", read on the time values of the dates. *)
Section ByDate.
Variable getTime : string -> option Z.

(** [a] may stand before [b]: both dates are dates and [a]'s is not the
    earlier one. *)
Definition notEarlier (a b : Types.AttendanceRecord) : Prop :=
  exists ta tb,
    getTime (Types.date a) = Some ta /\ getTime (Types.date b) = Some tb /\ tb <= ta.

Definition dateDescending (l : list Types.AttendanceRecord) : Prop :=
  StronglySorted notEarlier l.

(** The weakest reading: no record stands before a record of a later date
    (records whose date is no date are not compared). *)
Definition noLaterDateBehind (l : list Types.AttendanceRecord) : Prop :=
  forall (i j : nat) a b ta tb,
    (i < j)%nat -> l !! i = Some a -> l !! j = Some b ->
    getTime (Types.date a) = Some ta -> getTime (Types.date b) = Some tb ->
    tb <= ta.

End ByDate.

End Reference.

(** * JSON: [JSON.stringify(value)] and objects with index keys *)

Module Compact.
Import JSON.

(** The items of an array or object, separated by commas. *)
Section Joined.
Context {A : Type}.
Variable item : A -> string.

Fixpoint more (l : list A) : string :=
  match l with
  | [] => EmptyString
  | x :: l' => String "," (item x +:+ more l')
  end.

Definition joined (l : list A) : string :=
  match l with
  | [] => EmptyString
  | x :: l' => item x +:+ more l'
  end.

End Joined.

Fixpoint print (v : value) : string :=
  match v with
  | JNull => "null"
  | JBool true => "true"
  | JBool false => "false"
  | JNumber n => printZ n
  | JDecimal literal => literal
  | JString s => quoteJSONString s
  | JArray elements => String "[" (joined print elements +:+ "]")
  | JObject members =>
      String "{" (joined (fun m : string * value =>
                            quoteJSONString (fst m) +:+ ":" +:+ print (snd m)) members
        +:+ "}")
  end.

(** [JSON.stringify(value)]: no indentation, no white space. *)
Definition stringify (v : value) : string := print v.

End Compact.

(** ** One printer for both layouts

    [JSON.stringify] with and without indentation differ in the white space
    they put around the items; [Printer.print] takes that white space as a
    parameter, and both are instances of it. *)

Module Printer.
Import JSON.

Record Layout := {
  (** the white space before an item and before the closing bracket, at a
      given indentation *)
  break : nat -> string;
  (** the white space behind the colon of a member *)
  colon : string;
  (** the indentation step *)
  step : nat;
}.

Definition indented : Layout :=
  {| break := fun indent => String newline (spaces indent); colon := " "; step := gap |}.

Definition compact : Layout :=
  {| break := fun _ => EmptyString; colon := EmptyString; step := 0 |}.

Fixpoint blank (s : string) : bool :=
  match s with
  | EmptyString => true
  | String c r => isWhiteSpace c && blank r
  end.

Section Items.
Context {A : Type}.
Variable item : A -> string.
Variable before : string.

Fixpoint more (l : list A) : string :=
  match l with
  | [] => EmptyString
  | x :: l' => String "," (before +:+ item x +:+ more l')
  end.

Definition items (l : list A) : string :=
  match l with
  | [] => EmptyString
  | x :: l' => before +:+ item x +:+ more l'
  end.

End Items.

Section Print.
Variable layout : Layout.

Fixpoint print (indent : nat) (v : value) : string :=
  match v with
  | JNull => "null"
  | JBool true => "true"
  | JBool false => "false"
  | JNumber n => printZ n
  | JDecimal literal => literal
  | JString s => quoteJSONString s
  | JArray [] => "[]"
  | JArray elements =>
      String "[" (items (print (indent + step layout)) (break layout (indent + step layout))
                    elements
        +:+ break layout indent +:+ "]")
  | JObject [] => "{}"
  | JObject members =>
      String "{" (items (fun m : string * value =>
                           quoteJSONString (fst m) +:+ ":" +:+ colon layout
                             +:+ print (indent + step layout) (snd m))
                        (break layout (indent + step layout)) members
        +:+ break layout indent +:+ "}")
  end.

End Print.

(** The keys of an object stand in property order: read one after the
    other, each new member goes behind the members read before it.  That is
    so for keys that are no array indices and differ from each other, and
    for array indices in ascending order in front of the other keys. *)
Fixpoint inOrder (seen : list string) (ks : list string) : Prop :=
  match ks with
  | [] => True
  | k :: ks' =>
      (forall (v : value) (acc : list (string * value)),
          map fst acc = seen -> setProperty k v acc = acc ++ [(k, v)])
      /\ inOrder (seen ++ [k]) ks'
  end.

(** The values that [JSON.parse] gives back as they are: no number literal
    with a fraction or an exponent, and the keys of every object in
    property order. *)
Fixpoint canonical (v : value) : Prop :=
  match v with
  | JDecimal _ => False
  | JArray elements =>
      (fix all (l : list value) : Prop :=
         match l with
         | [] => True
         | e :: l' => canonical e /\ all l'
         end) elements
  | JObject members =>
      inOrder [] (map fst members) /\
      (fix all (l : list (string * value)) : Prop :=
         match l with
         | [] => True
         | m :: l' => canonical (snd m) /\ all l'
         end) members
  | _ => True
  end.

(** The statement proved by induction on the value, for a layout of white
    space. *)
Definition readsBack (layout : Layout) (v : value) : Prop :=
  canonical v ->
  forall indent k fuel,
    Reference.numberEnd k -> (cost v <= fuel)%nat ->
    parseValue fuel (print layout indent v +:+ k) = Some (v, k).

End Printer.

(** * The storage of the browser and what the Apps keep in it *)

Module LocalStorage.

(** [localStorage], as far as the Apps can observe it: the items, and
    whether a write is accepted.  [setItem] throws when it is not (the quota
    is exceeded, or the storage is closed to the page). *)
Record Storage := {
  items : gmap string string;
  accepts : string -> string -> bool;
}.

(** [localStorage.getItem(key)]; [None] is [null]. *)
Definition getItem (key : string) (storage : Storage) : option string :=
  items storage !! key.

(** [localStorage.setItem(key, value)]; [None] is the exception thrown. *)
Definition setItem (key value : string) (storage : Storage) : option Storage :=
  if accepts storage key value
  then Some {| items := <[key := value]> (items storage); accepts := accepts storage |}
  else None.

End LocalStorage.

(** ** App.tsx: the records in [localStorage] *)

Module LocalPersistence.
Import LocalStorage.

(** The initialiser of the [records] cell: the stored text, parsed; the
    empty list when there is none, when it is empty, and when reading or
    parsing throws. *)
Definition initialRecords (storage : Storage) : JSON.value :=
  match getItem "attendanceRecords" storage with
  | None => JSON.JArray []
  | Some EmptyString => JSON.JArray []
  | Some savedRecords =>
      match JSON.parse savedRecords with
      | Some parsed => parsed
      | None => JSON.JArray []
      end
  end.

(** The effect on [records]: the text of the records is stored; a write
    that throws is logged and leaves the storage as it is. *)
Definition saveRecords (records : JSON.value) (storage : Storage) : Storage :=
  match setItem "attendanceRecords" (Compact.stringify records) storage with
  | Some storage' => storage'
  | None => storage
  end.

(** The effect after a change of the records of the local App. *)
Definition persist (app : LocalApp.State) (storage : Storage) : Storage :=
  saveRecords (JSON.JArray (map Runtime.toJS (LocalApp.records app))) storage.

End LocalPersistence.

(** ** index.tsx: the settings in [localStorage] *)

Module SettingsPersistence.
Import LocalStorage.

(** The object a [GithubSettings] is at run time. *)
Definition settingsToJS (settings : Github.GithubSettings) : JSON.value :=
  JSON.JObject
    [("user", JSON.JString (Github.user settings));
     ("repo", JSON.JString (Github.repo settings));
     ("token", JSON.JString (Github.token settings))].

(** The first statement of [handleSaveSettings]; [None] is the exception
    of [setItem]. *)
Definition storeSettings (settings : Github.GithubSettings) (storage : Storage)
    : option Storage :=
  setItem "githubSettings" (Compact.stringify (settingsToJS settings)) storage.

(** What the effect of the first render does with the storage.  *)
Inductive Mounted :=
  | SetGithubSettings (parsed : JSON.value)
  | SetShowSettings
  | SyntaxError.

Definition readSettings (storage : Storage) : Mounted :=
  match getItem "githubSettings" storage with
  | None => SetShowSettings
  | Some EmptyString => SetShowSettings
  | Some savedSettings =>
      match JSON.parse savedSettings with
      | Some parsed => SetGithubSettings parsed
      | None => SyntaxError
      end
  end.

(** [localStorage.removeItem('githubSettings')] in the [catch] of
    [loadDataFromGithub]. *)
Definition removeSettings (storage : Storage) : Storage :=
  {| items := delete "githubSettings" (items storage); accepts := accepts storage |}.

End SettingsPersistence.

(** ** index.tsx: the copy the schedule editor starts from *)

Module EditorCopy.

(** [JSON.parse(JSON.stringify(initialSchedule))]; [None] is a
    [SyntaxError]. *)
Definition copy (initialSchedule : JSON.value) : option JSON.value :=
  JSON.parse (Compact.stringify initialSchedule).

End EditorCopy.

(** * [encodeURIComponent] and the link of the export *)

Module URI.

(** The characters that [encodeURIComponent] leaves as they are: letters,
    digits and [- _ . ! ~ * ' ( )]. *)
Definition unreserved (c : ascii) : bool :=
  let n := N_of_ascii c in
  ((65 <=? n) && (n <=? 90) || (97 <=? n) && (n <=? 122) || (48 <=? n) && (n <=? 57))%N
  || existsb (Ascii.eqb c) ["-"; "_"; "."; "!"; "~"; "*"; "'"; "("; ")"]%char.

Definition hexUpper (n : N) : ascii :=
  if (n <? 10)%N then ascii_of_N (48 + n) else ascii_of_N (55 + n).

(** The escape of one byte: a percent sign and two upper-case hexadecimal
    digits. *)
Definition escape (c : ascii) : string :=
  let n := N_of_ascii c in
  String "%" (String (hexUpper (n / 16)) (String (hexUpper (n mod 16)) EmptyString)).

(** A surrogate that stands alone: in the bytes of a string it is the byte
    ED followed by a byte from A0 on (a pair of surrogates is the four
    bytes of its code point). *)
Definition loneSurrogateAt (c : ascii) (rest : string) : bool :=
  (N_of_ascii c =? 237)%N &&
  match rest with
  | String d _ => (160 <=? N_of_ascii d)%N
  | EmptyString => false
  end.

(** [encodeURIComponent(s)]: every character outside the unreserved ones is
    replaced by the escapes of the bytes of its UTF-8 form; [None] is the
    [URIError] thrown for a surrogate that stands alone. *)
Fixpoint encodeURIComponent (s : string) : option string :=
  match s with
  | EmptyString => Some EmptyString
  | String c r =>
      if loneSurrogateAt c r then None
      else
        match encodeURIComponent r with
        | Some r' => Some ((if unreserved c then String c EmptyString else escape c) +:+ r')
        | None => None
        end
  end.

Fixpoint wellFormed (s : string) : bool :=
  match s with
  | EmptyString => true
  | String c r => negb (loneSurrogateAt c r) && wellFormed r
  end.

Definition hexValue (c : ascii) : option N :=
  let n := N_of_ascii c in
  if ((48 <=? n) && (n <=? 57))%N then Some (n - 48)%N
  else if ((65 <=? n) && (n <=? 70))%N then Some (n - 55)%N
  else if ((97 <=? n) && (n <=? 102))%N then Some (n - 87)%N
  else None.

(** The percent-decoding by which a browser turns the body of a [data:]
    link into the bytes of the file: an escape gives its byte, every other
    character itself. *)
Fixpoint percentDecode (s : string) : string :=
  match s with
  | String "%" (String h (String l r) as rest) =>
      match hexValue h, hexValue l with
      | Some x, Some y => String (ascii_of_N (16 * x + y)) (percentDecode r)
      | _, _ => String "%" (percentDecode rest)
      end
  | String c r => String c (percentDecode r)
  | EmptyString => EmptyString
  end.

(** A link holds unreserved characters and escapes only. *)
Fixpoint plainLink (s : string) : bool :=
  match s with
  | EmptyString => true
  | String c r => (unreserved c || Ascii.eqb c "%") && plainLink r
  end.

End URI.

(** ** components/AttendanceRecap.tsx: the link of [handleDownload] *)

Module Download.

Definition prefix : string := "data:application/json;charset=utf-8,".

(** [dataUri], the [href] of the link that [handleDownload] clicks, for
    download as [data_ronda.json]; [None] when [encodeURIComponent]
    throws. *)
Definition dataUri (records : list JSON.value) : option string :=
  let dataStr := AttendanceRecap.handleDownload records in
  match URI.encodeURIComponent dataStr with
  | Some encoded => Some (prefix +:+ encoded)
  | None => None
  end.

End Download.

(** * Calendar dates, to read the order of the recap view *)

Module Calendar.

(** The date a date-only string names, when it names one: year, month, day
    of a day that exists. *)
Definition calendarDate (s : string) : option (Z * Z * Z) :=
  match Date.parseDateOnly s with
  | Some (y, m, d) =>
      if (1 <=? m) && (m <=? 12) && (1 <=? d) && (d <=? Date.daysInMonth y m)
      then Some (y, m, d)
      else None
  | None => None
  end.

(** [a] is an earlier day than [b]. *)
Definition earlier (a b : Z * Z * Z) : Prop :=
  let '(y1, m1, d1) := a in
  let '(y2, m2, d2) := b in
  y1 < y2 \/ (y1 = y2 /\ (m1 < m2 \/ (m1 = m2 /\ d1 < d2))).

(** "Ordered by date descending", read on the calendar: no record stands
    before a record of a later day. *)
Definition latestFirst (l : list Types.AttendanceRecord) : Prop :=
  forall (i j : nat) a b da db,
    (i < j)%nat -> l !! i = Some a -> l !! j = Some b ->
    calendarDate (Types.date a) = Some da -> calendarDate (Types.date b) = Some db ->
    ~ earlier da db.

(** The parts of [Date.daysFromCivil]: the year counted from March, the
    day within that year, and the day on which that year begins. *)
Definition marchYear (y m : Z) : Z := if m <=? 2 then y - 1 else y.

Definition dayOfMarchYear (m d : Z) : Z :=
  let mp := if 2 <? m then m - 3 else m + 9 in
  (153 * mp + 2) / 5 + d - 1.

Definition yearStart (y' : Z) : Z :=
  let era := y' / 400 in
  let yoe := y' - era * 400 in
  era * 146097 + yoe * 365 + yoe / 4 - yoe / 100.

End Calendar.

(** * Concrete inputs used to instantiate the theorems *)

Module Scenario.
Import Types.

Definition monday : AttendanceForm.Date :=
  {| AttendanceForm.getDay := 1;
     AttendanceForm.toISOString := "2024-01-01T19:30:00.000Z" |}.

Definition mondayLater : AttendanceForm.Date :=
  {| AttendanceForm.getDay := 1;
     AttendanceForm.toISOString := "2024-01-01T21:05:42.117Z" |}.

Definition roster : Schedule := <[1 := ["A"; "B"]]> Constants.JADWAL_RONDA.

Definition sunday : AttendanceRecord :=
  {| id := "2023-12-31T20:00:00.000Z";
     date := "2023-12-31";
     day := "Minggu malam Senin";
     officers := [{| name := "Bp Haji Udin"; status := Hadir |}];
     notes := "";
     collection := 20000 |}.

Definition store : LocalApp.State :=
  {| LocalApp.records := [sunday]; LocalApp.alerts := [] |}.

(** The form as first rendered, then B set to Ijin. *)
Definition marked : AttendanceForm.State :=
  AttendanceForm.handleStatusChange "B" Ijin
    (AttendanceForm.initialState (LocalApp.formProps roster store) monday).

End Scenario.

Module EditorScenario.

(** A roster in which one name is listed twice on Monday, as a schedule
    document edited by hand can hold. *)
Definition doubled : ScheduleEditorModal.State :=
  {| ScheduleEditorModal.schedule := <[1 := ["A"; "B"; "A"]]> Constants.JADWAL_RONDA;
     ScheduleEditorModal.newOfficerName := ∅ |}.

Definition builtin : ScheduleEditorModal.State :=
  {| ScheduleEditorModal.schedule := Constants.JADWAL_RONDA;
     ScheduleEditorModal.newOfficerName := ∅ |}.

End EditorScenario.

Module RecapScenario.
Import Types.

Definition entry (d : string) : AttendanceRecord :=
  {| id := d +:+ "T20:00:00.000Z";
     date := d;
     day := "";
     officers := [];
     notes := "";
     collection := 0 |}.

(** Three records in store order: two days, the later one entered first. *)
Definition dated : list AttendanceRecord :=
  [entry "2024-01-02"; entry "2024-01-01"; entry "2024-01-02"].

(** An imported collection in which the second record has no date. *)
Definition undated : list AttendanceRecord :=
  [entry "2024-01-01"; entry ""; entry "2024-01-02"].

End RecapScenario.

Module ImportScenario.

(** The collection of the Monday scenario as run-time values. *)
Definition store : list JSON.value :=
  map Runtime.toJS [Scenario.sunday; RecapScenario.entry "2024-01-01"].

(** A document that is JSON and no list. *)
Definition noList : string := "{}".

(** A document cut off in the middle. *)
Definition cutOff : string := "[1, 2".

End ImportScenario.

Module SyncScenario.

(** The hash of a blob, for the concrete runs: any function of the content
    will do, the theorems hold for all of them. *)
Definition blobSha (content : string) : string := "sha:" +:+ content.

Definition settings : Github.GithubSettings :=
  {| Github.user := "perumblokh"; Github.repo := "ronda-data"; Github.token := "ghp_token" |}.


(** An empty repository and a token that may write. *)
Definition emptyWritable : Github.Remote :=
  {| Github.files := ∅; Github.access := Github.ReadWrite |}.

Definition monday : JSON.value := Runtime.toJS (RecapScenario.entry "2024-01-01").
Definition tuesday : JSON.value := Runtime.toJS (RecapScenario.entry "2024-01-02").
Definition sunday : JSON.value := Runtime.toJS Scenario.sunday.

Definition file (content : string) : Github.RemoteFile :=
  {| Github.text := content; Github.sha := blobSha content |}.

(** A session that loaded an earlier state of the store: it holds Sunday's
    record and the hash of the document that held only that record. *)
Definition session : Github.App :=
  {| Github.records := JSON.JArray [sunday];
     Github.schedule := JSON.JObject [];
     Github.githubSettings := Some settings;
     Github.showSettings := false;
     Github.isInitialized := true;
     Github.recordsSha := Some (blobSha (JSON.stringify (JSON.JArray [sunday])));
     Github.scheduleSha := Some (blobSha "{}");
     Github.storedSettings := Some settings;
     Github.alerts := [] |}.

(** The store after another session has appended Monday's record. *)
Definition moved : Github.Remote :=
  {| Github.files :=
       <["data.json" := file (JSON.stringify (JSON.JArray [sunday; monday]))]>
         (<["schedule.json" := file "{}"]> ∅);
     Github.access := Github.ReadWrite |}.

(** The same store with a schedule document that is no JSON. *)
Definition movedBroken : Github.Remote :=
  {| Github.files :=
       <["data.json" := file (JSON.stringify (JSON.JArray [sunday; monday]))]>
         (<["schedule.json" := file "{"]> ∅);
     Github.access := Github.ReadWrite |}.

End SyncScenario.

(** * Further concrete inputs *)

Module EditorRunScenario.

(** A name typed with blanks around it, added twice, and a listed officer
    removed. *)
Definition edits : list EditorSession.Action :=
  [EditorSession.Typed 1 "  Bp Budi "; EditorSession.Add 1; EditorSession.Add 1;
   EditorSession.Remove 1 "Bp Yayan"].

(** The modal with a new name in Monday's input. *)
Definition typed : ScheduleEditorModal.State :=
  ScheduleEditorModal.setNewOfficerName 1 "  Bp Budi " EditorScenario.builtin.

End EditorRunScenario.

Module FormRunScenario.
Import Types.

(** B is set to Ijin, then to Alpa; the notes are typed twice; an amount
    is pasted with its currency sign and separators. *)
Definition events : list FormSession.Event :=
  [FormSession.StatusChange "B" Ijin;
   FormSession.NotesChange "hujan";
   FormSession.CollectionChange "Rp 50.000";
   FormSession.StatusChange "B" Alpa;
   FormSession.NotesChange "hujan deras"].

Definition props : AttendanceForm.Props := LocalApp.formProps Scenario.roster Scenario.store.

End FormRunScenario.

Module SaveScenario.

(** The store as the session of [SyncScenario] has loaded it: the records
    document holds Sunday's record. *)
Definition current : Github.Remote :=
  {| Github.files :=
       <["data.json" :=
           SyncScenario.file (JSON.stringify (JSON.JArray [SyncScenario.sunday]))]>
         (<["schedule.json" := SyncScenario.file "{}"]> ∅);
     Github.access := Github.ReadWrite |}.

(** An App that has settings and has loaded nothing yet. *)
Definition fresh : Github.App :=
  GithubApp.handleSaveSettings SyncScenario.settings Github.initialApp.

(** A session whose schedule token is behind the store. *)
Definition behind : Github.App :=
  {| Github.records := JSON.JArray [];
     Github.schedule := JSON.JObject [];
     Github.githubSettings := Some SyncScenario.settings;
     Github.showSettings := false;
     Github.isInitialized := true;
     Github.recordsSha := None;
     Github.scheduleSha := Some "an older hash";
     Github.storedSettings := Some SyncScenario.settings;
     Github.alerts := [] |}.

End SaveScenario.

Module SettingsScenario.

(** The three fields as typed into the modal of an App without settings. *)
Definition typed : list (SettingsModal.Field * string) :=
  [(SettingsModal.User, "perumblokh"); (SettingsModal.Repo, "ronda-data");
   (SettingsModal.Token, "ghp_token")].

End SettingsScenario.

Module StorageScenario.

(** A storage with another item in it, which takes texts of up to a
    thousand characters. *)
Definition roomy : LocalStorage.Storage :=
  {| LocalStorage.items := <["theme" := "dark"]> ∅;
     LocalStorage.accepts := fun _ value => (String.length value <=? 1000)%nat |}.

(** A storage that takes nothing more. *)
Definition full : LocalStorage.Storage :=
  {| LocalStorage.items := <["attendanceRecords" := "[]"]> ∅;
     LocalStorage.accepts := fun _ _ => false |}.

End StorageScenario.

Module EmptyFilesScenario.

(** A repository in which both documents exist and are empty. *)
Definition remote : Github.Remote :=
  {| Github.files :=
       <["data.json" := SyncScenario.file ""]> (<["schedule.json" := SyncScenario.file ""]> ∅);
     Github.access := Github.ReadWrite |}.

(** A repository that the token may not read. *)
Definition denied : Github.Remote :=
  {| Github.files := Github.files SaveScenario.current; Github.access := Github.Denied |}.

End EmptyFilesScenario.

Module AmountScenario.

(** A text of [n] zeros. *)
Fixpoint zeros (n : nat) : string :=
  match n with
  | O => EmptyString
  | S k => String "0" (zeros k)
  end.

(** A one followed by 309 zeros, typed into the collection field. *)
Definition huge : string := String "1" (zeros 309).

End AmountScenario.

(** * Properties of the form and of the local store *)

Section FormFacts.
Import Types.

Lemma isAlreadySubmitted_true props today :
  AttendanceForm.isAlreadySubmitted props today = true <->
  exists r, In r (AttendanceForm.existingRecords props) /\
            date r = AttendanceForm.todayDateString today.
Proof.
  unfold AttendanceForm.isAlreadySubmitted. rewrite existsb_exists.
  split; intros [r [Hin Hd]]; exists r; split; auto.
  - now apply String.eqb_eq.
  - now apply String.eqb_eq.
Qed.

Lemma isAlreadySubmitted_false props today :
  AttendanceForm.isAlreadySubmitted props today = false <->
  forall r, In r (AttendanceForm.existingRecords props) ->
            date r <> AttendanceForm.todayDateString today.
Proof.
  split.
  - intros Hf r Hin Hd.
    assert (AttendanceForm.isAlreadySubmitted props today = true) as Ht
      by (apply isAlreadySubmitted_true; eauto).
    congruence.
  - intros Hall. apply not_true_is_false. intros Ht.
    apply isAlreadySubmitted_true in Ht as [r [Hin Hd]]. exact (Hall r Hin Hd).
Qed.

(** A rejected click: the one effect is the warning, the form keeps its
    fields. *)
Lemma handleSubmit_rejected props today now st :
  AttendanceForm.isAlreadySubmitted props today = true ->
  AttendanceForm.handleSubmit props today now st =
    (st, [AttendanceForm.Alert "Absensi untuk hari ini sudah diisi."]).
Proof. intros H. unfold AttendanceForm.handleSubmit. now rewrite H. Qed.

Lemma handleSubmit_accepted props today now st :
  AttendanceForm.isAlreadySubmitted props today = false ->
  AttendanceForm.handleSubmit props today now st =
    (AttendanceForm.initialState props today,
     [AttendanceForm.AddRecord (AttendanceForm.newRecord props today now st);
      AttendanceForm.Alert "Data absensi berhasil disimpan!"]).
Proof. intros H. unfold AttendanceForm.handleSubmit. now rewrite H. Qed.

Lemma submit_rejected schedule today now app form :
  AttendanceForm.isAlreadySubmitted (LocalApp.formProps schedule app) today = true ->
  LocalApp.submit schedule today now app form =
    (LocalApp.alert "Absensi untuk hari ini sudah diisi." app, form).
Proof.
  intros H. unfold LocalApp.submit. now rewrite handleSubmit_rejected.
Qed.

Lemma submit_accepted schedule today now app form :
  AttendanceForm.isAlreadySubmitted (LocalApp.formProps schedule app) today = false ->
  LocalApp.submit schedule today now app form =
    (LocalApp.alert "Data absensi berhasil disimpan!"
       (LocalApp.addRecord
          (AttendanceForm.newRecord (LocalApp.formProps schedule app) today now form) app),
     AttendanceForm.initialState (LocalApp.formProps schedule app) today).
Proof.
  intros H. unfold LocalApp.submit. now rewrite handleSubmit_accepted.
Qed.

(** After an accepted submission the store holds a record of today's date,
    so the guard of the next click is armed. *)
Lemma submitted_after_accept schedule today today' now app form :
  AttendanceForm.todayDateString today' = AttendanceForm.todayDateString today ->
  AttendanceForm.isAlreadySubmitted (LocalApp.formProps schedule app) today = false ->
  AttendanceForm.isAlreadySubmitted
    (LocalApp.formProps schedule (fst (LocalApp.submit schedule today now app form)))
    today' = true.
Proof.
  intros Hd H. rewrite submit_accepted by exact H. cbn [fst].
  apply isAlreadySubmitted_true.
  eexists. split.
  - cbn. apply in_or_app. right. left. reflexivity.
  - cbn. now rewrite Hd.
Qed.

(** The record lists the officers on duty, each once, in roster order. *)
Lemma officerData_names props today st :
  map name (AttendanceForm.officerData props today st)
    = AttendanceForm.officersOnDuty props today.
Proof.
  unfold AttendanceForm.officerData.
  induction (AttendanceForm.officersOnDuty props today) as [|n l IH]; [reflexivity|].
  cbn [map name]. now rewrite IH.
Qed.

(** Every officer on duty has a status in the form as first rendered, and
    it is Hadir. *)
Lemma initialStatuses_Hadir props today n :
  In n (AttendanceForm.officersOnDuty props today) ->
  AttendanceForm.initialStatuses props today !! n = Some Hadir.
Proof.
  unfold AttendanceForm.initialStatuses.
  generalize (∅ : gmap string AttendanceStatus) as acc.
  induction (AttendanceForm.officersOnDuty props today) as [|x l IH]; intros acc Hin;
    [contradiction|].
  cbn [fold_left]. destruct (in_dec string_dec n l) as [Hl|Hl].
  - now apply IH.
  - destruct Hin as [->|Hin]; [|contradiction].
    clear IH. revert acc. induction l as [|y l IH]; intros acc.
    + cbn. apply lookup_insert_eq.
    + cbn [fold_left]. rewrite insert_insert_ne.
      * apply IH. intros H. apply Hl. now right.
      * intros ->. apply Hl. now left.
Qed.

End FormFacts.

(** C1.  If the record collection already holds a record whose date is the
    date D the form is submitting for, the click is rejected: the handler
    calls [addRecord] for no record (its only effect is the warning), and
    the collection afterwards is the collection before, element for
    element. *)
Theorem C1_resubmission_rejected :
  forall (schedule : Types.Schedule) (today : AttendanceForm.Date) (now : string)
         (app : LocalApp.State) (form : AttendanceForm.State) (D : string),
    AttendanceForm.todayDateString today = D ->
    (exists r, In r (LocalApp.records app) /\ Types.date r = D) ->
    snd (AttendanceForm.handleSubmit (LocalApp.formProps schedule app) today now form)
      = [AttendanceForm.Alert "Absensi untuk hari ini sudah diisi."] /\
    LocalApp.records (fst (LocalApp.submit schedule today now app form))
      = LocalApp.records app /\
    length (LocalApp.records (fst (LocalApp.submit schedule today now app form)))
      = length (LocalApp.records app).
Proof.
  intros schedule today now app form D HD [r [Hin Hr]].
  assert (AttendanceForm.isAlreadySubmitted (LocalApp.formProps schedule app) today = true)
    as Hsub.
  { apply isAlreadySubmitted_true. exists r. split; [exact Hin | congruence]. }
  rewrite handleSubmit_rejected by exact Hsub.
  rewrite submit_rejected by exact Hsub.
  cbn. auto.
Qed.


Lemma C1_resubmission_rejected_witness :
  let app := fst (LocalApp.submit Scenario.roster Scenario.monday
                    "2024-01-01T19:30:01.000Z" Scenario.store Scenario.marked) in
  snd (AttendanceForm.handleSubmit (LocalApp.formProps Scenario.roster app)
         Scenario.mondayLater "2024-01-01T21:05:43.000Z" Scenario.marked)
    = [AttendanceForm.Alert "Absensi untuk hari ini sudah diisi."] /\
  LocalApp.records
    (fst (LocalApp.submit Scenario.roster Scenario.mondayLater
            "2024-01-01T21:05:43.000Z" app Scenario.marked))
    = LocalApp.records app /\
  length (LocalApp.records
    (fst (LocalApp.submit Scenario.roster Scenario.mondayLater
            "2024-01-01T21:05:43.000Z" app Scenario.marked)))
    = length (LocalApp.records app).
Proof.
  apply (C1_resubmission_rejected Scenario.roster Scenario.mondayLater
           "2024-01-01T21:05:43.000Z" _ Scenario.marked "2024-01-01").
  - reflexivity.
  - eexists. split; [right; left; reflexivity | reflexivity].
Defined.

(** C2.  Weekday 1 has the roster A, B; the clock reads Monday 2024-01-01;
    A stands at Hadir, B at Ijin, the notes are empty and 50000 was typed
    into the collection field; the store holds no record of that date.  The
    submission hands exactly the record {2024-01-01, Senin malam Selasa,
    [A Hadir; B Ijin], empty notes, 50000} to [addRecord] (its id is the
    clock reading of the click), the store appends it, and every later
    click on that date is rejected and leaves the store as it is. *)
Theorem C2_monday_scenario :
  forall (schedule : Types.Schedule) (today today' : AttendanceForm.Date)
         (now now' : string) (app : LocalApp.State)
         (form0 form' : AttendanceForm.State),
    schedule !! 1 = Some ["A"; "B"] ->
    AttendanceForm.getDay today = 1 ->
    AttendanceForm.todayDateString today = "2024-01-01" ->
    AttendanceForm.todayDateString today' = "2024-01-01" ->
    (forall r, In r (LocalApp.records app) -> Types.date r <> "2024-01-01") ->
    AttendanceForm.statuses form0 !! "A" = Some Types.Hadir ->
    AttendanceForm.statuses form0 !! "B" = Some Types.Ijin ->
    AttendanceForm.notes form0 = "" ->
    let form := AttendanceForm.handleCollectionChange "50000" form0 in
    let record :=
      {| Types.id := now;
         Types.date := "2024-01-01";
         Types.day := "Senin malam Selasa";
         Types.officers := [ {| Types.name := "A"; Types.status := Types.Hadir |};
                             {| Types.name := "B"; Types.status := Types.Ijin |} ];
         Types.notes := "";
         Types.collection := 50000 |} in
    let app1 := fst (LocalApp.submit schedule today now app form) in
    snd (AttendanceForm.handleSubmit (LocalApp.formProps schedule app) today now form)
      = [AttendanceForm.AddRecord record;
         AttendanceForm.Alert "Data absensi berhasil disimpan!"] /\
    LocalApp.records app1 = LocalApp.records app ++ [record] /\
    snd (AttendanceForm.handleSubmit (LocalApp.formProps schedule app1) today' now' form')
      = [AttendanceForm.Alert "Absensi untuk hari ini sudah diisi."] /\
    LocalApp.records (fst (LocalApp.submit schedule today' now' app1 form'))
      = LocalApp.records app1.
Proof.
  intros schedule today today' now now' app form0 form' Hroster Hday Hdate Hdate'
         Hfresh HA HB Hnotes form record app1.
  assert (AttendanceForm.isAlreadySubmitted (LocalApp.formProps schedule app) today = false)
    as Hopen.
  { apply isAlreadySubmitted_false. intros r Hin. rewrite Hdate. now apply Hfresh. }
  assert (AttendanceForm.newRecord (LocalApp.formProps schedule app) today now form = record)
    as Hrec.
  { unfold AttendanceForm.newRecord, AttendanceForm.officerData,
      AttendanceForm.officersOnDuty, AttendanceForm.dayOfWeek.
    rewrite Hdate, Hday. cbn [LocalApp.formProps AttendanceForm.schedule].
    rewrite Hroster. subst form. cbn [default map AttendanceForm.statuses
      AttendanceForm.notes AttendanceForm.collection AttendanceForm.handleCollectionChange].
    cbn [id map]. rewrite HA, HB, Hnotes. reflexivity. }
  assert (AttendanceForm.isAlreadySubmitted (LocalApp.formProps schedule app1) today' = true)
    as Hshut.
  { subst app1. apply submitted_after_accept; [congruence | exact Hopen]. }
  repeat split.
  - rewrite handleSubmit_accepted by exact Hopen. now rewrite Hrec.
  - subst app1. rewrite submit_accepted by exact Hopen. cbn. now rewrite Hrec.
  - now rewrite handleSubmit_rejected by exact Hshut.
  - now rewrite submit_rejected by exact Hshut.
Qed.

Lemma C2_monday_scenario_witness :
  let form := AttendanceForm.handleCollectionChange "50000" Scenario.marked in
  let record :=
    {| Types.id := "2024-01-01T19:30:01.000Z";
       Types.date := "2024-01-01";
       Types.day := "Senin malam Selasa";
       Types.officers := [ {| Types.name := "A"; Types.status := Types.Hadir |};
                           {| Types.name := "B"; Types.status := Types.Ijin |} ];
       Types.notes := "";
       Types.collection := 50000 |} in
  let app1 := fst (LocalApp.submit Scenario.roster Scenario.monday
                     "2024-01-01T19:30:01.000Z" Scenario.store form) in
  snd (AttendanceForm.handleSubmit (LocalApp.formProps Scenario.roster Scenario.store)
         Scenario.monday "2024-01-01T19:30:01.000Z" form)
    = [AttendanceForm.AddRecord record;
       AttendanceForm.Alert "Data absensi berhasil disimpan!"] /\
  LocalApp.records app1 = [Scenario.sunday; record] /\
  snd (AttendanceForm.handleSubmit (LocalApp.formProps Scenario.roster app1)
         Scenario.mondayLater "2024-01-01T21:05:43.000Z" form)
    = [AttendanceForm.Alert "Absensi untuk hari ini sudah diisi."] /\
  LocalApp.records (fst (LocalApp.submit Scenario.roster Scenario.mondayLater
                           "2024-01-01T21:05:43.000Z" app1 form))
    = LocalApp.records app1.
Proof.
  apply (C2_monday_scenario Scenario.roster Scenario.monday Scenario.mondayLater
           "2024-01-01T19:30:01.000Z" "2024-01-01T21:05:43.000Z"
           Scenario.store Scenario.marked).
  - reflexivity.
  - reflexivity.
  - reflexivity.
  - reflexivity.
  - intros r [<- | []]. discriminate.
  - vm_compute. reflexivity.
  - vm_compute. reflexivity.
  - reflexivity.
Defined.

(** * The collection amount *)

Section AmountFacts.

Import Reference.

Lemma replaceNonDigits_allDigits s : allDigits (JS.replaceNonDigits s).
Proof.
  induction s as [|c r IH]; cbn; [exact I|].
  destruct (JS.isDigit c) eqn:Hc; cbn; auto.
Qed.

Lemma digitValue_range c : JS.isDigit c = true -> 0 <= JS.digitValue c <= 9.
Proof.
  unfold JS.isDigit, JS.digitValue. intros H.
  apply andb_true_iff in H as [H1 H2].
  apply N.leb_le in H1, H2. lia.
Qed.

Lemma parseDigits_nonneg s :
  forall seen acc v, 0 <= acc -> JS.parseDigits seen acc s = Some v -> 0 <= v.
Proof.
  induction s as [|c r IH]; intros seen acc v Hacc; cbn.
  - destruct seen; congruence.
  - destruct (JS.isDigit c) eqn:Hc.
    + apply IH. pose proof (digitValue_range c Hc). lia.
    + destruct seen; congruence.
Qed.

Lemma digit_not_space c : JS.isDigit c = true -> JS.isWhiteSpace c = false.
Proof.
  unfold JS.isDigit, JS.isWhiteSpace. intros H.
  apply andb_true_iff in H as [H1 _]. apply N.leb_le in H1.
  repeat (apply orb_false_intro); apply N.eqb_neq; lia.
Qed.

Lemma digit_not_sign c :
  JS.isDigit c = true -> Ascii.eqb c "-" = false /\ Ascii.eqb c "+" = false.
Proof.
  intros H. split; apply not_true_is_false; intros He;
    apply Ascii.eqb_eq in He; subst c; discriminate H.
Qed.

(** On a string of digits [parseInt] has no white space to skip and no
    sign to read. *)
Lemma parseInt_allDigits d :
  allDigits d -> JS.parseInt d = JS.parseDigits false 0 d.
Proof.
  destruct d as [|c r]; [reflexivity|]. intros [Hc _].
  unfold JS.parseInt. cbn [JS.trimStart]. rewrite (digit_not_space c Hc).
  destruct (digit_not_sign c Hc) as [-> ->]. reflexivity.
Qed.

Lemma stored_amount_nonneg s : 0 <= JS.orZero (JS.parseInt (JS.replaceNonDigits s)).
Proof.
  rewrite parseInt_allDigits by apply replaceNonDigits_allDigits.
  destruct (JS.parseDigits false 0 (JS.replaceNonDigits s)) as [v|] eqn:Hv; cbn.
  - eapply parseDigits_nonneg; [|exact Hv]. lia.
  - lia.
Qed.

(** An integer that is not negative becomes a Number that is not negative:
    an integer again, or the positive infinity. *)
Lemma ofZ_nonneg n :
  0 <= n ->
  (exists m, Number.ofZ n = Number.Finite m /\ 0 <= m) \/
  Number.ofZ n = Number.Infinity false.
Proof.
  intros Hn. unfold Number.ofZ. rewrite Z.abs_eq by exact Hn.
  destruct (n <? 2 ^ 53) eqn:Hsmall; [left; eauto|].
  apply Z.ltb_ge in Hsmall.
  set (e := Z.log2 n - 52).
  assert (0 <= 2 ^ e) as Hpow by (apply Z.pow_nonneg; lia).
  assert (0 <= n / 2 ^ e) as Hq by (apply Z_div_nonneg_nonneg; lia).
  set (up := (2 ^ e <? 2 * (n mod 2 ^ e))
             || ((2 ^ e =? 2 * (n mod 2 ^ e)) && Z.odd (n / 2 ^ e))).
  set (q' := if up then n / 2 ^ e + 1 else n / 2 ^ e).
  assert (0 <= q') as Hq' by (unfold q'; destruct up; lia).
  destruct (2 ^ 1024 <=? q' * 2 ^ e).
  - right. f_equal. apply Z.ltb_ge. exact Hn.
  - left. eexists. split; [reflexivity|].
    assert (Z.sgn n = 1) as -> by (apply Z.sgn_pos; lia). nia.
Qed.

Lemma ofZ_exact n : Z.abs n < 2 ^ 53 -> Number.ofZ n = Number.Finite n.
Proof.
  intros Hn. unfold Number.ofZ. apply Z.ltb_lt in Hn. now rewrite Hn.
Qed.

(** The Number that a submission stores is the Number for the integer that
    the digits kept by the change handler denote, 0 without a digit. *)
Lemma stored_ofZ input st :
  Amount.stored input st
    = Number.ofZ (JS.orZero (JS.parseInt (JS.replaceNonDigits input))).
Proof.
  unfold Amount.stored, Amount.submitted, Number.parseInt.
  cbn [AttendanceForm.handleCollectionChange AttendanceForm.collection].
  pose proof (stored_amount_nonneg input) as Hn.
  destruct (JS.parseInt (JS.replaceNonDigits input)) as [v|]; [|reflexivity].
  cbn [JS.orZero] in *.
  destruct (ofZ_nonneg v Hn) as [(m & -> & _) | ->]; reflexivity.
Qed.

End AmountFacts.

(** C3, as the code has it.  Whatever is typed into the collection field,
    the amount that a submission stores (the change handler drops every
    non-digit, the submit handler reads the rest with [parseInt] and falls
    back to 0) is never [NaN] and never negative: it is an integer that is
    not negative, or the positive infinity.  Where the digits kept denote a
    number below 2^53, the amount is that number; above, a double rounds
    it, and 9007199254740993 is stored as 9007199254740992.  Typing 1a2b3
    stores 123, an empty field stores 0, and a leading minus sign is
    dropped, so -n stores what n stores. *)
Theorem C3_collection_amount :
  forall (props : AttendanceForm.Props) (today : AttendanceForm.Date) (now : string)
         (st : AttendanceForm.State),
    let amount := fun input : string => Amount.stored input st in
    let denoted := fun input : string =>
      Types.collection
        (AttendanceForm.newRecord props today now
           (AttendanceForm.handleCollectionChange input st)) in
    (forall input,
        (exists n, amount input = Number.Finite n /\ 0 <= n) \/
        amount input = Number.Infinity false) /\
    (forall input,
        denoted input < 2 ^ 53 ->
        0 <= denoted input /\ amount input = Number.Finite (denoted input)) /\
    amount "9007199254740993" = Number.Finite 9007199254740992 /\
    amount "1a2b3" = Number.Finite 123 /\
    amount "" = Number.Finite 0 /\
    (forall input, amount ("-" +:+ input) = amount input) /\
    amount "-50000" = Number.Finite 50000.
Proof.
  intros props today now st amount denoted. subst amount denoted.
  cbn [AttendanceForm.newRecord Types.collection AttendanceForm.handleCollectionChange
       AttendanceForm.collection].
  split; [|split].
  - intros input. rewrite stored_ofZ. apply ofZ_nonneg, stored_amount_nonneg.
  - intros input Hsmall. pose proof (stored_amount_nonneg input) as Hn.
    split; [exact Hn|]. rewrite stored_ofZ. apply ofZ_exact. lia.
  - split; [vm_compute; reflexivity|]. repeat split.
Qed.

Lemma C3_collection_amount_witness :
  Amount.stored "Rp 50.000" Scenario.marked = Number.Finite 50000.
Proof.
  pose proof (C3_collection_amount (LocalApp.formProps Scenario.roster Scenario.store)
                Scenario.monday "2024-01-01T19:31:00.000Z" Scenario.marked) as H.
  cbv zeta in H. destruct H as (_ & Hexact & _).
  destruct (Hexact "Rp 50.000") as [_ H]; [vm_compute; reflexivity | exact H].
Defined.

(** C3 as written fails on a text of more digits than a Number can hold: a
    one followed by 309 zeros denotes an integer from which the Number is
    the positive infinity, which [|| 0] keeps, and the amount stored is no
    integer. *)
Lemma C3_collection_amount_counterexample :
  Amount.stored AmountScenario.huge Scenario.marked = Number.Infinity false /\
  ~ (exists n : Z, Amount.stored AmountScenario.huge Scenario.marked = Number.Finite n).
Proof.
  assert (Amount.stored AmountScenario.huge Scenario.marked = Number.Infinity false) as H
    by (vm_compute; reflexivity).
  split; [exact H|]. rewrite H. intros [n Hn]. discriminate Hn.
Qed.

(** * Properties of the sort and of the filtered view *)

Section SortFacts.
Context {A : Type}.
Variable comparefn : A -> A -> option Z.

Lemma insert_Permutation x l : Permutation (x :: l) (JS.insert comparefn x l).
Proof.
  induction l as [|y l IH]; cbn; [reflexivity|].
  destruct (0 <? JS.sortCompare comparefn x y); [|reflexivity].
  rewrite perm_swap. now apply perm_skip.
Qed.

Lemma sort_cons x l :
  JS.sort comparefn (x :: l) = JS.insert comparefn x (JS.sort comparefn l).
Proof. reflexivity. Qed.

Lemma sort_Permutation l : Permutation l (JS.sort comparefn l).
Proof.
  induction l as [|x l IH]; [reflexivity|].
  rewrite sort_cons, <- insert_Permutation. now apply perm_skip.
Qed.

(** Where no element compares greater than a later one, the sort moves
    nothing. *)
Lemma sort_fixed l :
  (forall x y, In x l -> In y l -> JS.sortCompare comparefn x y <= 0) ->
  JS.sort comparefn l = l.
Proof.
  induction l as [|x l IH]; intros H; [reflexivity|].
  rewrite sort_cons, IH by (intros; apply H; now right).
  destruct l as [|y l]; cbn; [reflexivity|].
  assert (JS.sortCompare comparefn x y <= 0) as Hxy
    by (apply H; [now left | right; now left]).
  destruct (Z.ltb_spec 0 (JS.sortCompare comparefn x y)); [lia | reflexivity].
Qed.

(** A filter that never separates an element from the ones it overtakes
    commutes with the insertion. *)
Lemma filter_insert (keep : A -> bool) x l :
  (forall y, In y l -> 0 < JS.sortCompare comparefn x y -> keep x = true -> keep y = false) ->
  List.filter keep (JS.insert comparefn x l) = List.filter keep (x :: l).
Proof.
  induction l as [|y l IH]; intros H; [reflexivity|].
  cbn [JS.insert]. destruct (Z.ltb_spec 0 (JS.sortCompare comparefn x y)) as [Hlt|_];
    [|reflexivity].
  cbn [List.filter]. rewrite IH by (intros; apply H; auto; now right).
  cbn [List.filter]. destruct (keep x) eqn:Hx; [|reflexivity].
  rewrite (H y); auto. now left.
Qed.

End SortFacts.

Section RecapFacts.
Import Types Reference.
Variable getTime : string -> option Z.

Abbreviation cmp := (AttendanceRecap.byDateDescending getTime).

Lemma compare_same_date a b :
  date a = date b -> JS.sortCompare cmp a b = 0.
Proof.
  intros H. unfold JS.sortCompare, AttendanceRecap.byDateDescending. rewrite H.
  destruct (getTime (date b)); [f_equal; lia | reflexivity].
Qed.

Lemma compare_positive a b :
  0 < JS.sortCompare cmp a b ->
  exists ta tb, getTime (date a) = Some ta /\ getTime (date b) = Some tb /\ ta < tb.
Proof.
  unfold JS.sortCompare, AttendanceRecap.byDateDescending.
  destruct (getTime (date b)) as [tb|], (getTime (date a)) as [ta|]; try lia.
  intros H. exists ta, tb. repeat split; lia.
Qed.

Lemma compare_valid a b ta tb :
  getTime (date a) = Some ta -> getTime (date b) = Some tb ->
  JS.sortCompare cmp a b = tb - ta.
Proof.
  intros Ha Hb. unfold JS.sortCompare, AttendanceRecap.byDateDescending.
  now rewrite Ha, Hb.
Qed.

(** The sort is stable with respect to the date: the records of one date
    keep their store order, whatever the other dates are. *)
Lemma filter_date_sort D l :
  List.filter (fun r => String.eqb (date r) D) (JS.sort cmp l)
    = List.filter (fun r => String.eqb (date r) D) l.
Proof.
  induction l as [|x l IH]; [reflexivity|].
  rewrite sort_cons, filter_insert.
  - cbn [List.filter]. now rewrite IH.
  - intros y _ Hpos Hx. apply String.eqb_eq in Hx.
    apply not_true_is_false. intros Hy. apply String.eqb_eq in Hy.
    rewrite (compare_same_date x y) in Hpos by congruence. lia.
Qed.

Lemma sort_same_date D l :
  JS.sort cmp (List.filter (fun r => String.eqb (date r) D) l)
    = List.filter (fun r => String.eqb (date r) D) l.
Proof.
  apply sort_fixed. intros x y Hx Hy.
  apply filter_In in Hx as [_ Hx], Hy as [_ Hy].
  apply String.eqb_eq in Hx, Hy.
  rewrite compare_same_date by congruence. lia.
Qed.

Lemma insert_dateDescending x l :
  Forall (fun r => getTime (date r) <> None) (x :: l) ->
  dateDescending getTime l -> dateDescending getTime (JS.insert cmp x l).
Proof.
  unfold dateDescending. intros Hv Hs.
  apply Forall_cons_iff in Hv as [Hx Hv].
  destruct (getTime (date x)) as [tx|] eqn:Etx; [clear Hx | congruence].
  induction Hs as [|y l Hs IH Hy]; cbn [JS.insert].
  - constructor; constructor.
  - apply Forall_cons_iff in Hv as [Hyv Hv].
    destruct (getTime (date y)) as [ty|] eqn:Ety; [clear Hyv | congruence].
    rewrite (compare_valid x y tx ty Etx Ety).
    destruct (Z.ltb_spec 0 (ty - tx)) as [Hlt|Hge].
    + constructor; [apply IH; exact Hv|].
      rewrite <- insert_Permutation. constructor; [|exact Hy].
      exists ty, tx. repeat split; auto; lia.
    + constructor; [constructor; assumption|].
      constructor.
      * exists tx, ty. repeat split; auto; lia.
      * eapply List.Forall_impl; [|exact Hy].
        intros z (ty' & tz & E1 & E2 & Hle). exists tx, tz.
        rewrite Ety in E1. injection E1 as <-. repeat split; auto; lia.
Qed.

Lemma sort_dateDescending l :
  Forall (fun r => getTime (date r) <> None) l ->
  dateDescending getTime (JS.sort cmp l).
Proof.
  induction l as [|x l IH]; intros Hv.
  - constructor.
  - rewrite sort_cons. apply insert_dateDescending.
    + apply Forall_cons_iff in Hv as [Hx Hv]. constructor; [exact Hx|].
      eapply Permutation_Forall; [apply sort_Permutation | exact Hv].
    + apply IH. now apply Forall_cons_iff in Hv as [_ Hv].
Qed.

(** In a list ordered by date descending no record stands before a record
    of a later date. *)
Lemma dateDescending_noLaterDateBehind l :
  dateDescending getTime l -> noLaterDateBehind getTime l.
Proof.
  unfold dateDescending. intros Hs. induction Hs as [|x l Hs IH Hx];
    intros i j a b ta tb Hij Ha Hb Hta Htb.
  - destruct i; discriminate Ha.
  - destruct j as [|j]; [lia|]. cbn in Hb. destruct i as [|i]; cbn in Ha.
    + injection Ha as ->.
      assert (In b l) as Hin by (apply list_elem_of_In; eapply list_elem_of_lookup_2; eauto).
      rewrite List.Forall_forall in Hx.
      destruct (Hx b Hin) as (ta' & tb' & E1 & E2 & Hle). congruence.
    + apply (IH i j a b ta tb); auto. lia.
Qed.

End RecapFacts.

(** C4, as the code has it.  For a non-empty filter D the view is exactly
    the records whose date is D, in store order (none added, none missing).
    The view of index.tsx, which filters after sorting, holds exactly these
    records as well, and shows them in the same order whenever every
    record's date is a valid date.  For the empty filter the view is a
    rearrangement of the whole collection, and it is ordered by date
    descending whenever every record's date is a valid date. *)
Theorem C4_filtered_view :
  forall (getTime : string -> option Z) (records : list Types.AttendanceRecord),
    (forall D, D <> "" ->
       AttendanceRecap.filteredRecords getTime records D
         = List.filter (fun r => String.eqb (Types.date r) D) records /\
       (forall r, In r (AttendanceRecap.filteredRecords getTime records D)
                  <-> In r records /\ Types.date r = D) /\
       (forall r, In r (AttendanceRecap.filteredRecordsRemote getTime records D)
                  <-> In r records /\ Types.date r = D) /\
       ((forall r, In r records -> getTime (Types.date r) <> None) ->
        AttendanceRecap.filteredRecordsRemote getTime records D
          = AttendanceRecap.filteredRecords getTime records D)) /\
    Permutation records (AttendanceRecap.filteredRecords getTime records "") /\
    ((forall r, In r records -> getTime (Types.date r) <> None) ->
     Reference.dateDescending getTime (AttendanceRecap.filteredRecords getTime records "") /\
     Reference.noLaterDateBehind getTime (AttendanceRecap.filteredRecords getTime records "")).
Proof.
  intros getTime records. split; [|split].
  - intros D HD.
    assert (AttendanceRecap.filteredRecords getTime records D
              = List.filter (fun r => String.eqb (Types.date r) D) records) as Hf.
    { destruct D as [|c D]; [contradiction|]. cbn. apply sort_same_date. }
    split; [exact Hf|]. split; [|split].
    + intros r. rewrite Hf, filter_In. now rewrite String.eqb_eq.
    + intros r. destruct D as [|c D]; [contradiction|].
      cbn [AttendanceRecap.filteredRecordsRemote]. rewrite filter_In, String.eqb_eq.
      split; intros [Hin Hd]; (split; [|exact Hd]).
      * eapply Permutation_in; [symmetry; apply sort_Permutation | exact Hin].
      * eapply Permutation_in; [apply sort_Permutation | exact Hin].
    + intros _. rewrite Hf. destruct D as [|c D]; [contradiction|]. cbn.
      apply filter_date_sort.
  - cbn. apply sort_Permutation.
  - intros Hv.
    assert (Reference.dateDescending getTime
              (AttendanceRecap.filteredRecords getTime records "")) as Hs
      by (cbn; apply sort_dateDescending; now apply List.Forall_forall).
    split; [exact Hs | now apply dateDescending_noLaterDateBehind].
Qed.

Lemma C4_filtered_view_witness :
  AttendanceRecap.filteredRecords Date.getTime RecapScenario.dated "2024-01-02"
    = [RecapScenario.entry "2024-01-02"; RecapScenario.entry "2024-01-02"] /\
  Reference.dateDescending Date.getTime
    (AttendanceRecap.filteredRecords Date.getTime RecapScenario.dated "") /\
  Reference.noLaterDateBehind Date.getTime
    (AttendanceRecap.filteredRecords Date.getTime RecapScenario.dated "").
Proof.
  destruct (C4_filtered_view Date.getTime RecapScenario.dated) as [Hf [_ Hs]].
  split.
  - destruct (Hf "2024-01-02") as [-> _]; [discriminate | reflexivity].
  - apply Hs. intros r [<- | [<- | [<- | []]]]; discriminate.
Defined.

(** C4 as written fails on a collection that holds a record whose date is
    no date: against it the comparator yields NaN, the sort moves nothing,
    and the record of 2024-01-01 stays before the record of 2024-01-02. *)
Lemma C4_filtered_view_counterexample :
  AttendanceRecap.filteredRecords Date.getTime RecapScenario.undated ""
    = [RecapScenario.entry "2024-01-01"; RecapScenario.entry "";
       RecapScenario.entry "2024-01-02"] /\
  ~ Reference.noLaterDateBehind Date.getTime
      (AttendanceRecap.filteredRecords Date.getTime RecapScenario.undated "").
Proof.
  split; [reflexivity|].
  intros H.
  specialize (H 0%nat 2%nat (RecapScenario.entry "2024-01-01")
                (RecapScenario.entry "2024-01-02") 1704067200000 1704153600000).
  assert (1704153600000 <= 1704067200000) as Habs.
  { apply H; [lia | reflexivity | reflexivity | reflexivity | reflexivity]. }
  lia.
Qed.

(** * JSON: the parser reads back what the printer writes *)

Section StringFacts.

Lemma append_cons (x : ascii) (a b : string) : String x a +:+ b = String x (a +:+ b).
Proof. reflexivity. Qed.

Lemma append_nil_l (b : string) : "" +:+ b = b.
Proof. reflexivity. Qed.

Lemma append_assoc (a b c : string) : (a +:+ b) +:+ c = a +:+ (b +:+ c).
Proof.
  induction a as [|x a IH]; [reflexivity|].
  rewrite !append_cons. now rewrite IH.
Qed.

Lemma append_nil_r (a : string) : a +:+ "" = a.
Proof.
  induction a as [|x a IH]; [reflexivity|].
  rewrite append_cons. now rewrite IH.
Qed.

Lemma length_cons (x : ascii) (a : string) :
  String.length (String x a) = S (String.length a).
Proof. reflexivity. Qed.

Lemma length_append (a b : string) :
  String.length (a +:+ b) = (String.length a + String.length b)%nat.
Proof.
  induction a as [|x a IH]; [reflexivity|].
  rewrite append_cons, !length_cons. now rewrite IH.
Qed.

End StringFacts.

Section QuoteFacts.
Import JSON.

(** One quoted character is read back as that character. *)
Lemma parseChars_quoteChar c rest :
  parseChars (quoteChar c +:+ rest) = prepend (String c EmptyString) (parseChars rest).
Proof.
  destruct c as [[] [] [] [] [] [] [] []]; reflexivity.
Qed.

Lemma parseChars_quoteChars s k :
  parseChars (quoteChars s +:+ String quote k) = Some (s, k).
Proof.
  induction s as [|c s IH]; [reflexivity|].
  cbn [quoteChars]. rewrite append_assoc, parseChars_quoteChar, IH. reflexivity.
Qed.

Lemma quoteJSONString_append s k :
  quoteJSONString s +:+ k = String quote (quoteChars s +:+ String quote k).
Proof.
  unfold quoteJSONString. rewrite append_cons, append_assoc. reflexivity.
Qed.

End QuoteFacts.

Section NumberFacts.
Import JSON Reference.

Lemma digit_char n :
  0 <= n < 10 ->
  let c := ascii_of_N (48 + Z.to_N n) in
  JS.isDigit c = true /\ JS.digitValue c = n /\ (0 < n -> Ascii.eqb c "0" = false).
Proof.
  intros Hn. rewrite <- (Z2Nat.id n) in * by lia.
  assert (Z.to_nat n < 10)%nat as Hk by lia. clear Hn.
  generalize dependent (Z.to_nat n). intros k Hk.
  do 10 (destruct k as [|k];
         [cbn; split; [reflexivity | split; [reflexivity | intros H; first [reflexivity | lia]]]|]).
  lia.
Qed.

Lemma digitsOf_append fuel : forall n acc k,
  digitsOf fuel n acc +:+ k = digitsOf fuel n (acc +:+ k).
Proof.
  induction fuel as [|fuel IH]; intros n acc k; [reflexivity|].
  cbn [digitsOf]. destruct (n <? 10); [reflexivity|].
  now rewrite IH.
Qed.

(** Reading the digits of [n] from 0 leaves the reader at [n]. *)
Lemma readDigits_digitsOf fuel : forall n acc,
  0 <= n < 2 ^ Z.of_nat fuel ->
  readDigits (digitsOf fuel n acc) 0 = readDigits acc n.
Proof.
  induction fuel as [|fuel IH]; intros n acc Hn.
  - cbn in Hn. assert (n = 0) as -> by lia. reflexivity.
  - cbn [digitsOf].
    assert (0 <= n mod 10 < 10) as Hm by (apply Z.mod_pos_bound; lia).
    destruct (digit_char (n mod 10) Hm) as (Hd & Hv & _).
    destruct (Z.ltb_spec n 10) as [Hlt|Hge].
    + cbn [readDigits]. rewrite Hd, Hv. rewrite Z.mod_small by lia. f_equal.
    + rewrite IH.
      * cbn [readDigits]. rewrite Hd, Hv. f_equal.
        pose proof (Z.div_mod n 10). lia.
      * rewrite Nat2Z.inj_succ, Z.pow_succ_r in Hn by lia.
        split; [apply Z.div_pos; lia|].
        apply Z.div_lt_upper_bound; lia.
Qed.

(** The text of a positive number starts with a digit other than 0. *)
Lemma digitsOf_head fuel : forall n acc,
  0 < n < 2 ^ Z.of_nat fuel ->
  exists c r, digitsOf fuel n acc = String c r /\
              JS.isDigit c = true /\ Ascii.eqb c "0" = false.
Proof.
  induction fuel as [|fuel IH]; intros n acc Hn.
  - cbn in Hn. lia.
  - cbn [digitsOf]. destruct (Z.ltb_spec n 10) as [Hlt|Hge].
    + assert (0 <= n mod 10 < 10) as Hm by (apply Z.mod_pos_bound; lia).
      destruct (digit_char (n mod 10) Hm) as (Hd & _ & Hz).
      eexists _, _. split; [reflexivity|]. split; [exact Hd|].
      apply Hz. rewrite Z.mod_small by lia. lia.
    + apply IH.
      rewrite Nat2Z.inj_succ, Z.pow_succ_r in Hn by lia.
      split.
      * apply Z.div_str_pos. lia.
      * apply Z.div_lt_upper_bound; lia.
Qed.

Lemma printNat_fuel n : 0 <= n -> 0 <= n < 2 ^ Z.of_nat (S (Z.to_nat (Z.log2 n))).
Proof.
  intros Hn. split; [exact Hn|].
  rewrite Nat2Z.inj_succ, Z2Nat.id by apply Z.log2_nonneg.
  destruct (Z.eq_dec n 0) as [->|Hne]; [reflexivity|].
  apply Z.log2_spec. lia.
Qed.

Lemma parseNumber_minus s :
  parseNumber (String "-" s) =
    match parseInteger s with
    | None => None
    | Some (n, int, r1) =>
        match parseFraction r1 with
        | None => None
        | Some (frac, r2) =>
            match parseExponent r2 with
            | None => None
            | Some (exp, r3) =>
                match frac, exp with
                | EmptyString, EmptyString => Some (JNumber (- n), r3)
                | _, _ => Some (JDecimal ("-" +:+ int +:+ frac +:+ exp), r3)
                end
            end
        end
    end.
Proof. reflexivity. Qed.

Lemma parseNumber_plain c r :
  Ascii.eqb c "-" = false ->
  parseNumber (String c r) =
    match parseInteger (String c r) with
    | None => None
    | Some (n, int, r1) =>
        match parseFraction r1 with
        | None => None
        | Some (frac, r2) =>
            match parseExponent r2 with
            | None => None
            | Some (exp, r3) =>
                match frac, exp with
                | EmptyString, EmptyString => Some (JNumber n, r3)
                | _, _ => Some (JDecimal ("" +:+ int +:+ frac +:+ exp), r3)
                end
            end
        end
    end.
Proof. intros H. unfold parseNumber. rewrite H. reflexivity. Qed.

Lemma parseNumber_printZ n k :
  numberEnd k -> parseNumber (printZ n +:+ k) = Some (JNumber n, k).
Proof.
  intros Hk.
  assert (forall m, readDigits k m = (m, k)) as Hread.
  { intros m. destruct k as [|c k]; [reflexivity|]. cbn. now destruct Hk as [-> _]. }
  assert (parseFraction k = Some (EmptyString, k)) as Hfrac.
  { destruct k as [|c k]; [reflexivity|]. cbn. now destruct Hk as (_ & -> & _). }
  assert (parseExponent k = Some (EmptyString, k)) as Hexp.
  { destruct k as [|c k]; [reflexivity|]. cbn. now destruct Hk as (_ & _ & -> & ->). }
  assert (forall m, 0 <= m ->
            match parseInteger (printNat m +:+ k) with
            | Some (v, _, r) => v = m /\ r = k
            | None => False
            end) as Hint.
  { intros m Hm. unfold printNat. rewrite digitsOf_append.
    pose proof (printNat_fuel m Hm) as Hf.
    destruct (Z.eq_dec m 0) as [->|Hne].
    - change (digitsOf (S (Z.to_nat (Z.log2 0))) 0 ("" +:+ k)) with (String "0" k).
      cbn. auto.
    - destruct (digitsOf_head (S (Z.to_nat (Z.log2 m))) m ("" +:+ k)) as (c & r & E & Hd & Hz);
        [lia|].
      assert (readDigits (digitsOf (S (Z.to_nat (Z.log2 m))) m ("" +:+ k)) 0 = (m, k)) as Hrd
        by (rewrite readDigits_digitsOf by exact Hf; now rewrite append_nil_l, Hread).
      rewrite E in Hrd |- *. unfold parseInteger. rewrite Hz, Hd, Hrd. cbn. auto. }
  unfold printZ. destruct (Z.ltb_spec n 0) as [Hneg|Hpos].
  - rewrite append_cons, parseNumber_minus.
    specialize (Hint (- n) ltac:(lia)).
    destruct (parseInteger (printNat (- n) +:+ k)) as [[[v i] r]|]; [|contradiction].
    destruct Hint as [-> ->]. rewrite Hfrac, Hexp. do 2 f_equal. f_equal. lia.
  - specialize (Hint n Hpos).
    assert (exists c r, printNat n +:+ k = String c r /\ Ascii.eqb c "-" = false) as (c & r & E & Hc).
    { unfold printNat. rewrite digitsOf_append.
      destruct (Z.eq_dec n 0) as [->|Hne].
      - change (digitsOf (S (Z.to_nat (Z.log2 0))) 0 ("" +:+ k)) with (String "0" k).
        eexists _, _. split; reflexivity.
      - destruct (digitsOf_head (S (Z.to_nat (Z.log2 n))) n ("" +:+ k)) as (c & r & E & Hd & _).
        { pose proof (printNat_fuel n Hpos). lia. }
        exists c, r. split; [exact E|].
        apply not_true_is_false. intros He. apply Ascii.eqb_eq in He. subst c. discriminate. }
    rewrite E in *. rewrite parseNumber_plain by exact Hc.
    destruct (parseInteger (String c r)) as [[[v i] r']|]; [|contradiction].
    destruct Hint as [-> ->]. rewrite Hfrac, Hexp. reflexivity.
Qed.

Lemma digitsOf_length fuel : forall n acc,
  (String.length acc <= String.length (digitsOf fuel n acc))%nat.
Proof.
  induction fuel as [|fuel IH]; intros n acc; [cbn; lia|].
  cbn [digitsOf]. destruct (n <? 10); [cbn; lia|].
  etransitivity; [|apply IH]. cbn. lia.
Qed.

Lemma printZ_length n : (1 <= String.length (printZ n))%nat.
Proof.
  unfold printZ. destruct (n <? 0); [cbn; lia|].
  unfold printNat. cbn [digitsOf]. destruct (n <? 10); [cbn; lia|].
  etransitivity; [|apply digitsOf_length]. cbn. lia.
Qed.

End NumberFacts.

Section ParserFacts.
Import JSON Reference.

Lemma value_induction (P : value -> Prop) :
  P JNull ->
  (forall b, P (JBool b)) ->
  (forall n, P (JNumber n)) ->
  (forall literal, P (JDecimal literal)) ->
  (forall s, P (JString s)) ->
  (forall elements, Forall P elements -> P (JArray elements)) ->
  (forall members, Forall (fun m => P (snd m)) members -> P (JObject members)) ->
  forall v, P v.
Proof.
  intros Hnull Hbool Hnum Hdec Hstr Harr Hobj.
  fix self 1. intros [ | b | n | literal | s | elements | members].
  - exact Hnull.
  - apply Hbool.
  - apply Hnum.
  - apply Hdec.
  - apply Hstr.
  - apply Harr. induction elements as [|e es IH]; constructor; [apply self | exact IH].
  - apply Hobj. induction members as [|[k v] ms IH]; constructor; [apply self | exact IH].
Qed.

(** The unfolding equations of the three mutually recursive parsers. *)
Lemma parseValue_S fuel s :
  parseValue (S fuel) s =
    match skipWs s with
    | EmptyString => None
    | String c r =>
        if Ascii.eqb c "[" then
          match skipWs r with
          | EmptyString => None
          | String c' r' =>
              if Ascii.eqb c' "]" then Some (JArray [], r') else parseElements fuel r []
          end
        else if Ascii.eqb c "{" then
          match skipWs r with
          | EmptyString => None
          | String c' r' =>
              if Ascii.eqb c' "}" then Some (JObject [], r') else parseMembers fuel r []
          end
        else if Ascii.eqb c quote then
          match parseChars r with
          | Some (str, r') => Some (JString str, r')
          | None => None
          end
        else if Ascii.eqb c "n" then
          match stripPrefix "ull" r with Some r' => Some (JNull, r') | None => None end
        else if Ascii.eqb c "t" then
          match stripPrefix "rue" r with Some r' => Some (JBool true, r') | None => None end
        else if Ascii.eqb c "f" then
          match stripPrefix "alse" r with Some r' => Some (JBool false, r') | None => None end
        else parseNumber (String c r)
    end.
Proof. reflexivity. Qed.

Lemma parseElements_S fuel s acc :
  parseElements (S fuel) s acc =
    match parseValue fuel s with
    | None => None
    | Some (v, r) =>
        match skipWs r with
        | EmptyString => None
        | String c r' =>
            if Ascii.eqb c "," then parseElements fuel r' (acc ++ [v])
            else if Ascii.eqb c "]" then Some (JArray (acc ++ [v]), r')
            else None
        end
    end.
Proof. reflexivity. Qed.

Lemma parseMembers_S fuel s acc :
  parseMembers (S fuel) s acc =
    match skipWs s with
    | EmptyString => None
    | String q r =>
        if Ascii.eqb q quote then
          match parseChars r with
          | None => None
          | Some (key, r1) =>
              match skipWs r1 with
              | EmptyString => None
              | String c1 r2 =>
                  if Ascii.eqb c1 ":" then
                    match parseValue fuel r2 with
                    | None => None
                    | Some (v, r3) =>
                        match skipWs r3 with
                        | EmptyString => None
                        | String c3 r4 =>
                            if Ascii.eqb c3 "," then
                              parseMembers fuel r4 (setProperty key v acc)
                            else if Ascii.eqb c3 "}" then
                              Some (JObject (setProperty key v acc), r4)
                            else None
                        end
                    end
                  else None
              end
          end
        else None
    end.
Proof. reflexivity. Qed.

Lemma skipWs_idem s : skipWs (skipWs s) = skipWs s.
Proof.
  induction s as [|c s IH]; [reflexivity|].
  cbn [skipWs]. destruct (isWhiteSpace c) eqn:Hc; [exact IH|].
  cbn [skipWs]. now rewrite Hc.
Qed.

Lemma skipWs_spaces n s : skipWs (spaces n +:+ s) = skipWs s.
Proof. induction n as [|n IH]; [reflexivity|]. cbn [spaces]. rewrite append_cons. exact IH. Qed.

Lemma skipWs_line n s : skipWs (String newline (spaces n +:+ s)) = skipWs s.
Proof. cbn [skipWs]. change (isWhiteSpace newline) with true. cbn iota. apply skipWs_spaces. Qed.

Lemma parseValue_skipWs fuel s : parseValue fuel (skipWs s) = parseValue fuel s.
Proof. destruct fuel; [reflexivity|]. now rewrite !parseValue_S, skipWs_idem. Qed.

Lemma parseValue_skip fuel s s' :
  skipWs s = skipWs s' -> parseValue fuel s = parseValue fuel s'.
Proof. intros H. now rewrite <- (parseValue_skipWs fuel s), H, parseValue_skipWs. Qed.

Lemma valueStart_spec c :
  valueStart c = true ->
  isWhiteSpace c = false /\ Ascii.eqb c "]" = false /\ Ascii.eqb c "}" = false.
Proof.
  unfold valueStart. cbn [existsb]. intros H.
  repeat (apply orb_true_iff in H as [H|H]); try discriminate H;
    apply Ascii.eqb_eq in H; subst c; repeat split.
Qed.

Lemma isDigit_valueStart c : JS.isDigit c = true -> valueStart c = true.
Proof. destruct c as [[] [] [] [] [] [] [] []]; cbn; intros H; first [reflexivity | discriminate H]. Qed.

Lemma parseValue_number fuel c r :
  JS.isDigit c = true \/ c = "-"%char ->
  parseValue (S fuel) (String c r) = parseNumber (String c r).
Proof.
  destruct c as [[] [] [] [] [] [] [] []]; intros [H|H];
    first [reflexivity | discriminate H].
Qed.

End ParserFacts.

Section RoundTrip.
Import JSON Reference.

Lemma print_head v : forall indent,
  plain v = true -> exists c r, print indent v = String c r /\ valueStart c = true.
Proof.
  intros indent Hp. destruct v as [ | [] | n | literal | s | [|e es] | [|m ms]];
    try (eexists _, _; split; reflexivity); [|discriminate Hp].
  cbn [print]. unfold printZ. destruct (Z.ltb_spec n 0) as [Hneg|Hpos].
  - eexists _, _; split; reflexivity.
  - unfold printNat. destruct (Z.eq_dec n 0) as [->|Hne].
    + eexists _, _; split; reflexivity.
    + destruct (digitsOf_head (S (Z.to_nat (Z.log2 n))) n "") as (c & r & E & Hd & _).
      { pose proof (printNat_fuel n Hpos). lia. }
      exists c, r. split; [exact E | now apply isDigit_valueStart].
Qed.

Lemma skipWs_print v indent k :
  plain v = true ->
  exists c r, print indent v +:+ k = String c r /\ skipWs (print indent v +:+ k) = String c r
              /\ Ascii.eqb c "]" = false /\ Ascii.eqb c "}" = false.
Proof.
  intros Hp. destruct (print_head v indent Hp) as (c & r & E & Hc).
  destruct (valueStart_spec c Hc) as (Hw & H1 & H2).
  exists c, (r +:+ k). rewrite E, append_cons. cbn [skipWs]. rewrite Hw. auto.
Qed.

(** What stands behind an item of an array or an object is no part of a
    number. *)
Lemma numberEnd_moreLines {A} (item : A -> string) indent l n c k :
  numberEnd (moreLines item indent l +:+ String newline (spaces n +:+ String c k)).
Proof.
  destruct l as [|x l]; cbn [moreLines].
  - rewrite append_nil_l. cbn. repeat split.
  - rewrite append_cons. cbn. repeat split.
Qed.

Lemma plainKeys_app ks1 k ks2 :
  plainKeys (ks1 ++ k :: ks2) = true ->
  (forall k', In k' ks1 -> String.eqb k' k = false) /\ arrayIndex k = None.
Proof.
  induction ks1 as [|k1 ks1 IH]; cbn [plainKeys app]; intros H.
  - apply andb_true_iff in H as [H _]. apply andb_true_iff in H as [_ H].
    split; [intros k' []|]. now destruct (arrayIndex k).
  - apply andb_true_iff in H as [H Hrest]. apply andb_true_iff in H as [H _].
    destruct (IH Hrest) as [Hfresh Hidx]. split; [|exact Hidx].
    intros k' [<-|Hin]; [|now apply Hfresh].
    apply negb_true_iff in H. rewrite existsb_app in H.
    apply orb_false_iff in H as [_ H]. cbn [existsb] in H.
    now apply orb_false_iff in H as [H _].
Qed.

Lemma setProperty_fresh key v acc :
  (forall k', In k' (map fst acc) -> String.eqb k' key = false) ->
  arrayIndex key = None ->
  setProperty key v acc = acc ++ [(key, v)].
Proof.
  intros Hfresh Hidx. unfold setProperty.
  assert (replaceMember key v acc = None) as ->.
  { induction acc as [|[k' v'] acc IH]; [reflexivity|].
    cbn [replaceMember]. rewrite (Hfresh k') by now left.
    rewrite IH; [reflexivity|]. intros k'' Hin. apply Hfresh. now right. }
  now rewrite Hidx.
Qed.

Lemma parseElements_lines indent n k : forall es,
  Forall readsBack es -> forallb plain es = true ->
  forall e, readsBack e -> plain e = true ->
  forall fuel acc,
    (list_sum (map (fun e => S (cost e)) (e :: es)) <= fuel)%nat ->
    parseElements fuel
      ((line (print indent) indent e +:+ moreLines (print indent) indent es)
         +:+ String newline (spaces n +:+ String "]" k)) acc
      = Some (JArray (acc ++ e :: es), k).
Proof.
  induction es as [|e2 es IH]; intros Hes Hpes e He Hpe fuel acc Hfuel;
    (destruct fuel as [|fuel]; [cbn in Hfuel; lia|]);
    rewrite parseElements_S; unfold line at 1;
    rewrite !append_cons, !append_assoc;
    rewrite (parseValue_skip fuel _ _ (skipWs_line indent _)).
  - rewrite He; [| exact Hpe | apply numberEnd_moreLines | cbn in Hfuel; lia].
    cbn [moreLines]. rewrite append_nil_l, skipWs_line. cbn [skipWs].
    change (isWhiteSpace "]") with false. cbn iota. reflexivity.
  - cbn [forallb] in Hpes. apply andb_true_iff in Hpes as [Hpe2 Hpes].
    apply Forall_cons_iff in Hes as [He2 Hes].
    rewrite He; [| exact Hpe | apply numberEnd_moreLines | cbn in Hfuel; lia].
    cbn [moreLines]. rewrite append_cons. cbn [skipWs].
    change (isWhiteSpace ",") with false. cbn iota.
    change (Ascii.eqb "," ",") with true. cbn iota.
    rewrite IH; [| exact Hes | exact Hpes | exact He2 | exact Hpe2 | cbn in Hfuel |- *; lia].
    now rewrite <- app_assoc.
Qed.

Lemma parseMembers_lines indent n k : forall ms,
  Forall (fun m => readsBack (snd m)) ms ->
  forallb (fun m => plain (snd m)) ms = true ->
  forall m, readsBack (snd m) -> plain (snd m) = true ->
  forall fuel acc,
    plainKeys (map fst (acc ++ m :: ms)) = true ->
    (list_sum (map (fun m => S (cost (snd m))) (m :: ms)) <= fuel)%nat ->
    let member := fun m : string * value =>
      quoteJSONString (fst m) +:+ ": " +:+ print indent (snd m) in
    parseMembers fuel
      ((line member indent m +:+ moreLines member indent ms)
         +:+ String newline (spaces n +:+ String "}" k)) acc
      = Some (JObject (acc ++ m :: ms), k).
Proof.
  induction ms as [|m2 ms IH]; intros Hms Hpms [key v] Hv Hpv fuel acc Hkeys Hfuel member;
    cbn [fst snd] in *;
    (destruct fuel as [|fuel]; [cbn in Hfuel; lia|]);
    rewrite parseMembers_S; unfold line at 1; unfold member at 1; cbn [fst snd];
    rewrite !append_cons, !append_assoc, skipWs_line, quoteJSONString_append;
    cbn [skipWs]; change (isWhiteSpace quote) with false; cbn iota;
    rewrite Ascii.eqb_refl, parseChars_quoteChars, !append_cons, append_nil_l;
    cbn [skipWs]; change (isWhiteSpace ":") with false; cbn iota;
    change (Ascii.eqb ":" ":") with true; cbn iota;
    rewrite (parseValue_skip fuel (String " " _) (print indent v +:+ _)) by reflexivity;
    (rewrite Hv; [| exact Hpv | apply numberEnd_moreLines | cbn in Hfuel; lia]);
    rewrite map_app in Hkeys; cbn [map fst] in Hkeys;
    destruct (plainKeys_app _ _ _ Hkeys) as [Hfresh Hidx];
    rewrite (setProperty_fresh key v acc Hfresh Hidx).
  - cbn [moreLines]. rewrite append_nil_l, skipWs_line. cbn [skipWs].
    change (isWhiteSpace "}") with false. cbn iota. reflexivity.
  - cbn [forallb] in Hpms. apply andb_true_iff in Hpms as [Hpm2 Hpms].
    apply Forall_cons_iff in Hms as [Hm2 Hms].
    cbn [moreLines]. rewrite append_cons. cbn [skipWs].
    change (isWhiteSpace ",") with false. cbn iota.
    change (Ascii.eqb "," ",") with true. cbn iota.
    fold member.
    rewrite IH; [| exact Hms | exact Hpms | exact Hm2 | exact Hpm2 | | cbn in Hfuel |- *; lia].
    + now rewrite <- app_assoc.
    + rewrite <- app_assoc, map_app. exact Hkeys.
Qed.

Lemma printZ_head n :
  exists c r, printZ n = String c r /\ (JS.isDigit c = true \/ c = "-"%char).
Proof.
  unfold printZ. destruct (Z.ltb_spec n 0) as [Hneg|Hpos].
  - eexists _, _. split; [reflexivity | now right].
  - unfold printNat. destruct (Z.eq_dec n 0) as [->|Hne].
    + eexists _, _. split; [reflexivity | now left].
    + destruct (digitsOf_head (S (Z.to_nat (Z.log2 n))) n "") as (c & r & E & Hd & _).
      { pose proof (printNat_fuel n Hpos). lia. }
      exists c, r. split; [exact E | now left].
Qed.

Lemma parseValue_array fuel r :
  (exists c r', skipWs r = String c r' /\ Ascii.eqb c "]" = false) ->
  parseValue (S fuel) (String "[" r) = parseElements fuel r [].
Proof.
  intros (c & r' & E & Hc). rewrite parseValue_S. cbn [skipWs].
  change (isWhiteSpace "[") with false. cbn iota.
  change (Ascii.eqb "[" "[") with true. cbn iota. now rewrite E, Hc.
Qed.

Lemma parseValue_object fuel r :
  (exists c r', skipWs r = String c r' /\ Ascii.eqb c "}" = false) ->
  parseValue (S fuel) (String "{" r) = parseMembers fuel r [].
Proof.
  intros (c & r' & E & Hc). rewrite parseValue_S. cbn [skipWs].
  change (isWhiteSpace "{") with false. cbn iota.
  change (Ascii.eqb "{" "[") with false. change (Ascii.eqb "{" "{") with true.
  cbn iota. now rewrite E, Hc.
Qed.

Lemma skipWs_first_line {A} (item : A -> string) indent x rest c r :
  item x = String c r -> isWhiteSpace c = false ->
  skipWs (line item indent x +:+ rest) = String c (r +:+ rest).
Proof.
  intros E Hc. unfold line. rewrite append_cons, append_assoc, skipWs_line, E, append_cons.
  cbn [skipWs]. now rewrite Hc.
Qed.

(** Every plain value is read back from its text. *)
Lemma print_readsBack v : readsBack v.
Proof.
  induction v as [ | b | n | literal | s | elements IH | members IH] using value_induction;
    intros Hp indent k fuel Hk Hfuel;
    (destruct fuel as [|fuel]; [cbn in Hfuel; lia|]).
  - reflexivity.
  - destruct b; reflexivity.
  - cbn [print]. destruct (printZ_head n) as (c & r & E & Hc).
    assert (printZ n +:+ k = String c (r +:+ k)) as E' by now rewrite E.
    rewrite E', parseValue_number by exact Hc. rewrite <- E'.
    now apply parseNumber_printZ.
  - discriminate Hp.
  - cbn [print]. rewrite quoteJSONString_append, parseValue_S. cbn [skipWs].
    change (isWhiteSpace quote) with false. cbn iota.
    change (Ascii.eqb quote "[") with false. change (Ascii.eqb quote "{") with false.
    rewrite Ascii.eqb_refl. cbn iota. now rewrite parseChars_quoteChars.
  - destruct elements as [|e es]; [reflexivity|].
    cbn [plain forallb] in Hp. apply andb_true_iff in Hp as [Hpe Hpes].
    apply Forall_cons_iff in IH as [He Hes].
    cbn [print lines].
    rewrite append_cons, (append_assoc (line _ _ e +:+ moreLines _ _ es)), append_cons,
      (append_assoc (spaces indent)).
    change ("]" +:+ k) with (String "]" k).
    rewrite parseValue_array.
    + apply (parseElements_lines (indent + gap) indent k es Hes Hpes e He Hpe fuel []).
      cbn in Hfuel |- *. lia.
    + destruct (print_head e (indent + gap) Hpe) as (c & r & E & Hc).
      destruct (valueStart_spec c Hc) as (Hw & H1 & _).
      exists c. eexists. split; [|exact H1].
      rewrite append_assoc. eapply skipWs_first_line; [exact E | exact Hw].
  - destruct members as [|m ms]; [reflexivity|].
    cbn [plain] in Hp. apply andb_true_iff in Hp as [Hkeys Hp].
    cbn [forallb] in Hp. apply andb_true_iff in Hp as [Hpm Hpms].
    apply Forall_cons_iff in IH as [Hm Hms].
    cbn [print lines].
    rewrite append_cons, (append_assoc (line _ _ m +:+ moreLines _ _ ms)), append_cons,
      (append_assoc (spaces indent)).
    change ("}" +:+ k) with (String "}" k).
    rewrite parseValue_object.
    + apply (parseMembers_lines (indent + gap) indent k ms Hms Hpms m Hm Hpm fuel []).
      * exact Hkeys.
      * cbn in Hfuel |- *. lia.
    + exists quote. eexists. split; [|reflexivity].
      rewrite append_assoc. apply skipWs_first_line; [|reflexivity].
      unfold quoteJSONString. rewrite append_cons. reflexivity.
Qed.

End RoundTrip.

Section FuelFacts.
Import JSON Reference.

Lemma list_sum_cons (a : nat) (l : list nat) : list_sum (a :: l) = (a + list_sum l)%nat.
Proof. reflexivity. Qed.

Lemma length_lines {A} (item : A -> string) (weight : A -> nat) indent l :
  Forall (fun x => (weight x <= String.length (item x))%nat) l ->
  (list_sum (map (fun x => S (weight x)) l) <= String.length (lines item indent l))%nat.
Proof.
  intros H.
  assert (forall x, (weight x <= String.length (item x))%nat ->
                    (S (weight x) <= String.length (line item indent x))%nat) as Hline.
  { intros x Hx. unfold line. rewrite length_cons, length_append. lia. }
  assert (forall l', Forall (fun x => (weight x <= String.length (item x))%nat) l' ->
            (list_sum (map (fun x => S (weight x)) l')
               <= String.length (moreLines item indent l'))%nat) as Hmore.
  { intros l' H'. induction H' as [|x l' Hx Hl IH]; [cbn; lia|].
    rewrite map_cons, list_sum_cons. cbn [moreLines].
    rewrite length_cons, length_append. specialize (Hline x Hx). lia. }
  destruct H as [|x l Hx Hl]; [cbn; lia|].
  rewrite map_cons, list_sum_cons. cbn [lines]. rewrite length_append.
  specialize (Hline x Hx). specialize (Hmore l Hl). lia.
Qed.

(** The text of a plain value is at least as long as the parser's descent
    into it is deep. *)
Lemma cost_le_length v : forall indent,
  plain v = true -> (cost v <= String.length (print indent v))%nat.
Proof.
  induction v as [ | b | n | literal | s | elements IH | members IH] using value_induction;
    intros indent Hp.
  - cbn. lia.
  - destruct b; cbn; lia.
  - cbn [cost print]. apply printZ_length.
  - discriminate Hp.
  - cbn. lia.
  - destruct elements as [|e es]; [cbn; lia|].
    assert (Forall (fun x => (cost x <= String.length (print (indent + gap) x))%nat) (e :: es))
      as Hall.
    { cbn [plain] in Hp. revert Hp IH. generalize (e :: es) as l. clear e es.
      induction l as [|x l IHl]; intros Hp IH; constructor.
      - apply Forall_cons_iff in IH as [Hx _]. apply Hx.
        cbn [forallb] in Hp. now apply andb_true_iff in Hp as [Hp _].
      - apply IHl.
        + cbn [forallb] in Hp. now apply andb_true_iff in Hp as [_ Hp].
        + now apply Forall_cons_iff in IH as [_ IH]. }
    pose proof (length_lines (print (indent + gap)) cost (indent + gap) (e :: es) Hall) as Hl.
    cbn [cost print]. rewrite length_cons, length_append. cbn [cost] in Hl. lia.
  - destruct members as [|m ms]; [cbn; lia|].
    pose (member := fun m : string * value =>
            quoteJSONString (fst m) +:+ ": " +:+ print (indent + gap) (snd m)).
    assert (Forall (fun x => (cost (snd x) <= String.length (member x))%nat) (m :: ms))
      as Hall.
    { cbn [plain] in Hp. apply andb_true_iff in Hp as [_ Hp].
      revert Hp IH. generalize (m :: ms) as l. clear m ms.
      induction l as [|x l IHl]; intros Hp IH; constructor.
      - apply Forall_cons_iff in IH as [Hx _]. unfold member.
        rewrite !length_append. cbn [forallb] in Hp.
        apply andb_true_iff in Hp as [Hp _]. specialize (Hx (indent + gap)%nat Hp). lia.
      - apply IHl.
        + cbn [forallb] in Hp. now apply andb_true_iff in Hp as [_ Hp].
        + now apply Forall_cons_iff in IH as [_ IH]. }
    pose proof (length_lines member (fun x => cost (snd x)) (indent + gap) (m :: ms) Hall) as Hl.
    cbn [cost print]. fold member. rewrite length_cons, length_append. lia.
Qed.

(** Round trip of the two built-ins: [JSON.parse(JSON.stringify(v, null, 2))]
    is [v] for every plain value. *)
Lemma parse_stringify v : plain v = true -> parse (stringify v) = Some v.
Proof.
  intros Hp. unfold parse, stringify.
  pose proof (print_readsBack v Hp 0%nat "" (S (String.length (print 0 v))) I) as H.
  rewrite append_nil_r in H. rewrite H; [reflexivity|].
  pose proof (cost_le_length v 0%nat Hp). lia.
Qed.

End FuelFacts.

(** * JSON.parse: the fuel never decides *)

Section Consumption.
Import JSON.

Lemma length_skipWs s : (String.length (skipWs s) <= String.length s)%nat.
Proof.
  induction s as [|c s IH]; [reflexivity|].
  cbn [skipWs]. destruct (isWhiteSpace c); rewrite ?length_cons; lia.
Qed.

Lemma length_stripPrefix p : forall s r,
  stripPrefix p s = Some r -> (String.length r <= String.length s)%nat.
Proof.
  induction p as [|a p IH]; intros s r H; cbn [stripPrefix] in H.
  - injection H as <-. lia.
  - destruct s as [|b s]; [discriminate H|].
    destruct (Ascii.eqb a b); [|discriminate H].
    apply IH in H. rewrite length_cons. lia.
Qed.

Lemma length_prepend p res str r :
  prepend p res = Some (str, r) -> exists str', res = Some (str', r).
Proof.
  destruct res as [[str' r']|]; cbn; intros H; [|discriminate H].
  injection H as _ <-. eauto.
Qed.

(** A string, read from behind its opening quote, ends behind its closing
    quote: at least one character is consumed. *)
Lemma length_parseChars : forall n s str r,
  (String.length s < n)%nat ->
  parseChars s = Some (str, r) -> (String.length r < String.length s)%nat.
Proof.
  induction n as [|n IH]; intros s str r Hn H; [lia|].
  destruct s as [|c s]; [discriminate H|].
  cbn [parseChars] in H. rewrite length_cons in *.
  destruct (Ascii.eqb c quote); [injection H as _ <-; lia|].
  destruct (Ascii.eqb c backslash).
  - destruct s as [|e s]; [discriminate H|]. rewrite length_cons in *.
    destruct (Ascii.eqb e "u").
    + destruct s as [|h1 [|h2 [|h3 [|h4 s]]]]; try discriminate H.
      rewrite !length_cons in *.
      destruct (hex4 h1 h2 h3 h4) as [hi|]; [|discriminate H].
      assert (forall str', parseChars s = Some (str', r) ->
                           (String.length r < String.length s)%nat) as Hs
        by (intros str' H'; apply (IH s str' r); [lia | exact H']).
      destruct (isHighSurrogate hi).
      * destruct s as [|b [|u [|l1 [|l2 [|l3 [|l4 s']]]]]];
          try (apply length_prepend in H as [str' H]; apply Hs in H;
               rewrite ?length_cons in *; lia).
        destruct (hex4 l1 l2 l3 l4) as [lo|];
          [|apply length_prepend in H as [str' H]; apply Hs in H;
            rewrite ?length_cons in *; lia].
        destruct (Ascii.eqb b backslash && Ascii.eqb u "u" && isLowSurrogate lo).
        -- apply length_prepend in H as [str' H].
           apply (IH s' str' r) in H; rewrite ?length_cons in *; lia.
        -- apply length_prepend in H as [str' H]. apply Hs in H.
           rewrite ?length_cons in *. lia.
      * apply length_prepend in H as [str' H]. apply Hs in H. lia.
    + destruct (unescape e); [|discriminate H].
      apply length_prepend in H as [str' H].
      apply (IH s str' r) in H; lia.
  - destruct (N_of_ascii c <? 32)%N; [discriminate H|].
    apply length_prepend in H as [str' H].
    apply (IH s str' r) in H; lia.
Qed.

Lemma length_readDigits s : forall acc,
  (String.length (snd (readDigits s acc)) <= String.length s)%nat.
Proof.
  induction s as [|c s IH]; intros acc; [reflexivity|].
  cbn [readDigits]. destruct (JS.isDigit c); [|reflexivity].
  rewrite length_cons. specialize (IH (10 * acc + JS.digitValue c)). lia.
Qed.

Lemma length_scanDigits s :
  (String.length (snd (scanDigits s)) <= String.length s)%nat.
Proof.
  induction s as [|c s IH]; [reflexivity|].
  cbn [scanDigits]. destruct (JS.isDigit c); [|reflexivity].
  destruct (scanDigits s) as [ds r']. cbn [snd] in *. rewrite length_cons. lia.
Qed.

Lemma length_parseFraction s frac r :
  parseFraction s = Some (frac, r) -> (String.length r <= String.length s)%nat.
Proof.
  destruct s as [|c s]; cbn [parseFraction]; [intros H; injection H as _ <-; lia|].
  destruct (Ascii.eqb c ".").
  - pose proof (length_scanDigits s) as Hl.
    destruct (scanDigits s) as [[|d ds] r']; [discriminate|].
    intros H. injection H as _ <-. cbn [snd] in Hl. rewrite length_cons. lia.
  - intros H. injection H as _ <-. lia.
Qed.

Lemma length_parseExponent s exp r :
  parseExponent s = Some (exp, r) -> (String.length r <= String.length s)%nat.
Proof.
  destruct s as [|c s]; cbn [parseExponent]; [intros H; injection H as _ <-; lia|].
  destruct (Ascii.eqb c "e" || Ascii.eqb c "E").
  - destruct s as [|g s'].
    + cbn. discriminate.
    + destruct (Ascii.eqb g "+" || Ascii.eqb g "-").
      * pose proof (length_scanDigits s') as Hl.
        destruct (scanDigits s') as [[|d ds] r']; [discriminate|].
        intros H. injection H as _ <-. cbn [snd] in Hl. rewrite !length_cons. lia.
      * pose proof (length_scanDigits (String g s')) as Hl.
        destruct (scanDigits (String g s')) as [[|d ds] r']; [discriminate|].
        intros H. injection H as _ <-. cbn [snd] in Hl. rewrite !length_cons in *. lia.
  - intros H. injection H as _ <-. lia.
Qed.

Lemma length_parseInteger s n int r :
  parseInteger s = Some (n, int, r) -> (String.length r < String.length s)%nat.
Proof.
  destruct s as [|c s]; cbn [parseInteger]; [discriminate|].
  destruct (Ascii.eqb c "0").
  - intros H. injection H as _ _ <-. rewrite length_cons. lia.
  - destruct (JS.isDigit c) eqn:Hc; [|discriminate].
    intros H. injection H as _ _ <-.
    cbn [readDigits]. rewrite Hc, length_cons.
    pose proof (length_readDigits s (10 * 0 + JS.digitValue c)). lia.
Qed.

Lemma length_parseNumber s v r :
  parseNumber s = Some (v, r) -> (String.length r < String.length s)%nat.
Proof.
  unfold parseNumber.
  assert (forall s1, (String.length s1 <= String.length s)%nat ->
            forall neg,
            match parseInteger s1 with
            | None => None
            | Some (n, int, r1) =>
                match parseFraction r1 with
                | None => None
                | Some (frac, r2) =>
                    match parseExponent r2 with
                    | None => None
                    | Some (exp, r3) =>
                        match frac, exp with
                        | EmptyString, EmptyString =>
                            Some (JNumber (if neg : bool then - n else n), r3)
                        | _, _ =>
                            Some (JDecimal ((if neg then "-" else "") +:+ int +:+ frac +:+ exp),
                                  r3)
                        end
                    end
                end
            end = Some (v, r) -> (String.length r < String.length s)%nat) as Hgen.
  { intros s1 Hs1 neg H.
    destruct (parseInteger s1) as [[[n int] r1]|] eqn:Hi; [|discriminate H].
    apply length_parseInteger in Hi.
    destruct (parseFraction r1) as [[frac r2]|] eqn:Hf; [|discriminate H].
    apply length_parseFraction in Hf.
    destruct (parseExponent r2) as [[exp r3]|] eqn:He; [|discriminate H].
    apply length_parseExponent in He.
    assert (r = r3) as -> by (destruct frac, exp; injection H as _ <-; reflexivity).
    lia. }
  destruct s as [|c s']; [exact (Hgen "" (le_n _) false)|].
  destruct (Ascii.eqb c "-").
  - exact (Hgen s' (Nat.le_succ_diag_r _) true).
  - exact (Hgen (String c s') (le_n _) false).
Qed.

End Consumption.

Section Fuel.
Import JSON.

Local Abbreviation len := String.length.

(** A run of a parser that succeeds has consumed at least one character, and
    gives the same result with any fuel that is no less than the number of
    characters it consumed. *)
Definition settled {A} (run : nat -> option (A * string)) (s : string)
    (res : A * string) : Prop :=
  (len (snd res) < len s)%nat /\
  forall fuel, (len s - len (snd res) <= fuel)%nat -> run fuel = Some res.

Local Ltac skip_ws s c t Es Hs :=
  pose proof (length_skipWs s) as Hs;
  destruct (skipWs s) as [|c t] eqn:Es; [discriminate|];
  rewrite length_cons in Hs.

Local Ltac some_fuel f' :=
  intros f' ?; cbn [snd] in *; destruct f' as [|f']; [lia|].

Lemma parse_settled fuel :
  (forall s res, parseValue fuel s = Some res ->
                 settled (fun f => parseValue f s) s res) /\
  (forall s acc res, parseElements fuel s acc = Some res ->
                     settled (fun f => parseElements f s acc) s res) /\
  (forall s acc res, parseMembers fuel s acc = Some res ->
                     settled (fun f => parseMembers f s acc) s res).
Proof.
  induction fuel as [|fuel (IHv & IHe & IHm)];
    [split; [|split]; intros; discriminate|].
  split; [|split].
  - intros s res H. rewrite parseValue_S in H.
    skip_ws s c t Es Hs.
    destruct (Ascii.eqb c "[") eqn:E1.
    { skip_ws t c' t' Et Ht.
      destruct (Ascii.eqb c' "]") eqn:E2.
      - injection H as <-. split; [cbn [snd]; lia|]. some_fuel f'.
        rewrite parseValue_S, Es, E1, Et, E2. reflexivity.
      - apply IHe in H as [Hl Hf]. split; [lia|]. some_fuel f'.
        rewrite parseValue_S, Es, E1, Et, E2. apply Hf. lia. }
    destruct (Ascii.eqb c "{") eqn:E2.
    { skip_ws t c' t' Et Ht.
      destruct (Ascii.eqb c' "}") eqn:E3.
      - injection H as <-. split; [cbn [snd]; lia|]. some_fuel f'.
        rewrite parseValue_S, Es, E1, E2, Et, E3. reflexivity.
      - apply IHm in H as [Hl Hf]. split; [lia|]. some_fuel f'.
        rewrite parseValue_S, Es, E1, E2, Et, E3. apply Hf. lia. }
    destruct (Ascii.eqb c quote) eqn:E3.
    { destruct (parseChars t) as [[str t']|] eqn:Ec; [|discriminate H].
      injection H as <-.
      pose proof (length_parseChars _ _ _ _ (Nat.lt_succ_diag_r _) Ec).
      split; [cbn [snd]; lia|]. some_fuel f'.
      rewrite parseValue_S, Es, E1, E2, E3, Ec. reflexivity. }
    destruct (Ascii.eqb c "n") eqn:E4.
    { destruct (stripPrefix "ull" t) as [t'|] eqn:Ep; [|discriminate H].
      injection H as <-. pose proof (length_stripPrefix _ _ _ Ep).
      split; [cbn [snd]; lia|]. some_fuel f'.
      rewrite parseValue_S, Es, E1, E2, E3, E4, Ep. reflexivity. }
    destruct (Ascii.eqb c "t") eqn:E5.
    { destruct (stripPrefix "rue" t) as [t'|] eqn:Ep; [|discriminate H].
      injection H as <-. pose proof (length_stripPrefix _ _ _ Ep).
      split; [cbn [snd]; lia|]. some_fuel f'.
      rewrite parseValue_S, Es, E1, E2, E3, E4, E5, Ep. reflexivity. }
    destruct (Ascii.eqb c "f") eqn:E6.
    { destruct (stripPrefix "alse" t) as [t'|] eqn:Ep; [|discriminate H].
      injection H as <-. pose proof (length_stripPrefix _ _ _ Ep).
      split; [cbn [snd]; lia|]. some_fuel f'.
      rewrite parseValue_S, Es, E1, E2, E3, E4, E5, E6, Ep. reflexivity. }
    destruct res as [v r]. pose proof (length_parseNumber _ _ _ H) as Hn.
    rewrite length_cons in Hn.
    split; [cbn [snd]; lia|]. some_fuel f'.
    rewrite parseValue_S, Es, E1, E2, E3, E4, E5, E6. exact H.
  - intros s acc res H. rewrite parseElements_S in H.
    destruct (parseValue fuel s) as [[e r1]|] eqn:Ev; [|discriminate H].
    destruct (IHv _ _ Ev) as [Hl1 Hf1]. cbn [snd] in Hl1, Hf1.
    skip_ws r1 c r2 Er Hr.
    destruct (Ascii.eqb c ",") eqn:E1.
    { apply IHe in H as [Hl Hf]. split; [lia|]. some_fuel f'.
      rewrite parseElements_S, (Hf1 f') by lia. rewrite Er, E1. apply Hf. lia. }
    destruct (Ascii.eqb c "]") eqn:E2; [|discriminate H].
    injection H as <-. split; [cbn [snd]; lia|]. some_fuel f'.
    rewrite parseElements_S, (Hf1 f') by lia. rewrite Er, E1, E2. reflexivity.
  - intros s acc res H. rewrite parseMembers_S in H.
    skip_ws s q t Es Hs.
    destruct (Ascii.eqb q quote) eqn:E0; [|discriminate H].
    destruct (parseChars t) as [[key r1]|] eqn:Ec; [|discriminate H].
    pose proof (length_parseChars _ _ _ _ (Nat.lt_succ_diag_r _) Ec) as Hk.
    skip_ws r1 c1 r2 Er1 Hr1.
    destruct (Ascii.eqb c1 ":") eqn:E1; [|discriminate H].
    destruct (parseValue fuel r2) as [[e r3]|] eqn:Ev; [|discriminate H].
    destruct (IHv _ _ Ev) as [Hl3 Hf3]. cbn [snd] in Hl3, Hf3.
    skip_ws r3 c3 r4 Er3 Hr3.
    destruct (Ascii.eqb c3 ",") eqn:E2.
    { apply IHm in H as [Hl Hf]. split; [lia|]. some_fuel f'.
      rewrite parseMembers_S, Es, E0, Ec, Er1, E1, (Hf3 f') by lia.
      rewrite Er3, E2. apply Hf. lia. }
    destruct (Ascii.eqb c3 "}") eqn:E3; [|discriminate H].
    injection H as <-. split; [cbn [snd]; lia|]. some_fuel f'.
    rewrite parseMembers_S, Es, E0, Ec, Er1, E1, (Hf3 f') by lia.
    rewrite Er3, E2, E3. reflexivity.
Qed.

(** [JSON.parse] fails on a text for no lack of fuel: whenever the descent
    reads a value off the whole text with some fuel, [parse] returns that
    value. *)
Lemma parse_any_fuel fuel text v rest :
  parseValue fuel text = Some (v, rest) -> skipWs rest = ""%string ->
  parse text = Some v.
Proof.
  intros H Hrest. destruct (proj1 (parse_settled fuel) _ _ H) as [Hl Hf].
  cbn [snd] in Hl, Hf. unfold parse.
  rewrite (Hf (S (len text))) by lia. rewrite Hrest. reflexivity.
Qed.

End Fuel.

(** * Properties of import and export *)

Section ImportFacts.
Import Types Runtime Reference.

Lemma plain_toJS r : JSON.plain (toJS r) = true.
Proof.
  unfold toJS. cbn [JSON.plain map fst snd forallb].
  assert (JSON.plainKeys ["id"; "date"; "day"; "officers"; "notes"; "collection"] = true)
    as -> by (vm_compute; reflexivity).
  cbn [andb]. rewrite !andb_true_r.
  induction (officers r) as [|o os IH]; [reflexivity|].
  cbn [map forallb]. rewrite IH, andb_true_r.
  unfold officerToJS, statusToJS. cbn [JSON.plain map fst snd forallb].
  assert (JSON.plainKeys ["name"; "status"] = true) as -> by (vm_compute; reflexivity).
  reflexivity.
Qed.

Lemma plain_store rs : JSON.plain (JSON.JArray (map toJS rs)) = true.
Proof.
  cbn [JSON.plain]. induction rs as [|r rs IH]; [reflexivity|].
  cbn [map forallb]. now rewrite plain_toJS, IH.
Qed.

Lemma statusToJS_inj s1 s2 : statusToJS s1 = statusToJS s2 -> s1 = s2.
Proof. destruct s1, s2; intros H; first [reflexivity | discriminate H]. Qed.

Lemma officerToJS_inj o1 o2 : officerToJS o1 = officerToJS o2 -> o1 = o2.
Proof.
  destruct o1 as [n1 s1], o2 as [n2 s2]. unfold officerToJS. cbn [name status].
  intros H. injection H as Hn Hs.
  assert (s1 = s2) by (destruct s1, s2; first [reflexivity | discriminate Hs]).
  now subst.
Qed.

Lemma map_inj {A B} (f : A -> B) :
  (forall x y, f x = f y -> x = y) -> forall l l', map f l = map f l' -> l = l'.
Proof.
  intros Hf. induction l as [|x l IH]; intros [|y l'] H; try discriminate H; [reflexivity|].
  cbn [map] in H. injection H as Hx Hl. f_equal; [now apply Hf | now apply IH].
Qed.

(** Two typed records that are the same object are the same record. *)
Lemma toJS_inj r1 r2 : toJS r1 = toJS r2 -> r1 = r2.
Proof.
  destruct r1, r2. unfold toJS. cbn [id date day officers notes collection].
  intros H. injection H as -> -> -> Ho -> ->.
  apply (map_inj officerToJS officerToJS_inj) in Ho. now subst.
Qed.

(** Export then import of a plain collection gives the collection back. *)
Lemma import_export (store : list JSON.value) :
  JSON.plain (JSON.JArray store) = true ->
  AttendanceRecap.handleUpload (Some (AttendanceRecap.handleDownload store))
    = [AttendanceRecap.SetRecords store; AttendanceRecap.Alert "Data berhasil diimpor!"].
Proof.
  intros Hp. unfold AttendanceRecap.handleUpload, AttendanceRecap.handleDownload.
  now rewrite parse_stringify.
Qed.

End ImportFacts.

(** C5.  For every list of well-formed attendance records: once the list
    has replaced the collection, the exported document, imported again,
    replaces the collection by the same list: the import calls [setRecords]
    with exactly the objects of the original records, in order, and the
    records they are are the original ones. *)
Theorem C5_export_import_round_trip :
  forall (old : list JSON.value) (rs : list Types.AttendanceRecord),
    Forall Reference.wellFormed rs ->
    let store := AttendanceRecap.perform old (AttendanceRecap.SetRecords (map Runtime.toJS rs)) in
    let document := AttendanceRecap.handleDownload store in
    AttendanceRecap.handleUpload (Some document)
      = [AttendanceRecap.SetRecords (map Runtime.toJS rs);
         AttendanceRecap.Alert "Data berhasil diimpor!"] /\
    AttendanceRecap.import store (Some document)
      = (map Runtime.toJS rs, ["Data berhasil diimpor!"]) /\
    (forall rs', map Runtime.toJS rs' = fst (AttendanceRecap.import store (Some document)) ->
                 rs' = rs).
Proof.
  intros old rs _ store document. subst store document. cbn [AttendanceRecap.perform].
  assert (AttendanceRecap.handleUpload
            (Some (AttendanceRecap.handleDownload (map Runtime.toJS rs)))
          = [AttendanceRecap.SetRecords (map Runtime.toJS rs);
             AttendanceRecap.Alert "Data berhasil diimpor!"]) as Hup
    by (apply import_export, plain_store).
  assert (AttendanceRecap.import (map Runtime.toJS rs)
            (Some (AttendanceRecap.handleDownload (map Runtime.toJS rs)))
          = (map Runtime.toJS rs, ["Data berhasil diimpor!"])) as Himp
    by (unfold AttendanceRecap.import; now rewrite Hup).
  split; [exact Hup|]. split; [exact Himp|].
  intros rs' H. rewrite Himp in H. cbn [fst] in H.
  now apply (map_inj Runtime.toJS toJS_inj) in H.
Qed.

Lemma C5_export_import_round_trip_witness :
  let rs := [Scenario.sunday; RecapScenario.entry "2024-01-01"] in
  let store := AttendanceRecap.perform [] (AttendanceRecap.SetRecords (map Runtime.toJS rs)) in
  let document := AttendanceRecap.handleDownload store in
  AttendanceRecap.handleUpload (Some document)
    = [AttendanceRecap.SetRecords (map Runtime.toJS rs);
       AttendanceRecap.Alert "Data berhasil diimpor!"] /\
  AttendanceRecap.import store (Some document)
    = (map Runtime.toJS rs, ["Data berhasil diimpor!"]) /\
  (forall rs', map Runtime.toJS rs' = fst (AttendanceRecap.import store (Some document)) ->
               rs' = rs).
Proof.
  apply (C5_export_import_round_trip []
           [Scenario.sunday; RecapScenario.entry "2024-01-01"]).
  repeat constructor; cbn; lia.
Defined.

(** C6.  An import whose text is no JSON, or is JSON whose value is no
    list, fails with an alert and calls [setRecords] with nothing: the
    collection after the import is the collection before it. *)
Theorem C6_malformed_import_fails_closed :
  forall (records : list JSON.value) (text : string),
    (JSON.parse text = None \/
     exists v, JSON.parse text = Some v /\ forall l, v <> JSON.JArray l) ->
    fst (AttendanceRecap.import records (Some text)) = records /\
    (forall l, ~ In (AttendanceRecap.SetRecords l) (AttendanceRecap.handleUpload (Some text))) /\
    (JSON.parse text = None ->
     snd (AttendanceRecap.import records (Some text))
       = ["Gagal membaca file JSON. Pastikan formatnya benar."]) /\
    (JSON.parse text <> None ->
     snd (AttendanceRecap.import records (Some text)) = ["Format file JSON tidak valid."]).
Proof.
  intros records text H.
  unfold AttendanceRecap.import, AttendanceRecap.handleUpload.
  destruct H as [-> | (v & -> & Hv)].
  - cbn. repeat split; try congruence. intros l [H|[]]. discriminate H.
  - destruct v; try (cbn; repeat split; try congruence; intros l [H|[]]; discriminate H).
    exfalso. eapply Hv. reflexivity.
Qed.

Lemma C6_malformed_import_fails_closed_witness :
  fst (AttendanceRecap.import ImportScenario.store (Some ImportScenario.cutOff))
    = ImportScenario.store /\
  (forall l, ~ In (AttendanceRecap.SetRecords l)
               (AttendanceRecap.handleUpload (Some ImportScenario.cutOff))) /\
  (JSON.parse ImportScenario.cutOff = None ->
   snd (AttendanceRecap.import ImportScenario.store (Some ImportScenario.cutOff))
     = ["Gagal membaca file JSON. Pastikan formatnya benar."]) /\
  (JSON.parse ImportScenario.cutOff <> None ->
   snd (AttendanceRecap.import ImportScenario.store (Some ImportScenario.cutOff))
     = ["Format file JSON tidak valid."]).
Proof.
  apply (C6_malformed_import_fails_closed ImportScenario.store ImportScenario.cutOff).
  left. vm_compute. reflexivity.
Defined.

(** * Properties of the synchronisation with the remote store *)

Section SyncFacts.
Import Github.
Variable blobSha : string -> string.

Lemma getFile_missing remote path :
  files remote !! path = None -> access remote <> Denied ->
  getFile remote path = Ok None.
Proof.
  intros Hf Ha. unfold getFile, GET. rewrite Hf.
  destruct (access remote); [contradiction | reflexivity | reflexivity].
Qed.

Lemma updateFile_create remote path content :
  files remote !! path = None -> access remote = ReadWrite ->
  updateFile blobSha remote path content None =
    (Ok (blobSha (JSON.stringify content)),
     {| files := <[path := {| text := JSON.stringify content;
                              sha := blobSha (JSON.stringify content) |}]> (files remote);
        access := access remote |}).
Proof. intros Hf Ha. unfold updateFile, PUT. now rewrite Ha, Hf. Qed.

Lemma updateFile_forbidden remote path content h :
  access remote = ReadOnly ->
  updateFile blobSha remote path content h =
    (Throw ("Gagal menyimpan file " +:+ path +:+ ": Forbidden"), remote).
Proof. intros Ha. unfold updateFile, PUT. now rewrite Ha. Qed.

(** A write whose hash is not the hash of the stored file is refused and
    changes nothing in the store. *)
Lemma updateFile_stale remote path content h file :
  files remote !! path = Some file -> h <> Some (sha file) ->
  exists statusText,
    updateFile blobSha remote path content h =
      (Throw ("Gagal menyimpan file " +:+ path +:+ ": " +:+ statusText), remote).
Proof.
  intros Hf Hh. unfold updateFile, PUT. rewrite Hf.
  destruct (access remote); [eexists; reflexivity | eexists; reflexivity |].
  destruct h as [[|c h]|]; [eexists; reflexivity | | eexists; reflexivity].
  destruct (String.eqb_spec (String c h) (sha file)) as [E|_]; [|eexists; reflexivity].
  congruence.
Qed.

Lemma loadOrCreate_found remote path payload app found :
  getFile remote path = Ok (Some found) ->
  loadOrCreate blobSha path payload (app, remote) = (Ok found, (app, remote)).
Proof.
  intros H. unfold loadOrCreate, bind, await_getFile. cbn [fst snd]. now rewrite H.
Qed.

Lemma loadOrCreate_failed remote path payload app message :
  getFile remote path = Throw message ->
  loadOrCreate blobSha path payload (app, remote) = (Throw message, (app, remote)).
Proof.
  intros H. unfold loadOrCreate, bind, await_getFile. cbn [fst snd]. now rewrite H.
Qed.

Lemma loadOrCreate_created remote path payload app :
  files remote !! path = None -> access remote = ReadWrite ->
  loadOrCreate blobSha path payload (app, remote) =
    (Ok (payload, None),
     (app,
      {| files := <[path := {| text := JSON.stringify payload;
                               sha := blobSha (JSON.stringify payload) |}]> (files remote);
         access := access remote |})).
Proof.
  intros Hf Ha. unfold loadOrCreate, bind, await_getFile, await_updateFile. cbn [fst snd].
  rewrite getFile_missing by (auto; rewrite Ha; discriminate).
  now rewrite updateFile_create.
Qed.

Lemma loadOrCreate_refused remote path payload app :
  files remote !! path = None -> access remote = ReadOnly ->
  loadOrCreate blobSha path payload (app, remote) =
    (Throw ("Gagal menyimpan file " +:+ path +:+ ": Forbidden"), (app, remote)).
Proof.
  intros Hf Ha. unfold loadOrCreate, bind, await_getFile, await_updateFile. cbn [fst snd].
  rewrite getFile_missing by (auto; rewrite Ha; discriminate).
  now rewrite updateFile_forbidden.
Qed.

(** A load whose two fetches succeed replaces schedule, records and both
    hashes, and changes nothing in the store. *)
Lemma loadDataFromGithub_found settings app remote sched ssha content rsha :
  token settings <> "" ->
  getFile remote "schedule.json" = Ok (Some (sched, ssha)) ->
  getFile remote "data.json" = Ok (Some (content, rsha)) ->
  loadDataFromGithub blobSha settings (app, remote) =
    (Ok tt,
     (setIsInitialized true
        (setRecordsSha rsha (setRecords content
           (setScheduleSha ssha (setSchedule sched app)))),
      remote)).
Proof.
  intros Ht Hs Hr. unfold loadDataFromGithub.
  destruct (token settings) as [|c t]; [contradiction|].
  unfold tryFinally, tryCatch, bind at 1.
  rewrite (loadOrCreate_found remote _ _ app _ Hs).
  unfold bind at 1, modify at 1. cbn [fst snd].
  unfold bind at 1, modify at 1. cbn [fst snd].
  unfold bind at 1.
  rewrite (loadOrCreate_found remote _ _ _ _ Hr).
  unfold bind, modify. cbn [fst snd]. reflexivity.
Qed.

(** A load that fails at its first fetch alerts, forgets the settings, and
    leaves records and schedule as they were. *)
Lemma loadDataFromGithub_schedule_failed settings app remote message :
  token settings <> "" ->
  getFile remote "schedule.json" = Throw message ->
  loadDataFromGithub blobSha settings (app, remote) =
    (Ok tt,
     (setIsInitialized true
        (forgetSettings (alert ("Gagal memuat data dari GitHub: " +:+ message) app)),
      remote)).
Proof.
  intros Ht Hs. unfold loadDataFromGithub.
  destruct (token settings) as [|c t]; [contradiction|].
  unfold tryFinally, tryCatch, bind at 1.
  rewrite (loadOrCreate_failed remote _ _ app _ Hs).
  unfold bind, modify. cbn [fst snd]. reflexivity.
Qed.

End SyncFacts.

Section LoadFacts.
Import Github GithubApp.
Variable blobSha : string -> string.

(** The three ways the step for one file ends: the file was found, it was
    missing and has been created, or the step threw and the store is as
    before. *)
Lemma loadOrCreate_cases path payload app remote :
  (exists found,
      loadOrCreate blobSha path payload (app, remote) = (Ok found, (app, remote)) /\
      is_Some (files remote !! path)) \/
  (loadOrCreate blobSha path payload (app, remote)
     = (Ok (payload, None), (app, written blobSha remote path payload)) /\
   files remote !! path = None) \/
  (exists message,
      loadOrCreate blobSha path payload (app, remote) = (Throw message, (app, remote))).
Proof.
  destruct (getFile remote path) as [[found|]|message] eqn:Hg.
  - left. exists found. split; [now apply loadOrCreate_found|].
    unfold getFile, GET in Hg.
    destruct (access remote); destruct (files remote !! path);
      cbn in Hg; try discriminate Hg; eauto.
  - assert (files remote !! path = None /\ access remote <> Denied) as [Hf Ha].
    { unfold getFile, GET in Hg.
      destruct (access remote); destruct (files remote !! path) as [file|];
        cbn in Hg; try discriminate Hg; try (split; [reflexivity | discriminate]);
        destruct (text file); try discriminate Hg;
        destruct (JSON.parse _); discriminate Hg. }
    destruct (access remote) eqn:Hacc; [contradiction| |].
    + right. right. eexists. now apply loadOrCreate_refused.
    + right. left. split; [|exact Hf].
      rewrite loadOrCreate_created by assumption. unfold written. now rewrite Hacc.
  - right. right. exists message. now apply loadOrCreate_failed.
Qed.

Lemma written_keeps remote path payload p file :
  files remote !! path = None ->
  files remote !! p = Some file ->
  files (written blobSha remote path payload) !! p = Some file.
Proof.
  intros Hnone Hp. cbn [written files]. rewrite lookup_insert_ne; [exact Hp|].
  intros ->. congruence.
Qed.

(** [loadDataFromGithub] step by step. *)
Lemma loadDataFromGithub_steps settings app remote :
  token settings <> "" ->
  loadDataFromGithub blobSha settings (app, remote) =
    match loadOrCreate blobSha "schedule.json" DEFAULT_JADWAL_RONDA (app, remote) with
    | (Ok scheduleData, (a1, r1)) =>
        let a2 := setScheduleSha (snd scheduleData) (setSchedule (fst scheduleData) a1) in
        match loadOrCreate blobSha "data.json" (JSON.JArray []) (a2, r1) with
        | (Ok recordsData, (a3, r3)) =>
            (Ok tt,
             (setIsInitialized true
                (setRecordsSha (snd recordsData) (setRecords (fst recordsData) a3)), r3))
        | (Throw message, (a3, r3)) =>
            (Ok tt,
             (setIsInitialized true
                (forgetSettings (alert ("Gagal memuat data dari GitHub: " +:+ message) a3)),
              r3))
        end
    | (Throw message, (a1, r1)) =>
        (Ok tt,
         (setIsInitialized true
            (forgetSettings (alert ("Gagal memuat data dari GitHub: " +:+ message) a1)),
          r1))
    end.
Proof.
  intros Ht. unfold loadDataFromGithub.
  destruct (token settings) as [|c t]; [contradiction|].
  unfold tryFinally, tryCatch, bind at 1.
  destruct (loadOrCreate blobSha "schedule.json" DEFAULT_JADWAL_RONDA (app, remote))
    as [[scheduleData|message] [a1 r1]]; [|reflexivity].
  unfold bind at 1, modify at 1. cbn [fst snd].
  unfold bind at 1, modify at 1. cbn [fst snd].
  unfold bind at 1.
  destruct (loadOrCreate blobSha "data.json" (JSON.JArray []) _)
    as [[recordsData|message] [a3 r3]]; reflexivity.
Qed.

End LoadFacts.

(** The ways a load with a token ends.  It never throws; the store keeps its
    files; and either both steps went through, or one of them threw and
    the [catch] has run on the App as it was then. *)
Lemma loadDataFromGithub_cases blobSha settings app remote :
  Github.token settings <> "" ->
  exists app' remote',
    Github.loadDataFromGithub blobSha settings (app, remote) = (Github.Ok tt, (app', remote')) /\
    Github.access remote' = Github.access remote /\
    (forall path file,
        Github.files remote !! path = Some file ->
        Github.files remote' !! path = Some file) /\
    ((exists sched ssha content rsha,
         app' = Github.setIsInitialized true
                  (Github.setRecordsSha rsha (Github.setRecords content
                     (Github.setScheduleSha ssha (Github.setSchedule sched app)))) /\
         is_Some (Github.files remote' !! "schedule.json") /\
         is_Some (Github.files remote' !! "data.json")) \/
     (exists message app1,
         app' = Github.setIsInitialized true
                  (Github.forgetSettings
                     (Github.alert ("Gagal memuat data dari GitHub: " +:+ message) app1)) /\
         (app1 = app \/
          exists sched ssha,
            app1 = Github.setScheduleSha ssha (Github.setSchedule sched app)))).
Proof.
  intros Ht.
  rewrite (loadDataFromGithub_steps blobSha settings app remote Ht).
  destruct (loadOrCreate_cases blobSha "schedule.json" Github.DEFAULT_JADWAL_RONDA app remote)
    as [(found & -> & Hs) | [[-> Hs] | (message & ->)]]; cbv zeta.
  - destruct (loadOrCreate_cases blobSha "data.json" (JSON.JArray [])
                (Github.setScheduleSha (snd found) (Github.setSchedule (fst found) app)) remote)
      as [(data & -> & Hd) | [[-> Hd] | (message & ->)]].
    + eexists _, _. split; [reflexivity|]. split; [reflexivity|]. split; [auto|].
      left. eexists _, _, _, _. auto.
    + eexists _, _. split; [reflexivity|]. split; [reflexivity|].
      split; [intros path file; now apply written_keeps|].
      left. eexists _, _, _, _. split; [reflexivity|]. split.
      * destruct Hs as [file Hs]. exists file. cbn [GithubApp.written Github.files].
        rewrite lookup_insert_ne; [exact Hs | discriminate].
      * cbn [GithubApp.written Github.files]. rewrite lookup_insert_eq. eauto.
    + eexists _, _. split; [reflexivity|]. split; [reflexivity|]. split; [auto|].
      right. eexists _, _. split; [reflexivity|]. right. eauto.
  - destruct (loadOrCreate_cases blobSha "data.json" (JSON.JArray [])
                (Github.setScheduleSha (snd (Github.DEFAULT_JADWAL_RONDA, @None string))
                   (Github.setSchedule (fst (Github.DEFAULT_JADWAL_RONDA, @None string)) app))
                (GithubApp.written blobSha remote "schedule.json" Github.DEFAULT_JADWAL_RONDA))
      as [(data & -> & Hd) | [[-> Hd] | (message & ->)]].
    + eexists _, _. split; [reflexivity|]. split; [reflexivity|].
      split; [intros path file; now apply written_keeps|].
      left. eexists _, _, _, _. split; [reflexivity|]. split; [|exact Hd].
      cbn [GithubApp.written Github.files]. rewrite lookup_insert_eq. eauto.
    + eexists _, _. split; [reflexivity|]. split; [reflexivity|]. split.
      * intros path file Hf. apply written_keeps; [exact Hd|]. now apply written_keeps.
      * left. eexists _, _, _, _. split; [reflexivity|].
        cbn [GithubApp.written Github.files]. split.
        -- rewrite lookup_insert_ne by discriminate. rewrite lookup_insert_eq. eauto.
        -- rewrite lookup_insert_eq. eauto.
    + eexists _, _. split; [reflexivity|]. split; [reflexivity|].
      split; [intros path file; now apply written_keeps|].
      right. eexists _, _. split; [reflexivity|]. right. eauto.
  - eexists _, _. split; [reflexivity|]. split; [reflexivity|]. split; [auto|].
    right. eexists _, _. split; [reflexivity|]. now left.
Qed.








(** * Properties of the schedule editor *)

Section EditorFacts.
Import Reference.

Lemma filter_other_removeFirst n l :
  (count_occ string_dec l n <= 1)%nat ->
  List.filter (fun x => negb (String.eqb x n)) l = removeFirst n l.
Proof.
  induction l as [|x l IH]; intros Hc; [reflexivity|].
  cbn [List.filter removeFirst]. cbn [count_occ] in Hc.
  destruct (String.eqb_spec x n) as [->|Hne].
  - destruct (string_dec n n) as [_|C]; [|contradiction].
    cbn [negb].
    assert (count_occ string_dec l n = 0)%nat as H0 by lia.
    clear IH Hc. induction l as [|y l IH]; [reflexivity|].
    cbn [count_occ] in H0. destruct (string_dec y n) as [->|Hy]; [discriminate|].
    cbn [List.filter]. destruct (String.eqb_spec y n) as [->|_]; [contradiction|].
    cbn [negb]. f_equal. apply IH. exact H0.
  - destruct (string_dec x n) as [->|_]; [contradiction|].
    cbn [negb]. f_equal. apply IH. exact Hc.
Qed.

Lemma removeOfficer_done d n st l :
  ScheduleEditorModal.schedule st !! d = Some l ->
  ScheduleEditorModal.removeOfficer d n st =
    ScheduleEditorModal.Done
      {| ScheduleEditorModal.schedule :=
           <[d := List.filter (fun x => negb (String.eqb x n)) l]>
             (ScheduleEditorModal.schedule st);
         ScheduleEditorModal.newOfficerName := ScheduleEditorModal.newOfficerName st |}.
Proof. intros H. unfold ScheduleEditorModal.removeOfficer. now rewrite H. Qed.

(** Every outcome of [addOfficer] either keeps the schedule or replaces
    the list of [d] alone. *)
Lemma addOfficer_schedule d st :
  ScheduleEditorModal.schedule
    (ScheduleEditorModal.stateAfter st (ScheduleEditorModal.addOfficer d st))
    = ScheduleEditorModal.schedule st \/
  exists l,
    ScheduleEditorModal.schedule
      (ScheduleEditorModal.stateAfter st (ScheduleEditorModal.addOfficer d st))
      = <[d := l]> (ScheduleEditorModal.schedule st).
Proof.
  unfold ScheduleEditorModal.addOfficer.
  destruct (JS.trim <$> ScheduleEditorModal.newOfficerName st !! d) as [[|c r]|];
    [now left | | now left].
  destruct (ScheduleEditorModal.schedule st !! d) as [l|]; [|now left].
  destruct (existsb _ l); [now left|].
  right. eexists. reflexivity.
Qed.

Lemma removeOfficer_schedule d n st :
  ScheduleEditorModal.schedule
    (ScheduleEditorModal.stateAfter st (ScheduleEditorModal.removeOfficer d n st))
    = ScheduleEditorModal.schedule st \/
  exists l,
    ScheduleEditorModal.schedule
      (ScheduleEditorModal.stateAfter st (ScheduleEditorModal.removeOfficer d n st))
      = <[d := l]> (ScheduleEditorModal.schedule st).
Proof.
  unfold ScheduleEditorModal.removeOfficer.
  destruct (ScheduleEditorModal.schedule st !! d) as [l|]; [|now left].
  right. eexists. reflexivity.
Qed.

(** [addOfficer] lists no name twice: a list without repetition stays
    without repetition. *)
Lemma addOfficer_keeps_names_unique d st l :
  ScheduleEditorModal.schedule st !! d = Some l -> NoDup l ->
  exists l',
    ScheduleEditorModal.schedule
      (ScheduleEditorModal.stateAfter st (ScheduleEditorModal.addOfficer d st)) !! d
      = Some l' /\ NoDup l'.
Proof.
  intros Hl Hnd. unfold ScheduleEditorModal.addOfficer.
  destruct (JS.trim <$> ScheduleEditorModal.newOfficerName st !! d) as [[|c r]|];
    [exists l; now split | | exists l; now split].
  rewrite Hl. destruct (existsb _ l) eqn:Hex; [exists l; now split|].
  eexists. cbn [ScheduleEditorModal.stateAfter ScheduleEditorModal.schedule].
  rewrite lookup_insert_eq. split; [reflexivity|].
  apply NoDup_app. split; [exact Hnd|]. split; [|apply NoDup_singleton].
  intros x Hx Hin. apply list_elem_of_singleton in Hin. subst x.
  assert (existsb (String.eqb (String c r)) l = true) as Habs.
  { apply existsb_exists. exists (String c r). split.
    - now apply list_elem_of_In.
    - apply String.eqb_refl. }
  congruence.
Qed.

End EditorFacts.

(** C9, as the code has it.  For a weekday [d] that has an officer list,
    [removeOfficer d n] runs to its end and replaces that list by the list
    without any entry equal to [n]: every entry that differs from [n] stays,
    in the original order, and every entry equal to [n] goes.  When [n] is
    listed at most once, this is the removal of the first and only match. *)
Theorem C9_removeOfficer_removes_all_matches :
  forall (st : ScheduleEditorModal.State) (d : Z) (n : string) (l : list string),
    ScheduleEditorModal.schedule st !! d = Some l ->
    exists st',
      ScheduleEditorModal.removeOfficer d n st = ScheduleEditorModal.Done st' /\
      ScheduleEditorModal.schedule st' !! d
        = Some (List.filter (fun x => negb (String.eqb x n)) l) /\
      (forall x, In x (List.filter (fun x => negb (String.eqb x n)) l)
                 <-> In x l /\ x <> n) /\
      ((count_occ string_dec l n <= 1)%nat ->
       ScheduleEditorModal.schedule st' !! d = Some (Reference.removeFirst n l)).
Proof.
  intros st d n l Hl. eexists. split; [apply (removeOfficer_done d n st l Hl)|].
  cbn [ScheduleEditorModal.schedule]. rewrite lookup_insert_eq.
  split; [reflexivity|]. split.
  - intros x. rewrite filter_In. split; intros [Hin Hx]; split; auto.
    + intros ->. rewrite String.eqb_refl in Hx. discriminate.
    + destruct (String.eqb_spec x n); [contradiction|reflexivity].
  - intros Hc. now rewrite filter_other_removeFirst.
Qed.

Lemma C9_removeOfficer_removes_all_matches_witness :
  exists st',
    ScheduleEditorModal.removeOfficer 1 "Bp Yayan" EditorScenario.builtin
      = ScheduleEditorModal.Done st' /\
    ScheduleEditorModal.schedule st' !! 1
      = Some (List.filter (fun x => negb (String.eqb x "Bp Yayan"))
                ["Bp Aris H01"; "Bp Asep H03"; "Bp Iyeng H04"; "Bp Yayan"; "Bp Erik"]) /\
    (forall x,
        In x (List.filter (fun x => negb (String.eqb x "Bp Yayan"))
                ["Bp Aris H01"; "Bp Asep H03"; "Bp Iyeng H04"; "Bp Yayan"; "Bp Erik"])
        <-> In x ["Bp Aris H01"; "Bp Asep H03"; "Bp Iyeng H04"; "Bp Yayan"; "Bp Erik"]
            /\ x <> "Bp Yayan") /\
    ((count_occ string_dec
        ["Bp Aris H01"; "Bp Asep H03"; "Bp Iyeng H04"; "Bp Yayan"; "Bp Erik"]
        "Bp Yayan" <= 1)%nat ->
     ScheduleEditorModal.schedule st' !! 1
       = Some (Reference.removeFirst "Bp Yayan"
                 ["Bp Aris H01"; "Bp Asep H03"; "Bp Iyeng H04"; "Bp Yayan"; "Bp Erik"])).
Proof.
  apply (C9_removeOfficer_removes_all_matches EditorScenario.builtin 1 "Bp Yayan").
  vm_compute. reflexivity.
Defined.

(** C9 as written fails where a name is listed twice: on Monday's list
    A, B, A the handler leaves B alone, while the removal of the first
    match would leave B, A. *)
Lemma C9_removeOfficer_counterexample :
  ScheduleEditorModal.schedule EditorScenario.doubled !! 1 = Some ["A"; "B"; "A"] /\
  ScheduleEditorModal.schedule
    (ScheduleEditorModal.stateAfter EditorScenario.doubled
       (ScheduleEditorModal.removeOfficer 1 "A" EditorScenario.doubled)) !! 1
    = Some ["B"] /\
  Reference.removeFirst "A" ["A"; "B"; "A"] = ["B"; "A"] /\
  ScheduleEditorModal.schedule
    (ScheduleEditorModal.stateAfter EditorScenario.doubled
       (ScheduleEditorModal.removeOfficer 1 "A" EditorScenario.doubled)) !! 1
    <> Some (Reference.removeFirst "A" ["A"; "B"; "A"]).
Proof.
  assert (ScheduleEditorModal.schedule
    (ScheduleEditorModal.stateAfter EditorScenario.doubled
       (ScheduleEditorModal.removeOfficer 1 "A" EditorScenario.doubled)) !! 1
    = Some ["B"]) as H by (vm_compute; reflexivity).
  split; [vm_compute; reflexivity|].
  split; [exact H|].
  split; [reflexivity|].
  rewrite H. cbn. intros E. discriminate E.
Qed.

(** C10.  Neither handler touches another weekday: after [addOfficer] for
    weekday [d] (with [n] typed into that weekday's input, or with whatever
    the inputs hold) and after [removeOfficer d n], the officer list of every
    weekday [d'] other than [d] is the one before, whether the handler ran to
    its end or threw. *)
Theorem C10_edits_confined_to_weekday :
  forall (st : ScheduleEditorModal.State) (d d' : Z) (n : string),
    d' <> d ->
    let typed := ScheduleEditorModal.setNewOfficerName d n st in
    ScheduleEditorModal.schedule
      (ScheduleEditorModal.stateAfter typed (ScheduleEditorModal.addOfficer d typed)) !! d'
      = ScheduleEditorModal.schedule st !! d' /\
    ScheduleEditorModal.schedule
      (ScheduleEditorModal.stateAfter st (ScheduleEditorModal.addOfficer d st)) !! d'
      = ScheduleEditorModal.schedule st !! d' /\
    ScheduleEditorModal.schedule
      (ScheduleEditorModal.stateAfter st (ScheduleEditorModal.removeOfficer d n st)) !! d'
      = ScheduleEditorModal.schedule st !! d'.
Proof.
  intros st d d' n Hne typed.
  assert (forall s : ScheduleEditorModal.State,
             forall o,
               (ScheduleEditorModal.schedule (ScheduleEditorModal.stateAfter s o)
                  = ScheduleEditorModal.schedule s \/
                exists l, ScheduleEditorModal.schedule (ScheduleEditorModal.stateAfter s o)
                          = <[d := l]> (ScheduleEditorModal.schedule s)) ->
               ScheduleEditorModal.schedule (ScheduleEditorModal.stateAfter s o) !! d'
                 = ScheduleEditorModal.schedule s !! d') as Hframe.
  { intros s o [-> | [l ->]]; [reflexivity|].
    apply lookup_insert_ne. congruence. }
  split; [|split].
  - rewrite (Hframe typed) by apply addOfficer_schedule. reflexivity.
  - apply Hframe, addOfficer_schedule.
  - apply Hframe, removeOfficer_schedule.
Qed.

Lemma C10_edits_confined_to_weekday_witness :
  let typed := ScheduleEditorModal.setNewOfficerName 1 "Bp Budi" EditorScenario.builtin in
  ScheduleEditorModal.schedule
    (ScheduleEditorModal.stateAfter typed (ScheduleEditorModal.addOfficer 1 typed)) !! 2
    = ScheduleEditorModal.schedule EditorScenario.builtin !! 2 /\
  ScheduleEditorModal.schedule
    (ScheduleEditorModal.stateAfter EditorScenario.builtin
       (ScheduleEditorModal.addOfficer 1 EditorScenario.builtin)) !! 2
    = ScheduleEditorModal.schedule EditorScenario.builtin !! 2 /\
  ScheduleEditorModal.schedule
    (ScheduleEditorModal.stateAfter EditorScenario.builtin
       (ScheduleEditorModal.removeOfficer 1 "Bp Budi" EditorScenario.builtin)) !! 2
    = ScheduleEditorModal.schedule EditorScenario.builtin !! 2.
Proof.
  apply (C10_edits_confined_to_weekday EditorScenario.builtin 1 2 "Bp Budi").
  discriminate.
Defined.

(** * Properties of runs of the schedule editor *)

Section EditorRuns.
Import ScheduleEditorModal EditorSession.

Lemma uniqueNames_insert s d l :
  uniqueNames s -> NoDup l -> uniqueNames (<[d := l]> s).
Proof. intros Hs Hl. now apply map_Forall_insert_2. Qed.

Lemma addOfficer_uniqueNames d st :
  uniqueNames (schedule st) -> uniqueNames (schedule (stateAfter st (addOfficer d st))).
Proof.
  intros Hu. unfold addOfficer.
  destruct (JS.trim <$> newOfficerName st !! d) as [[|c r]|]; [exact Hu | | exact Hu].
  destruct (schedule st !! d) as [l|] eqn:Hl; [|exact Hu].
  destruct (existsb _ l) eqn:Hex; [exact Hu|].
  cbn [stateAfter schedule]. apply uniqueNames_insert; [exact Hu|].
  apply NoDup_app. split; [exact (Hu d l Hl)|]. split; [|apply NoDup_singleton].
  intros x Hx Hin. apply list_elem_of_singleton in Hin. subst x.
  assert (existsb (String.eqb (String c r)) l = true) as Habs; [|congruence].
  apply existsb_exists. exists (String c r). split.
  - now apply list_elem_of_In.
  - apply String.eqb_refl.
Qed.

Lemma removeOfficer_uniqueNames d n st :
  uniqueNames (schedule st) -> uniqueNames (schedule (stateAfter st (removeOfficer d n st))).
Proof.
  intros Hu. unfold removeOfficer.
  destruct (schedule st !! d) as [l|] eqn:Hl; [|exact Hu].
  cbn [stateAfter schedule]. apply uniqueNames_insert; [exact Hu|].
  apply NoDup_ListNoDup, List.NoDup_filter, NoDup_ListNoDup. exact (Hu d l Hl).
Qed.

Lemma handle_uniqueNames a st :
  uniqueNames (schedule st) -> uniqueNames (schedule (handle st a)).
Proof.
  destruct a as [d v | d | d n]; cbn [handle].
  - intros Hu. exact Hu.
  - apply addOfficer_uniqueNames.
  - apply removeOfficer_uniqueNames.
Qed.

End EditorRuns.

(** X1.  Whatever is typed, added and removed in the schedule editor, in
    any order and for any weekday, a schedule in which no weekday lists a
    name twice stays such a schedule. *)
Theorem X1_editor_keeps_names_unique :
  forall (actions : list EditorSession.Action) (st : ScheduleEditorModal.State),
    EditorSession.uniqueNames (ScheduleEditorModal.schedule st) ->
    EditorSession.uniqueNames
      (ScheduleEditorModal.schedule (EditorSession.run actions st)).
Proof.
  induction actions as [|a actions IH]; intros st Hu; [exact Hu|].
  cbn [EditorSession.run fold_left]. apply IH. now apply handle_uniqueNames.
Qed.

Lemma X1_editor_keeps_names_unique_witness :
  EditorSession.uniqueNames
    (ScheduleEditorModal.schedule
       (EditorSession.run EditorRunScenario.edits EditorScenario.builtin)).
Proof.
  apply (X1_editor_keeps_names_unique EditorRunScenario.edits EditorScenario.builtin).
  apply (bool_decide_unpack _). vm_compute. reflexivity.
Defined.

(** X2.  With a name typed into the input of a weekday that has a list, a
    name that is not blank and not yet on that list, Tambah puts the trimmed
    name at the end of the list and empties the input; removing that name
    again gives back the schedule as it was before.  The name is typed in
    ASCII characters (the other white space of Unicode, which [trim] removes
    as well, is not modelled). *)
Theorem X2_add_then_remove_restores :
  forall (st : ScheduleEditorModal.State) (d : Z) (v : string) (l : list string),
    ScheduleEditorModal.newOfficerName st !! d = Some v ->
    Text.asciiOnly v = true ->
    JS.trim v <> "" ->
    ScheduleEditorModal.schedule st !! d = Some l ->
    ~ In (JS.trim v) l ->
    let added := ScheduleEditorModal.stateAfter st (ScheduleEditorModal.addOfficer d st) in
    ScheduleEditorModal.schedule added !! d = Some (l ++ [JS.trim v]) /\
    ScheduleEditorModal.newOfficerName added !! d = Some "" /\
    ScheduleEditorModal.schedule
      (ScheduleEditorModal.stateAfter added
         (ScheduleEditorModal.removeOfficer d (JS.trim v) added))
      = ScheduleEditorModal.schedule st.
Proof.
  intros st d v l Hv _ Hname Hl Hnew added.
  assert (added =
            {| ScheduleEditorModal.schedule :=
                 <[d := l ++ [JS.trim v]]> (ScheduleEditorModal.schedule st);
               ScheduleEditorModal.newOfficerName :=
                 <[d := ""]> (ScheduleEditorModal.newOfficerName st) |}) as ->.
  { unfold added, ScheduleEditorModal.addOfficer. rewrite Hv. cbn [fmap option_fmap option_map].
    destruct (JS.trim v) as [|c r] eqn:Et; [contradiction|].
    rewrite Hl. destruct (existsb _ l) eqn:Hex; [|reflexivity].
    apply existsb_exists in Hex as (x & Hin & Hx).
    apply String.eqb_eq in Hx. subst x. contradiction. }
  cbn [ScheduleEditorModal.schedule ScheduleEditorModal.newOfficerName].
  rewrite !lookup_insert_eq. split; [reflexivity|]. split; [reflexivity|].
  unfold ScheduleEditorModal.removeOfficer. cbn [ScheduleEditorModal.schedule].
  rewrite lookup_insert_eq.
  cbn [ScheduleEditorModal.stateAfter ScheduleEditorModal.schedule].
  rewrite insert_insert_eq.
  assert (List.filter (fun n => negb (String.eqb n (JS.trim v))) (l ++ [JS.trim v]) = l) as ->.
  { rewrite List.filter_app. cbn [List.filter]. rewrite String.eqb_refl. cbn [negb].
    rewrite app_nil_r. clear Hl. induction l as [|x l IH]; [reflexivity|].
    cbn [List.filter]. destruct (String.eqb_spec x (JS.trim v)) as [->|_].
    - exfalso. apply Hnew. now left.
    - cbn [negb]. f_equal. apply IH. intros Hin. apply Hnew. now right. }
  now apply insert_id.
Qed.

Lemma X2_add_then_remove_restores_witness :
  let added :=
    ScheduleEditorModal.stateAfter EditorRunScenario.typed
      (ScheduleEditorModal.addOfficer 1 EditorRunScenario.typed) in
  ScheduleEditorModal.schedule added !! 1
    = Some (["Bp Aris H01"; "Bp Asep H03"; "Bp Iyeng H04"; "Bp Yayan"; "Bp Erik"]
              ++ [JS.trim "  Bp Budi "]) /\
  ScheduleEditorModal.newOfficerName added !! 1 = Some "" /\
  ScheduleEditorModal.schedule
    (ScheduleEditorModal.stateAfter added
       (ScheduleEditorModal.removeOfficer 1 (JS.trim "  Bp Budi ") added))
    = ScheduleEditorModal.schedule EditorRunScenario.typed.
Proof.
  apply (X2_add_then_remove_restores EditorRunScenario.typed 1 "  Bp Budi ").
  - vm_compute. reflexivity.
  - reflexivity.
  - vm_compute. discriminate.
  - vm_compute. reflexivity.
  - vm_compute. intros H. repeat (destruct H as [H|H]; [discriminate H|]). exact H.
Defined.

(** X3.  A second click on Tambah, with nothing typed in between, changes
    nothing: the first click has emptied the input, or it has changed
    nothing itself. *)
Theorem X3_second_add_changes_nothing :
  forall (st : ScheduleEditorModal.State) (d : Z),
    let added := ScheduleEditorModal.stateAfter st (ScheduleEditorModal.addOfficer d st) in
    ScheduleEditorModal.stateAfter added (ScheduleEditorModal.addOfficer d added) = added.
Proof.
  intros st d added. unfold added, ScheduleEditorModal.addOfficer.
  destruct (JS.trim <$> ScheduleEditorModal.newOfficerName st !! d) as [[|c r]|] eqn:Hn;
    cbn [ScheduleEditorModal.stateAfter]; rewrite ?Hn; try reflexivity.
  destruct (ScheduleEditorModal.schedule st !! d) as [l|] eqn:Hl;
    cbn [ScheduleEditorModal.stateAfter]; rewrite ?Hn, ?Hl; try reflexivity.
  destruct (existsb _ l) eqn:Hex;
    cbn [ScheduleEditorModal.stateAfter]; rewrite ?Hn, ?Hl, ?Hex; try reflexivity.
  cbn [ScheduleEditorModal.newOfficerName]. rewrite lookup_insert_eq. reflexivity.
Qed.

(** X4.  Removing a name a second time changes nothing more, and removing
    a name that is not on the list of the weekday leaves the schedule as it
    was. *)
Theorem X4_remove_twice_is_remove_once :
  forall (st : ScheduleEditorModal.State) (d : Z) (n : string),
    let removed :=
      ScheduleEditorModal.stateAfter st (ScheduleEditorModal.removeOfficer d n st) in
    ScheduleEditorModal.stateAfter removed (ScheduleEditorModal.removeOfficer d n removed)
      = removed /\
    (forall l, ScheduleEditorModal.schedule st !! d = Some l -> ~ In n l ->
               ScheduleEditorModal.schedule removed = ScheduleEditorModal.schedule st).
Proof.
  intros st d n removed. unfold removed, ScheduleEditorModal.removeOfficer.
  destruct (ScheduleEditorModal.schedule st !! d) as [l|] eqn:Hl;
    cbn [ScheduleEditorModal.stateAfter]; rewrite ?Hl.
  - cbn [ScheduleEditorModal.schedule ScheduleEditorModal.newOfficerName].
    rewrite lookup_insert_eq. cbn [ScheduleEditorModal.stateAfter]. split.
    + rewrite insert_insert_eq. f_equal. f_equal.
      clear Hl. induction l as [|x l' IH]; [reflexivity|].
      cbn [List.filter]. destruct (negb (String.eqb x n)) eqn:Hx; [|exact IH].
      cbn [List.filter]. rewrite Hx. f_equal. exact IH.
    + intros l0 E Hnot. injection E as <-.
      assert (List.filter (fun x => negb (String.eqb x n)) l = l) as ->.
      { clear Hl. induction l as [|x l' IH]; [reflexivity|].
        cbn [List.filter]. destruct (String.eqb_spec x n) as [->|_].
        - exfalso. apply Hnot. now left.
        - cbn [negb]. f_equal. apply IH. intros Hin. apply Hnot. now right. }
      now apply insert_id.
  - split; [reflexivity|]. intros l E. discriminate E.
Qed.

Lemma X4_remove_twice_is_remove_once_witness :
  let removed :=
    ScheduleEditorModal.stateAfter EditorScenario.builtin
      (ScheduleEditorModal.removeOfficer 1 "Bp Budi" EditorScenario.builtin) in
  ScheduleEditorModal.stateAfter removed
    (ScheduleEditorModal.removeOfficer 1 "Bp Budi" removed) = removed /\
  ScheduleEditorModal.schedule removed
    = ScheduleEditorModal.schedule EditorScenario.builtin.
Proof.
  destruct (X4_remove_twice_is_remove_once EditorScenario.builtin 1 "Bp Budi") as [H1 H2].
  split; [exact H1|].
  apply (H2 ["Bp Aris H01"; "Bp Asep H03"; "Bp Iyeng H04"; "Bp Yayan"; "Bp Erik"]).
  - vm_compute. reflexivity.
  - intros H. repeat (destruct H as [H|H]; [discriminate H|]). exact H.
Defined.

(** * Properties of runs of the form *)

Section FormRuns.
Import Types AttendanceForm FormSession.

Lemma run_statuses events : forall st n chosen,
  statuses st !! n = Some chosen ->
  statuses (fold_left handle events st) !! n
    = Some (fold_left
              (fun chosen e =>
                 match e with
                 | StatusChange name' status => if String.eqb name' n then status else chosen
                 | _ => chosen
                 end)
              events chosen).
Proof.
  induction events as [|e events IH]; intros st n chosen H; [exact H|].
  cbn [fold_left]. apply IH. destruct e as [n' s | v | v]; cbn [handle]; [|exact H|exact H].
  cbn [handleStatusChange statuses].
  destruct (String.eqb_spec n' n) as [->|Hne].
  - apply lookup_insert_eq.
  - rewrite lookup_insert_ne by exact Hne. exact H.
Qed.

Lemma run_notes events : forall st,
  notes (fold_left handle events st)
    = fold_left (fun typed e => match e with NotesChange value => value | _ => typed end)
        events (notes st).
Proof.
  induction events as [|e events IH]; intros st; [reflexivity|].
  cbn [fold_left]. rewrite IH. now destruct e.
Qed.

Lemma run_collection events : forall st,
  Reference.allDigits (collection st) ->
  Reference.allDigits (collection (fold_left handle events st)).
Proof.
  induction events as [|e events IH]; intros st H; [exact H|].
  cbn [fold_left]. apply IH. destruct e as [n s | v | v]; cbn [handle]; [exact H|exact H|].
  cbn [handleCollectionChange collection]. apply replaceNonDigits_allDigits.
Qed.

End FormRuns.

(** X5.  However the controls of the form were used since it was mounted,
    the officers that a submission on the weekday of the mount records are
    the officers on duty, each once and in roster order, each with the
    status last chosen for that officer, Hadir where none was chosen: the
    fallback to Alpa is never taken.  The notes are the text last typed and
    the collection text holds digits only.  The name [__proto__] is
    excepted: the assignment that fills the initial statuses sets no
    property of that name. *)
Theorem X5_form_records_last_choices :
  forall (props : AttendanceForm.Props) (today : AttendanceForm.Date)
         (events : list FormSession.Event),
    ~ In "__proto__" (AttendanceForm.officersOnDuty props today) ->
    let st := FormSession.run props today events in
    AttendanceForm.officerData props today st
      = map (fun n => {| Types.name := n;
                         Types.status := FormSession.lastChoice n events |})
            (AttendanceForm.officersOnDuty props today) /\
    AttendanceForm.notes st = FormSession.lastNotes events /\
    Reference.allDigits (AttendanceForm.collection st).
Proof.
  intros props today events _ st. split; [|split].
  - unfold AttendanceForm.officerData. apply map_ext_in. intros n Hn. f_equal.
    unfold st, FormSession.run.
    rewrite (run_statuses events _ n Types.Hadir); [reflexivity|].
    cbn [AttendanceForm.initialState AttendanceForm.statuses].
    now apply initialStatuses_Hadir.
  - unfold st, FormSession.run. now rewrite run_notes.
  - unfold st, FormSession.run. apply run_collection. exact I.
Qed.

Lemma X5_form_records_last_choices_witness :
  let st := FormSession.run FormRunScenario.props Scenario.monday FormRunScenario.events in
  AttendanceForm.officerData FormRunScenario.props Scenario.monday st
    = map (fun n => {| Types.name := n;
                       Types.status := FormSession.lastChoice n FormRunScenario.events |})
          (AttendanceForm.officersOnDuty FormRunScenario.props Scenario.monday) /\
  AttendanceForm.notes st = FormSession.lastNotes FormRunScenario.events /\
  Reference.allDigits (AttendanceForm.collection st).
Proof.
  apply (X5_form_records_last_choices FormRunScenario.props Scenario.monday
           FormRunScenario.events).
  vm_compute. intros H. repeat (destruct H as [H|H]; [discriminate H|]). exact H.
Defined.

(** X6.  A submission keeps the records of the store as they are and adds
    at most one record behind them, a record of today's date; a store that
    holds no two records of one date holds no two records of one date
    afterwards. *)
Theorem X6_submit_keeps_one_record_per_date :
  forall (schedule : Types.Schedule) (today : AttendanceForm.Date) (now : string)
         (app : LocalApp.State) (form : AttendanceForm.State),
    NoDup (map Types.date (LocalApp.records app)) ->
    let app' := fst (LocalApp.submit schedule today now app form) in
    NoDup (map Types.date (LocalApp.records app')) /\
    (LocalApp.records app' = LocalApp.records app \/
     exists r, LocalApp.records app' = LocalApp.records app ++ [r] /\
               Types.date r = AttendanceForm.todayDateString today).
Proof.
  intros schedule today now app form Hnd app'. unfold app'.
  destruct (AttendanceForm.isAlreadySubmitted (LocalApp.formProps schedule app) today) eqn:Hs.
  - rewrite submit_rejected by exact Hs. cbn [fst LocalApp.alert LocalApp.records].
    split; [exact Hnd | now left].
  - rewrite submit_accepted by exact Hs.
    cbn [fst LocalApp.alert LocalApp.addRecord LocalApp.records]. split.
    + rewrite map_app. cbn [map AttendanceForm.newRecord Types.date].
      apply NoDup_app. split; [exact Hnd|]. split; [|apply NoDup_singleton].
      intros d Hd Hin. apply list_elem_of_singleton in Hin. subst d.
      apply list_elem_of_In, in_map_iff in Hd as (r & Hr & Hin).
      apply (proj1 (isAlreadySubmitted_false _ _) Hs r Hin Hr).
    + right. eexists. split; reflexivity.
Qed.

Lemma X6_submit_keeps_one_record_per_date_witness :
  let app' :=
    fst (LocalApp.submit Scenario.roster Scenario.monday "2024-01-01T19:31:00.000Z"
           Scenario.store Scenario.marked) in
  NoDup (map Types.date (LocalApp.records app')) /\
  (LocalApp.records app' = LocalApp.records Scenario.store \/
   exists r, LocalApp.records app' = LocalApp.records Scenario.store ++ [r] /\
             Types.date r = AttendanceForm.todayDateString Scenario.monday).
Proof.
  apply (X6_submit_keeps_one_record_per_date Scenario.roster Scenario.monday
           "2024-01-01T19:31:00.000Z" Scenario.store Scenario.marked).
  apply (bool_decide_unpack _). vm_compute. reflexivity.
Defined.

(** * Round trip of the JSON built-ins, for both layouts and for objects
    with index keys *)

Section CanonicalFacts.
Import JSON Printer.

Lemma canonical_array es : canonical (JArray es) <-> Forall canonical es.
Proof.
  induction es as [|e es IH]; cbn [canonical].
  - split; [constructor | exact (fun _ => I)].
  - change ((canonical e /\ canonical (JArray es)) <-> Forall canonical (e :: es)).
    rewrite Forall_cons_iff, IH. reflexivity.
Qed.

Lemma canonical_members ms :
  (fix all (l : list (string * value)) : Prop :=
     match l with
     | [] => True
     | m :: l' => canonical (snd m) /\ all l'
     end) ms <-> Forall (fun m => canonical (snd m)) ms.
Proof.
  induction ms as [|m ms IH].
  - split; [constructor | exact (fun _ => I)].
  - rewrite Forall_cons_iff, <- IH. reflexivity.
Qed.

Lemma canonical_object ms :
  canonical (JObject ms) <->
  inOrder [] (map fst ms) /\ Forall (fun m => canonical (snd m)) ms.
Proof. cbn [canonical]. now rewrite canonical_members. Qed.

Lemma plainKeys_inOrder ks : forall seen,
  plainKeys (seen ++ ks) = true -> inOrder seen ks.
Proof.
  induction ks as [|k ks IH]; intros seen H; [exact I|].
  cbn [inOrder]. split.
  - intros v acc Hacc. destruct (plainKeys_app _ _ _ H) as [Hfresh Hidx].
    apply setProperty_fresh; [|exact Hidx]. now rewrite Hacc.
  - apply IH. now rewrite <- app_assoc.
Qed.

(** Every plain value is canonical. *)
Lemma plain_canonical v : plain v = true -> canonical v.
Proof.
  induction v as [ | b | n | literal | s | elements IH | members IH] using value_induction;
    intros Hp; try exact I.
  - discriminate Hp.
  - apply canonical_array. cbn [plain] in Hp.
    induction IH as [|e es He Hes IHes]; constructor.
    + apply He. cbn [forallb] in Hp. now apply andb_true_iff in Hp as [Hp _].
    + apply IHes. cbn [forallb] in Hp. now apply andb_true_iff in Hp as [_ Hp].
  - apply canonical_object. cbn [plain] in Hp. apply andb_true_iff in Hp as [Hk Hp].
    split; [now apply plainKeys_inOrder|].
    clear Hk. induction IH as [|m ms Hm Hms IHms]; constructor.
    + apply Hm. cbn [forallb] in Hp. now apply andb_true_iff in Hp as [Hp _].
    + apply IHms. cbn [forallb] in Hp. now apply andb_true_iff in Hp as [_ Hp].
Qed.

End CanonicalFacts.

Section PrinterFacts.
Import JSON Reference Printer.
Variable layout : Layout.
Hypothesis blank_break : forall indent, blank (break layout indent) = true.
Hypothesis blank_colon : blank (colon layout) = true.

Lemma skipWs_blank s k : blank s = true -> skipWs (s +:+ k) = skipWs k.
Proof.
  induction s as [|c s IH]; intros H; [reflexivity|].
  cbn [blank] in H. apply andb_true_iff in H as [Hc Hs].
  rewrite append_cons. cbn [skipWs]. rewrite Hc. now apply IH.
Qed.

Lemma numberEnd_whiteSpace c r : isWhiteSpace c = true -> numberEnd (String c r).
Proof.
  destruct c as [[] [] [] [] [] [] [] []]; intros H;
    first [discriminate H | cbn; repeat split].
Qed.

Lemma numberEnd_blank s c k :
  blank s = true -> numberEnd (String c k) -> numberEnd (s +:+ String c k).
Proof.
  destruct s as [|a s]; intros H Hk; [exact Hk|].
  cbn [blank] in H. apply andb_true_iff in H as [Ha _].
  rewrite append_cons. now apply numberEnd_whiteSpace.
Qed.

Lemma numberEnd_more {A} (item : A -> string) before l c k :
  blank before = true -> numberEnd (String c k) ->
  forall closing, blank closing = true ->
  numberEnd (more item before l +:+ closing +:+ String c k).
Proof.
  intros Hb Hk closing Hc. destruct l as [|x l]; cbn [more].
  - rewrite append_nil_l. now apply numberEnd_blank.
  - rewrite append_cons. cbn. repeat split.
Qed.

Lemma print_start v indent :
  canonical v -> exists c r, print layout indent v = String c r /\ valueStart c = true.
Proof.
  intros Hc. destruct v as [ | [] | n | literal | s | [|e es] | [|m ms]];
    try (eexists _, _; split; reflexivity); [|contradiction].
  cbn [print]. destruct (printZ_head n) as (c & r & E & [Hd | ->]).
  - exists c, r. split; [exact E | now apply isDigit_valueStart].
  - eexists _, _. split; [exact E | reflexivity].
Qed.

Lemma parseElements_items indent n k : forall es,
  Forall (readsBack layout) es -> Forall canonical es ->
  forall e, readsBack layout e -> canonical e ->
  forall fuel acc,
    (list_sum (map (fun e => S (cost e)) (e :: es)) <= fuel)%nat ->
    parseElements fuel
      (items (print layout indent) (break layout indent) (e :: es)
         +:+ break layout n +:+ String "]" k) acc
      = Some (JArray (acc ++ e :: es), k).
Proof.
  induction es as [|e2 es IH]; intros Hes Hces e He Hce fuel acc Hfuel;
    (destruct fuel as [|fuel]; [cbn in Hfuel; lia|]);
    rewrite parseElements_S; cbn [items]; rewrite !append_assoc;
    rewrite (parseValue_skip fuel _ _ (skipWs_blank _ _ (blank_break indent)));
    (rewrite He;
     [| exact Hce
      | apply numberEnd_more; [apply blank_break | cbn; repeat split | apply blank_break]
      | cbn in Hfuel; lia]).
  - cbn [more]. rewrite append_nil_l, skipWs_blank by apply blank_break. cbn [skipWs].
    change (isWhiteSpace "]") with false. cbn iota. reflexivity.
  - apply Forall_cons_iff in Hes as [He2 Hes]. apply Forall_cons_iff in Hces as [Hce2 Hces].
    cbn [more]. rewrite append_cons. cbn [skipWs].
    change (isWhiteSpace ",") with false. cbn iota.
    change (Ascii.eqb "," ",") with true. cbn iota.
    specialize (IH Hes Hces e2 He2 Hce2 fuel (acc ++ [e])).
    cbn [items] in IH. rewrite IH.
    + now rewrite <- app_assoc.
    + cbn in Hfuel |- *. lia.
Qed.

Lemma parseMembers_items indent n k : forall ms,
  Forall (fun m => readsBack layout (snd m)) ms ->
  Forall (fun m => canonical (snd m)) ms ->
  forall m, readsBack layout (snd m) -> canonical (snd m) ->
  forall fuel acc,
    inOrder (map fst acc) (map fst (m :: ms)) ->
    (list_sum (map (fun m => S (cost (snd m))) (m :: ms)) <= fuel)%nat ->
    let member := fun m : string * value =>
      quoteJSONString (fst m) +:+ ":" +:+ colon layout +:+ print layout indent (snd m) in
    parseMembers fuel
      (items member (break layout indent) (m :: ms) +:+ break layout n +:+ String "}" k) acc
      = Some (JObject (acc ++ m :: ms), k).
Proof.
  induction ms as [|m2 ms IH]; intros Hms Hcms [key v] Hv Hcv fuel acc Hkeys Hfuel member;
    cbn [fst snd] in *;
    (destruct fuel as [|fuel]; [cbn in Hfuel; lia|]);
    rewrite parseMembers_S; cbn [items]; unfold member at 1; cbn [fst snd];
    rewrite !append_assoc, skipWs_blank by apply blank_break;
    rewrite quoteJSONString_append;
    cbn [skipWs]; change (isWhiteSpace quote) with false; cbn iota;
    rewrite Ascii.eqb_refl, parseChars_quoteChars, !append_cons, append_nil_l;
    cbn [skipWs]; change (isWhiteSpace ":") with false; cbn iota;
    change (Ascii.eqb ":" ":") with true; cbn iota;
    rewrite (parseValue_skip fuel _ _ (skipWs_blank _ _ blank_colon));
    (rewrite Hv;
     [| exact Hcv
      | apply numberEnd_more; [apply blank_break | cbn; repeat split | apply blank_break]
      | cbn in Hfuel; lia]);
    cbn [map fst inOrder] in Hkeys; destruct Hkeys as [Hset Hkeys];
    rewrite (Hset v acc eq_refl).
  - cbn [more]. rewrite append_nil_l, skipWs_blank by apply blank_break. cbn [skipWs].
    change (isWhiteSpace "}") with false. cbn iota. reflexivity.
  - apply Forall_cons_iff in Hms as [Hm2 Hms]. apply Forall_cons_iff in Hcms as [Hcm2 Hcms].
    cbn [more]. rewrite append_cons. cbn [skipWs].
    change (isWhiteSpace ",") with false. cbn iota.
    change (Ascii.eqb "," ",") with true. cbn iota.
    replace (acc ++ (key, v) :: m2 :: ms) with ((acc ++ [(key, v)]) ++ m2 :: ms)
      by now rewrite <- app_assoc.
    apply (IH Hms Hcms m2 Hm2 Hcm2 fuel (acc ++ [(key, v)])).
    + rewrite map_app. exact Hkeys.
    + cbn in Hfuel |- *. lia.
Qed.

(** Every canonical value is read back from its text. *)
Lemma print_canonical_readsBack v : readsBack layout v.
Proof.
  induction v as [ | b | n | literal | s | elements IH | members IH] using value_induction;
    intros Hc indent k fuel Hk Hfuel;
    (destruct fuel as [|fuel]; [cbn in Hfuel; lia|]).
  - reflexivity.
  - destruct b; reflexivity.
  - cbn [print]. destruct (printZ_head n) as (c & r & E & Hd).
    assert (printZ n +:+ k = String c (r +:+ k)) as E' by now rewrite E.
    rewrite E', parseValue_number by exact Hd. rewrite <- E'.
    now apply parseNumber_printZ.
  - contradiction.
  - cbn [print]. rewrite quoteJSONString_append, parseValue_S. cbn [skipWs].
    change (isWhiteSpace quote) with false. cbn iota.
    change (Ascii.eqb quote "[") with false. change (Ascii.eqb quote "{") with false.
    rewrite Ascii.eqb_refl. cbn iota. now rewrite parseChars_quoteChars.
  - destruct elements as [|e es]; [reflexivity|].
    apply canonical_array, Forall_cons_iff in Hc as [Hce Hces].
    apply Forall_cons_iff in IH as [He Hes].
    cbn [print]. rewrite append_cons, !append_assoc.
    change ("]" +:+ k) with (String "]" k).
    rewrite parseValue_array.
    + apply (parseElements_items (indent + step layout) indent k es Hes Hces e He Hce fuel []).
      cbn in Hfuel |- *. lia.
    + destruct (print_start e (indent + step layout) Hce) as (c & r & E & Hstart).
      destruct (valueStart_spec c Hstart) as (Hw & H1 & _).
      exists c. eexists. split; [|exact H1].
      cbn [items]. rewrite !append_assoc, skipWs_blank by apply blank_break.
      rewrite E, append_cons. cbn [skipWs]. rewrite Hw. reflexivity.
  - destruct members as [|m ms]; [reflexivity|].
    apply canonical_object in Hc as [Hkeys Hc]. apply Forall_cons_iff in Hc as [Hcm Hcms].
    apply Forall_cons_iff in IH as [Hm Hms].
    cbn [print]. rewrite append_cons, !append_assoc.
    change ("}" +:+ k) with (String "}" k).
    rewrite parseValue_object.
    + apply (parseMembers_items (indent + step layout) indent k ms Hms Hcms m Hm Hcm fuel []).
      * exact Hkeys.
      * cbn in Hfuel |- *. lia.
    + exists quote. eexists. split; [|reflexivity].
      cbn [items]. rewrite !append_assoc, skipWs_blank by apply blank_break.
      unfold quoteJSONString. rewrite append_cons. reflexivity.
Qed.

End PrinterFacts.

Section Layouts.
Import JSON Printer.

Lemma blank_spaces n : blank (spaces n) = true.
Proof. induction n as [|n IH]; [reflexivity | exact IH]. Qed.

Lemma blank_indented indent : blank (break indented indent) = true.
Proof. cbn [break indented blank]. change (isWhiteSpace newline) with true. apply blank_spaces. Qed.

(** The indenting printer is the printer of [JSON.stringify(v, null, 2)]. *)
Lemma print_indented v : forall indent, JSON.print indent v = Printer.print indented indent v.
Proof.
  induction v as [ | b | n | literal | s | elements IH | members IH] using value_induction;
    intros indent; try reflexivity.
  - destruct elements as [|e es]; [reflexivity|].
    cbn [JSON.print Printer.print]. f_equal.
    cbn [break colon step indented].
    assert (forall l, Forall (fun v => forall i, JSON.print i v = print indented i v) l ->
              moreLines (JSON.print (indent + gap)) (indent + gap) l
                = more (print indented (indent + gap)) (String newline (spaces (indent + gap))) l)
      as Hmore.
    { intros l Hl. induction Hl as [|x l Hx Hl IHl]; [reflexivity|].
      cbn [moreLines more]. unfold line. rewrite !append_cons, !append_assoc, Hx, IHl.
      reflexivity. }
    apply Forall_cons_iff in IH as [He Hes].
    cbn [lines items]. unfold line. rewrite !append_cons, !append_assoc, He, (Hmore es Hes).
    rewrite ?append_cons, ?append_assoc. reflexivity.
  - destruct members as [|m ms]; [reflexivity|].
    cbn [JSON.print Printer.print]. f_equal.
    cbn [break colon step indented].
    set (member := fun m : string * value =>
           quoteJSONString (fst m) +:+ ": " +:+ JSON.print (indent + gap) (snd m)).
    set (member' := fun m : string * value =>
           quoteJSONString (fst m) +:+ ":" +:+ " " +:+ print indented (indent + gap) (snd m)).
    assert (forall x, (forall i, JSON.print i (snd x) = print indented i (snd x)) ->
                      member x = member' x) as Hmember.
    { intros x Hx. unfold member, member'. now rewrite Hx. }
    assert (forall l, Forall (fun m => forall i, JSON.print i (snd m) = print indented i (snd m)) l ->
              moreLines member (indent + gap) l
                = more member' (String newline (spaces (indent + gap))) l) as Hmore.
    { intros l Hl. induction Hl as [|x l Hx Hl IHl]; [reflexivity|].
      cbn [moreLines more]. unfold line.
      rewrite !append_cons, !append_assoc, (Hmember x Hx), IHl. reflexivity. }
    apply Forall_cons_iff in IH as [Hm Hms].
    cbn [lines items]. unfold line.
    rewrite !append_cons, !append_assoc, (Hmember m Hm), (Hmore ms Hms).
    rewrite ?append_cons, ?append_assoc. reflexivity.
Qed.

(** The printer without white space is the printer of [JSON.stringify(v)]. *)
Lemma print_compact v : Compact.print v = Printer.print compact 0 v.
Proof.
  induction v as [ | b | n | literal | s | elements IH | members IH] using value_induction;
    try reflexivity.
  - destruct elements as [|e es]; [reflexivity|].
    cbn [Compact.print Printer.print]. f_equal.
    cbn [break colon step compact Nat.add].
    assert (forall l, Forall (fun v => Compact.print v = print compact 0 v) l ->
              Compact.more Compact.print l = more (print compact 0) "" l) as Hmore.
    { intros l Hl. induction Hl as [|x l Hx Hl IHl]; [reflexivity|].
      cbn [Compact.more more]. rewrite append_nil_l, Hx, IHl. reflexivity. }
    apply Forall_cons_iff in IH as [He Hes].
    cbn [Compact.joined items]. rewrite !append_nil_l, He, (Hmore es Hes). reflexivity.
  - destruct members as [|m ms]; [reflexivity|].
    cbn [Compact.print Printer.print]. f_equal.
    cbn [break colon step compact Nat.add].
    set (member := fun m : string * value =>
           quoteJSONString (fst m) +:+ ":" +:+ Compact.print (snd m)).
    set (member' := fun m : string * value =>
           quoteJSONString (fst m) +:+ ":" +:+ "" +:+ print compact 0 (snd m)).
    assert (forall x, Compact.print (snd x) = print compact 0 (snd x) ->
                      member x = member' x) as Hmember.
    { intros x Hx. unfold member, member'. now rewrite append_nil_l, Hx. }
    assert (forall l, Forall (fun m => Compact.print (snd m) = print compact 0 (snd m)) l ->
              Compact.more member l = more member' "" l) as Hmore.
    { intros l Hl. induction Hl as [|x l Hx Hl IHl]; [reflexivity|].
      cbn [Compact.more more]. rewrite append_nil_l, (Hmember x Hx), IHl. reflexivity. }
    apply Forall_cons_iff in IH as [Hm Hms].
    cbn [Compact.joined items].
    rewrite !append_nil_l, (Hmember m Hm), (Hmore ms Hms). reflexivity.
Qed.

(** [JSON.parse(JSON.stringify(v, null, 2))] is [v] for every canonical
    value. *)
Lemma parse_stringify_canonical v : canonical v -> JSON.parse (JSON.stringify v) = Some v.
Proof.
  intros Hc. unfold JSON.stringify. rewrite print_indented.
  apply (parse_any_fuel (cost v) _ v ""); [|reflexivity].
  rewrite <- (append_nil_r (print indented 0 v)).
  now apply (print_canonical_readsBack indented blank_indented eq_refl v Hc 0%nat "" (cost v) I).
Qed.

(** [JSON.parse(JSON.stringify(v))] is [v] for every canonical value. *)
Lemma parse_compact v : canonical v -> JSON.parse (Compact.stringify v) = Some v.
Proof.
  intros Hc. unfold Compact.stringify. rewrite print_compact.
  apply (parse_any_fuel (cost v) _ v ""); [|reflexivity].
  rewrite <- (append_nil_r (print compact 0 v)).
  now apply (print_canonical_readsBack compact (fun _ => eq_refl) eq_refl v Hc 0%nat ""
               (cost v) I).
Qed.

End Layouts.

(** * Properties of what is kept in the storage of the browser *)

Section StorageFacts.
Import JSON Printer.

Lemma canonical_records rs : canonical (JArray (map Runtime.toJS rs)).
Proof. apply plain_canonical, plain_store. Qed.

Lemma canonical_settings settings : canonical (SettingsPersistence.settingsToJS settings).
Proof. apply plain_canonical. reflexivity. Qed.

Lemma canonical_names names : canonical (JArray (map JString names)).
Proof. apply canonical_array. induction names; constructor; [exact I | assumption]. Qed.

(** A schedule with its seven weekdays is an object whose keys are the
    array indices 0 to 6, in ascending order. *)
Lemma canonical_schedule s : canonical (Runtime.scheduleToJS s).
Proof.
  apply canonical_object. split.
  - assert (map fst
              (map (fun d => (printZ d, JArray (map JString (default [] (s !! d)))))
                 [0; 1; 2; 3; 4; 5; 6])
            = ["0"; "1"; "2"; "3"; "4"; "5"; "6"]) as -> by reflexivity.
    cbn [inOrder List.app]. repeat split; intros v acc Hacc;
      repeat (destruct acc as [|[? ?] acc]; try discriminate Hacc;
              cbn [map fst] in Hacc);
      inversion Hacc; subst; reflexivity.
  - unfold Runtime.scheduleToJS. cbn [map]. repeat constructor; apply canonical_names.
Qed.

(** The text of a canonical value is not empty. *)
Lemma compact_not_empty v : canonical v -> Compact.stringify v <> "".
Proof.
  intros Hc E. pose proof (parse_compact v Hc) as H. rewrite E in H. discriminate H.
Qed.

Lemma stringify_not_empty v : canonical v -> JSON.stringify v <> "".
Proof.
  intros Hc E. pose proof (parse_stringify_canonical v Hc) as H. rewrite E in H.
  discriminate H.
Qed.

Lemma initialRecords_parsed storage saved parsed :
  LocalStorage.getItem "attendanceRecords" storage = Some saved ->
  saved <> "" -> JSON.parse saved = Some parsed ->
  LocalPersistence.initialRecords storage = parsed.
Proof.
  intros Hg Hne Hp. unfold LocalPersistence.initialRecords. rewrite Hg.
  destruct saved as [|c t]; [contradiction|]. now rewrite Hp.
Qed.

Lemma readSettings_parsed storage saved parsed :
  LocalStorage.getItem "githubSettings" storage = Some saved ->
  saved <> "" -> JSON.parse saved = Some parsed ->
  SettingsPersistence.readSettings storage = SettingsPersistence.SetGithubSettings parsed.
Proof.
  intros Hg Hne Hp. unfold SettingsPersistence.readSettings. rewrite Hg.
  destruct saved as [|c t]; [contradiction|]. now rewrite Hp.
Qed.

End StorageFacts.

(** X17.  The records of the local App survive a reload of the page, where
    every amount is an integer that a Number holds exactly: when the storage
    accepts the write of the effect, the initialiser of the next page load
    returns the records that were written, and no other item of the storage
    has changed.  When the storage refuses the write, the storage is as
    before, so the next page load starts from what was stored earlier. *)
Theorem X17_local_records_survive_reload :
  forall (app : LocalApp.State) (storage : LocalStorage.Storage),
    Forall Reference.wellFormed (LocalApp.records app) ->
    let records := JSON.JArray (map Runtime.toJS (LocalApp.records app)) in
    (LocalStorage.accepts storage "attendanceRecords" (Compact.stringify records) = true ->
     LocalPersistence.initialRecords (LocalPersistence.persist app storage) = records /\
     (forall key, key <> "attendanceRecords" ->
        LocalStorage.getItem key (LocalPersistence.persist app storage)
          = LocalStorage.getItem key storage)) /\
    (LocalStorage.accepts storage "attendanceRecords" (Compact.stringify records) = false ->
     LocalPersistence.persist app storage = storage).
Proof.
  intros app storage _ records.
  unfold LocalPersistence.persist, LocalPersistence.saveRecords, LocalStorage.setItem.
  change (JSON.JArray (map Runtime.toJS (LocalApp.records app))) with records.
  split; intros Hacc; rewrite Hacc; [|reflexivity]. split.
  - apply (initialRecords_parsed _ (Compact.stringify records)).
    + apply lookup_insert_eq.
    + apply compact_not_empty, canonical_records.
    + apply parse_compact, canonical_records.
  - intros key Hkey. unfold LocalStorage.getItem. cbn [LocalStorage.items].
    apply lookup_insert_ne. congruence.
Qed.

Lemma X17_local_records_survive_reload_witness :
  let records := JSON.JArray (map Runtime.toJS (LocalApp.records Scenario.store)) in
  (LocalPersistence.initialRecords (LocalPersistence.persist Scenario.store StorageScenario.roomy)
     = records /\
   (forall key, key <> "attendanceRecords" ->
      LocalStorage.getItem key (LocalPersistence.persist Scenario.store StorageScenario.roomy)
        = LocalStorage.getItem key StorageScenario.roomy)) /\
  LocalPersistence.persist Scenario.store StorageScenario.full = StorageScenario.full.
Proof.
  split.
  - apply (X17_local_records_survive_reload Scenario.store StorageScenario.roomy).
    + repeat constructor; cbn; lia.
    + vm_compute. reflexivity.
  - apply (X17_local_records_survive_reload Scenario.store StorageScenario.full).
    + repeat constructor; cbn; lia.
    + reflexivity.
Defined.

(** X18.  The settings that [handleSaveSettings] has stored are the
    settings that the first effect of the next page load takes into the
    state; after they were removed, that effect opens the settings modal
    instead. *)
Theorem X18_stored_settings_are_read_back :
  forall (settings : Github.GithubSettings) (storage storage' : LocalStorage.Storage),
    SettingsPersistence.storeSettings settings storage = Some storage' ->
    SettingsPersistence.readSettings storage'
      = SettingsPersistence.SetGithubSettings (SettingsPersistence.settingsToJS settings) /\
    SettingsPersistence.readSettings (SettingsPersistence.removeSettings storage')
      = SettingsPersistence.SetShowSettings.
Proof.
  intros settings storage storage' H.
  unfold SettingsPersistence.storeSettings, LocalStorage.setItem in H.
  destruct (LocalStorage.accepts storage _ _); [|discriminate H]. injection H as <-.
  split.
  - apply (readSettings_parsed _ (Compact.stringify (SettingsPersistence.settingsToJS settings))).
    + apply lookup_insert_eq.
    + apply compact_not_empty, canonical_settings.
    + apply parse_compact, canonical_settings.
  - unfold SettingsPersistence.readSettings, SettingsPersistence.removeSettings,
      LocalStorage.getItem. cbn [LocalStorage.items]. now rewrite lookup_delete_eq.
Qed.

Lemma X18_stored_settings_are_read_back_witness :
  exists storage',
    SettingsPersistence.storeSettings SyncScenario.settings StorageScenario.roomy
      = Some storage' /\
    SettingsPersistence.readSettings storage'
      = SettingsPersistence.SetGithubSettings
          (SettingsPersistence.settingsToJS SyncScenario.settings) /\
    SettingsPersistence.readSettings (SettingsPersistence.removeSettings storage')
      = SettingsPersistence.SetShowSettings.
Proof.
  eexists. split; [vm_compute; reflexivity|].
  apply (X18_stored_settings_are_read_back SyncScenario.settings StorageScenario.roomy).
  vm_compute. reflexivity.
Defined.

(** X19.  The schedule editor starts from a copy that equals the schedule
    it is opened on: the copy made by turning the schedule into text and
    back is the schedule itself, for every schedule of seven weekdays, with
    any names on its lists. *)
Theorem X19_editor_starts_from_equal_copy :
  forall (schedule : Types.Schedule),
    EditorCopy.copy (Runtime.scheduleToJS schedule) = Some (Runtime.scheduleToJS schedule).
Proof.
  intros schedule. unfold EditorCopy.copy. apply parse_compact, canonical_schedule.
Qed.

(** * The text of an ASCII content is ASCII text *)

Section TransportFacts.
Import JSON.

Lemma asciiOnly_append a b :
  Text.asciiOnly a = true -> Text.asciiOnly b = true -> Text.asciiOnly (a +:+ b) = true.
Proof.
  intros Ha Hb. induction a as [|c a IH]; [exact Hb|].
  rewrite append_cons. cbn [Text.asciiOnly] in *.
  apply andb_true_iff in Ha as [Hc Ha]. now rewrite Hc, IH.
Qed.

Lemma asciiOnly_spaces n : Text.asciiOnly (spaces n) = true.
Proof. induction n as [|n IH]; [reflexivity | exact IH]. Qed.

Lemma asciiOnly_quoteChar c :
  (N_of_ascii c <? 128)%N = true -> Text.asciiOnly (quoteChar c) = true.
Proof.
  destruct c as [[] [] [] [] [] [] [] []]; intros H; try discriminate H; reflexivity.
Qed.

Lemma asciiOnly_quoteJSONString s :
  Text.asciiOnly s = true -> Text.asciiOnly (quoteJSONString s) = true.
Proof.
  intros Hs. unfold quoteJSONString. change (Text.asciiOnly (String quote ?r)) with
    (Text.asciiOnly r).
  apply asciiOnly_append; [|reflexivity].
  induction s as [|c s IH]; [reflexivity|].
  cbn [Text.asciiOnly quoteChars] in *. apply andb_true_iff in Hs as [Hc Hs].
  apply asciiOnly_append; [now apply asciiOnly_quoteChar | now apply IH].
Qed.

Lemma asciiOnly_digitsOf fuel : forall n acc,
  0 <= n -> Text.asciiOnly acc = true -> Text.asciiOnly (digitsOf fuel n acc) = true.
Proof.
  induction fuel as [|fuel IH]; intros n acc Hn Hacc; [exact Hacc|].
  cbn [digitsOf].
  assert (Text.asciiOnly (String (ascii_of_N (48 + Z.to_N (n mod 10))) acc) = true) as Hd.
  { cbn [Text.asciiOnly]. rewrite Hacc, andb_true_r.
    assert (0 <= n mod 10 < 10) as Hm by (apply Z.mod_pos_bound; lia).
    assert (exists k, n mod 10 = Z.of_nat k /\ (k < 10)%nat) as (k & -> & Hk)
      by (exists (Z.to_nat (n mod 10)); lia).
    do 10 (destruct k as [|k]; [reflexivity|]). lia. }
  destruct (n <? 10); [exact Hd|].
  apply IH; [apply Z.div_pos; lia | exact Hd].
Qed.

Lemma asciiOnly_printZ n : Text.asciiOnly (printZ n) = true.
Proof.
  unfold printZ, printNat. destruct (n <? 0) eqn:Hneg.
  - cbn [Text.asciiOnly]. apply asciiOnly_digitsOf; [|reflexivity].
    apply Z.ltb_lt in Hneg. lia.
  - apply asciiOnly_digitsOf; [|reflexivity]. apply Z.ltb_ge in Hneg. lia.
Qed.

Lemma asciiOnly_lines {A} (item : A -> string) indent l :
  Forall (fun x => Text.asciiOnly (item x) = true) l ->
  Text.asciiOnly (lines item indent l) = true.
Proof.
  intros Hl.
  assert (forall x, Text.asciiOnly (item x) = true ->
                    Text.asciiOnly (line item indent x) = true) as Hline.
  { intros x Hx. unfold line. cbn [Text.asciiOnly].
    apply asciiOnly_append; [apply asciiOnly_spaces | exact Hx]. }
  destruct Hl as [|x l Hx Hl]; [reflexivity|].
  cbn [lines]. apply asciiOnly_append; [now apply Hline|].
  induction Hl as [|y l Hy Hl IH]; [reflexivity|].
  cbn [moreLines Text.asciiOnly]. apply asciiOnly_append; [now apply Hline | exact IH].
Qed.

(** What [updateFile] hands to [btoa] for an ASCII content is ASCII
    text. *)
Lemma ascii_print v : forall indent,
  Transport.ascii v = true -> Text.asciiOnly (print indent v) = true.
Proof.
  induction v as [ | b | n | literal | s | elements IH | members IH] using value_induction;
    intros indent Hv.
  - reflexivity.
  - now destruct b.
  - apply asciiOnly_printZ.
  - exact Hv.
  - now apply asciiOnly_quoteJSONString.
  - destruct elements as [|e es]; [reflexivity|].
    cbn [print Text.asciiOnly]. apply asciiOnly_append.
    + apply asciiOnly_lines. cbn [Transport.ascii] in Hv.
      revert Hv. generalize (e :: es) IH. clear. intros l IH Hv.
      induction IH as [|x l Hx _ IHl]; [constructor|].
      cbn [forallb] in Hv. apply andb_true_iff in Hv as [Hxv Hlv].
      constructor; [now apply Hx | now apply IHl].
    + cbn [Text.asciiOnly]. apply asciiOnly_append; [apply asciiOnly_spaces | reflexivity].
  - destruct members as [|m ms]; [reflexivity|].
    cbn [print Text.asciiOnly]. apply asciiOnly_append.
    + apply asciiOnly_lines. cbn [Transport.ascii] in Hv.
      revert Hv. generalize (m :: ms) IH. clear. intros l IH Hv.
      induction IH as [|x l Hx _ IHl]; [constructor|].
      cbn [forallb] in Hv. apply andb_true_iff in Hv as [Hxv Hlv].
      apply andb_true_iff in Hxv as [Hkey Hval].
      constructor; [|now apply IHl].
      apply asciiOnly_append; [now apply asciiOnly_quoteJSONString|].
      cbn [Text.asciiOnly]. now apply Hx.
    + cbn [Text.asciiOnly]. apply asciiOnly_append; [apply asciiOnly_spaces | reflexivity].
Qed.

End TransportFacts.

(** * Properties of the App of index.tsx *)

(** X7.  A load with a token never throws and always ends with the App
    initialised.  It leaves every file of the store as it is.  Either both
    documents are in the store afterwards and nothing was alerted and no
    setting touched; or an alert tells the failure, the settings are
    forgotten and the settings modal opens, and the records of the App and
    their hash are the ones before. *)
Theorem X7_load_outcome :
  forall (blobSha : string -> string) (settings : Github.GithubSettings)
         (app : Github.App) (remote : Github.Remote),
    Github.token settings <> "" ->
    exists app' remote',
      Github.loadDataFromGithub blobSha settings (app, remote) = (Github.Ok tt, (app', remote')) /\
      Github.isInitialized app' = true /\
      Github.access remote' = Github.access remote /\
      (forall path file,
          Github.files remote !! path = Some file ->
          Github.files remote' !! path = Some file) /\
      ((Github.alerts app' = Github.alerts app /\
        Github.githubSettings app' = Github.githubSettings app /\
        Github.storedSettings app' = Github.storedSettings app /\
        Github.showSettings app' = Github.showSettings app /\
        is_Some (Github.files remote' !! "schedule.json") /\
        is_Some (Github.files remote' !! "data.json")) \/
       (exists message,
           Github.alerts app'
             = Github.alerts app ++ ["Gagal memuat data dari GitHub: " +:+ message] /\
           Github.githubSettings app' = None /\
           Github.storedSettings app' = None /\
           Github.showSettings app' = true /\
           Github.records app' = Github.records app /\
           Github.recordsSha app' = Github.recordsSha app)).
Proof.
  intros blobSha settings app remote Ht.
  destruct (loadDataFromGithub_cases blobSha settings app remote Ht)
    as (app' & remote' & Hload & Ha & Hkept & Hcases).
  exists app', remote'. split; [exact Hload|].
  assert (Github.isInitialized app' = true) as Hinit.
  { destruct Hcases as [(sched & ssha & content & rsha & -> & _)
                        | (message & app1 & -> & _)]; reflexivity. }
  split; [exact Hinit|]. split; [exact Ha|]. split; [exact Hkept|].
  destruct Hcases as [(sched & ssha & content & rsha & -> & Hs & Hd)
                      | (message & app1 & -> & Happ1)].
  - left. cbn. auto 10.
  - right. exists message.
    destruct Happ1 as [-> | (sched & ssha & ->)]; cbn; auto 10.
Qed.

Lemma X7_load_outcome_witness :
  exists app' remote',
    Github.loadDataFromGithub SyncScenario.blobSha SyncScenario.settings
        (SyncScenario.session, SyncScenario.movedBroken)
      = (Github.Ok tt, (app', remote')) /\
    Github.isInitialized app' = true /\
    Github.access remote' = Github.access SyncScenario.movedBroken /\
    (forall path file,
        Github.files SyncScenario.movedBroken !! path = Some file ->
        Github.files remote' !! path = Some file) /\
    ((Github.alerts app' = Github.alerts SyncScenario.session /\
      Github.githubSettings app' = Github.githubSettings SyncScenario.session /\
      Github.storedSettings app' = Github.storedSettings SyncScenario.session /\
      Github.showSettings app' = Github.showSettings SyncScenario.session /\
      is_Some (Github.files remote' !! "schedule.json") /\
      is_Some (Github.files remote' !! "data.json")) \/
     (exists message,
         Github.alerts app'
           = Github.alerts SyncScenario.session
               ++ ["Gagal memuat data dari GitHub: " +:+ message] /\
         Github.githubSettings app' = None /\
         Github.storedSettings app' = None /\
         Github.showSettings app' = true /\
         Github.records app' = Github.records SyncScenario.session /\
         Github.recordsSha app' = Github.recordsSha SyncScenario.session)).
Proof.
  apply (X7_load_outcome SyncScenario.blobSha SyncScenario.settings
           SyncScenario.session SyncScenario.movedBroken).
  discriminate.
Defined.

Section SaveFacts.
Import Github GithubApp.
Variable blobSha : string -> string.

(** A write that goes through: the store is writable and the hash sent is
    the hash of the stored file, or no hash is sent and there is no file. *)
Lemma updateFile_ok remote path content sha newSha remote' :
  updateFile blobSha remote path content sha = (Ok newSha, remote') ->
  newSha = blobSha (JSON.stringify content) /\
  remote' = written blobSha remote path content /\
  access remote = ReadWrite.
Proof.
  unfold updateFile, PUT, written. intros H.
  destruct (access remote); [discriminate H | discriminate H |].
  destruct (files remote !! path) as [file|];
    destruct sha as [[|c h]|]; try discriminate H.
  - destruct (String.eqb (String c h) (Github.sha file)); [|discriminate H].
    injection H as <- <-. auto.
  - injection H as <- <-. auto.
  - injection H as <- <-. auto.
Qed.

Lemma updateFile_current remote path content file :
  access remote = ReadWrite ->
  files remote !! path = Some file -> sha file <> "" ->
  updateFile blobSha remote path content (Some (sha file))
    = (Ok (blobSha (JSON.stringify content)), written blobSha remote path content).
Proof.
  intros Ha Hf Hs. unfold updateFile, PUT, written. rewrite Ha, Hf.
  destruct (sha file) as [|c h] eqn:E; [contradiction|].
  now rewrite String.eqb_refl.
Qed.

(** A save of a record with the hash of the stored document. *)
Lemma addRecord_saved settings app remote l file newRecord :
  githubSettings app = Some settings ->
  records app = JSON.JArray l ->
  access remote = ReadWrite ->
  files remote !! "data.json" = Some file ->
  recordsSha app = Some (sha file) -> sha file <> "" ->
  addRecord blobSha newRecord (app, remote) =
    (Ok tt,
     (alert "Data absensi berhasil disimpan!"
        (setRecords (JSON.JArray (l ++ [newRecord]))
           (setRecordsSha
              (Some (blobSha (JSON.stringify (JSON.JArray (l ++ [newRecord]))))) app)),
      written blobSha remote "data.json" (JSON.JArray (l ++ [newRecord])))).
Proof.
  intros Hset Hrec Ha Hf Hsha Hne. unfold addRecord. cbn [fst snd]. rewrite Hset, Hrec.
  unfold tryCatch, spread, bind at 1, ret.
  unfold bind at 1, await_updateFile. cbn [fst snd].
  rewrite Hsha, (updateFile_current remote "data.json" _ file Ha Hf Hne).
  reflexivity.
Qed.

(** A fetch of what was written. *)
Lemma getFile_written remote path content :
  Printer.canonical content -> access remote = ReadWrite ->
  getFile (written blobSha remote path content) path
    = Ok (Some (content, Some (blobSha (JSON.stringify content)))).
Proof.
  intros Hp Ha. unfold getFile, GET, written.
  cbn [access files]. rewrite Ha, lookup_insert_eq. cbn [text sha].
  pose proof (parse_stringify_canonical content Hp) as Hparse.
  destruct (JSON.stringify content) as [|c t] eqn:E; [discriminate Hparse|].
  now rewrite Hparse.
Qed.

End SaveFacts.

(** X8.  What [updateFile] has written, [getFile] reads back: after a write
    that went through, a fetch of the same path returns the content that
    was written, with the hash that the write returned.  That holds for
    every content of ASCII strings without fractional number literals whose
    objects list their keys in property order, so for every list of records
    and every schedule of seven weekdays with such strings.  The file in
    the store is ASCII text, and no other path of the store has changed. *)
Theorem X8_update_then_get :
  forall (blobSha : string -> string) (remote remote' : Github.Remote) (path : string)
         (content : JSON.value) (sha : option string) (newSha : string),
    Transport.ascii content = true ->
    Printer.canonical content ->
    Github.updateFile blobSha remote path content sha = (Github.Ok newSha, remote') ->
    Github.getFile remote' path = Github.Ok (Some (content, Some newSha)) /\
    (exists file,
        Github.files remote' !! path = Some file /\
        Text.asciiOnly (Github.text file) = true) /\
    (forall p, p <> path -> Github.files remote' !! p = Github.files remote !! p) /\
    (forall rs, Printer.canonical (JSON.JArray (map Runtime.toJS rs))) /\
    (forall s, Printer.canonical (Runtime.scheduleToJS s)).
Proof.
  intros blobSha remote remote' path content sha newSha Hascii Hp H.
  apply updateFile_ok in H as (-> & -> & Ha). split; [|split; [|split; [|split]]].
  - now apply getFile_written.
  - eexists. split; [apply lookup_insert_eq|]. now apply ascii_print.
  - intros p Hne. cbn [GithubApp.written Github.files].
    apply lookup_insert_ne. congruence.
  - apply canonical_records.
  - apply canonical_schedule.
Qed.

Lemma X8_update_then_get_witness :
  Github.getFile
    (GithubApp.written SyncScenario.blobSha SyncScenario.emptyWritable "schedule.json"
       Github.DEFAULT_JADWAL_RONDA) "schedule.json"
    = Github.Ok
        (Some (Github.DEFAULT_JADWAL_RONDA,
               Some (SyncScenario.blobSha (JSON.stringify Github.DEFAULT_JADWAL_RONDA))))
  /\
  (exists file,
      Github.files
        (GithubApp.written SyncScenario.blobSha SyncScenario.emptyWritable "schedule.json"
           Github.DEFAULT_JADWAL_RONDA) !! "schedule.json" = Some file /\
      Text.asciiOnly (Github.text file) = true) /\
  (forall p, p <> "schedule.json" ->
     Github.files
       (GithubApp.written SyncScenario.blobSha SyncScenario.emptyWritable "schedule.json"
          Github.DEFAULT_JADWAL_RONDA) !! p
     = Github.files SyncScenario.emptyWritable !! p) /\
  (forall rs, Printer.canonical (JSON.JArray (map Runtime.toJS rs))) /\
  (forall s, Printer.canonical (Runtime.scheduleToJS s)).
Proof.
  apply (X8_update_then_get SyncScenario.blobSha SyncScenario.emptyWritable _ "schedule.json"
           Github.DEFAULT_JADWAL_RONDA None).
  - reflexivity.
  - apply canonical_schedule.
  - vm_compute. reflexivity.
Defined.

Lemma addRecords_saved :
  forall (blobSha : string -> string) (settings : Github.GithubSettings)
         (newRecords l : list JSON.value) (app : Github.App) (remote : Github.Remote),
    (forall content, blobSha content <> "") ->
    Github.githubSettings app = Some settings ->
    Github.access remote = Github.ReadWrite ->
    Github.records app = JSON.JArray l ->
    GithubApp.recordsTokenInSync app remote ->
    exists app' remote',
      GithubApp.addRecords blobSha newRecords (app, remote) = (Github.Ok tt, (app', remote')) /\
      Github.records app' = JSON.JArray (l ++ newRecords) /\
      GithubApp.recordsTokenInSync app' remote' /\
      (newRecords <> [] ->
       Github.text <$> Github.files remote' !! "data.json"
         = Some (JSON.stringify (JSON.JArray (l ++ newRecords)))) /\
      Github.alerts app'
        = Github.alerts app ++ map (fun _ => "Data absensi berhasil disimpan!") newRecords /\
      (forall p, p <> "data.json" -> Github.files remote' !! p = Github.files remote !! p).
Proof.
  intros blobSha settings newRecords. induction newRecords as [|r rest IH];
    intros l app remote Hsha Hset Ha Hrec Hsync.
  - exists app, remote. cbn [GithubApp.addRecords Github.ret map].
    rewrite !app_nil_r. split; [reflexivity|]. split; [exact Hrec|].
    split; [exact Hsync|]. split; [intros C; now contradiction C|]. auto.
  - destruct Hsync as (file & Hf & Htok & Hne).
    pose proof (addRecord_saved blobSha settings app remote l file r Hset Hrec Ha Hf Htok Hne)
      as Hsave.
    set (app1 := Github.alert _ _) in Hsave. set (remote1 := GithubApp.written _ _ _ _) in Hsave.
    destruct (IH (l ++ [r]) app1 remote1 Hsha) as (app' & remote' & Hrun & Hrec' & Hsync' & Htext & Hal & Hframe).
    + exact Hset.
    + exact Ha.
    + reflexivity.
    + eexists. split; [apply lookup_insert_eq|]. split; [reflexivity|]. apply Hsha.
    + exists app', remote'. cbn [GithubApp.addRecords]. unfold Github.bind at 1.
      rewrite Hsave, Hrun. split; [reflexivity|].
      rewrite <- app_assoc in Hrec', Htext. cbn [List.app] in Hrec', Htext.
      split; [exact Hrec'|]. split; [exact Hsync'|]. split.
      * intros _. destruct rest as [|r2 rest].
        -- cbn [GithubApp.addRecords Github.ret] in Hrun. injection Hrun as <- <-.
           unfold remote1. cbn [GithubApp.written Github.files].
           rewrite lookup_insert_eq. reflexivity.
        -- apply Htext. discriminate.
      * split.
        -- rewrite Hal. unfold app1. cbn [Github.alert Github.alerts Github.setRecords
             Github.setRecordsSha map]. now rewrite <- app_assoc.
        -- intros p Hp. rewrite (Hframe p Hp). unfold remote1.
           cbn [GithubApp.written Github.files]. apply lookup_insert_ne. congruence.
Qed.

(** X9.  Saves from one session go through one after the other: with a
    writable store, an App that holds the version token of data.json,
    records of ASCII strings, and hashes that are never the empty string,
    every save of a list of new records succeeds.  Afterwards the App holds
    the old records followed by the new ones and the token of what the
    store holds, which is ASCII text; every save was confirmed by its
    alert, and no other file of the store has changed. *)
Theorem X9_consecutive_saves :
  forall (blobSha : string -> string) (settings : Github.GithubSettings)
         (newRecords l : list JSON.value) (app : Github.App) (remote : Github.Remote),
    (forall content, blobSha content <> "") ->
    Transport.ascii (JSON.JArray (l ++ newRecords)) = true ->
    Github.githubSettings app = Some settings ->
    Github.access remote = Github.ReadWrite ->
    Github.records app = JSON.JArray l ->
    GithubApp.recordsTokenInSync app remote ->
    exists app' remote',
      GithubApp.addRecords blobSha newRecords (app, remote) = (Github.Ok tt, (app', remote')) /\
      Github.records app' = JSON.JArray (l ++ newRecords) /\
      GithubApp.recordsTokenInSync app' remote' /\
      (newRecords <> [] ->
       Github.text <$> Github.files remote' !! "data.json"
         = Some (JSON.stringify (JSON.JArray (l ++ newRecords))) /\
       Text.asciiOnly (JSON.stringify (JSON.JArray (l ++ newRecords))) = true) /\
      Github.alerts app'
        = Github.alerts app ++ map (fun _ => "Data absensi berhasil disimpan!") newRecords /\
      (forall p, p <> "data.json" -> Github.files remote' !! p = Github.files remote !! p).
Proof.
  intros blobSha settings newRecords l app remote Hsha Hascii Hset Ha Hrec Hsync.
  destruct (addRecords_saved blobSha settings newRecords l app remote Hsha Hset Ha Hrec Hsync)
    as (app' & remote' & Hrun & Hrec' & Hsync' & Htext & Hal & Hframe).
  exists app', remote'. repeat (split; [assumption|]).
  split; [|split; assumption].
  intros Hne. split; [now apply Htext | now apply ascii_print].
Qed.

Lemma X9_consecutive_saves_witness :
  exists app' remote',
    GithubApp.addRecords SyncScenario.blobSha [SyncScenario.monday; SyncScenario.tuesday]
        (SyncScenario.session, SaveScenario.current)
      = (Github.Ok tt, (app', remote')) /\
    Github.records app'
      = JSON.JArray ([SyncScenario.sunday] ++ [SyncScenario.monday; SyncScenario.tuesday]) /\
    GithubApp.recordsTokenInSync app' remote' /\
    ([SyncScenario.monday; SyncScenario.tuesday] <> [] ->
     Github.text <$> Github.files remote' !! "data.json"
       = Some (JSON.stringify
                 (JSON.JArray
                    ([SyncScenario.sunday] ++ [SyncScenario.monday; SyncScenario.tuesday])))
     /\
     Text.asciiOnly
       (JSON.stringify
          (JSON.JArray ([SyncScenario.sunday] ++ [SyncScenario.monday; SyncScenario.tuesday])))
       = true) /\
    Github.alerts app'
      = Github.alerts SyncScenario.session
          ++ map (fun _ => "Data absensi berhasil disimpan!")
               [SyncScenario.monday; SyncScenario.tuesday] /\
    (forall p, p <> "data.json" ->
       Github.files remote' !! p = Github.files SaveScenario.current !! p).
Proof.
  apply (X9_consecutive_saves SyncScenario.blobSha SyncScenario.settings
           [SyncScenario.monday; SyncScenario.tuesday] [SyncScenario.sunday]
           SyncScenario.session SaveScenario.current).
  - intros content H. vm_compute in H. discriminate H.
  - reflexivity.
  - reflexivity.
  - reflexivity.
  - reflexivity.
  - eexists. split; [vm_compute; reflexivity|]. split; [vm_compute; reflexivity|].
    vm_compute. discriminate.
Defined.

Section FreshFacts.
Import Github GithubApp.
Variable blobSha : string -> string.

Lemma getFile_parsed remote path file content :
  access remote <> Denied ->
  files remote !! path = Some file ->
  text file <> "" -> JSON.parse (text file) = Some content ->
  getFile remote path = Ok (Some (content, Some (sha file))).
Proof.
  intros Ha Hf Hne Hp. unfold getFile, GET. rewrite Hf.
  destruct (access remote); [contradiction| |];
    (destruct (text file) as [|c t]; [contradiction|]; now rewrite Hp).
Qed.

(** A write without a hash to a path that holds a file is refused. *)
Lemma updateFile_untokened remote path content file :
  access remote = ReadWrite -> files remote !! path = Some file ->
  updateFile blobSha remote path content None
    = (Throw ("Gagal menyimpan file " +:+ path +:+ ": Unprocessable Entity"), remote).
Proof. intros Ha Hf. unfold updateFile, PUT. now rewrite Ha, Hf. Qed.

Lemma parse_default_schedule :
  JSON.parse (JSON.stringify DEFAULT_JADWAL_RONDA) = Some DEFAULT_JADWAL_RONDA.
Proof. vm_compute. reflexivity. Qed.

End FreshFacts.

(** X10.  The first save into a repository that the App itself has just
    initialised is refused.  A load that finds neither document creates both
    and keeps no version token for them; the save that follows is sent
    without a token, the store refuses it for the existing file, and the
    record is neither stored nor kept.  The reload of the recovery fetches
    the token, and the same save, tried again, goes through.  The strings
    of the record are ASCII text. *)
Theorem X10_first_save_after_initialising :
  forall (blobSha : string -> string) (settings : Github.GithubSettings)
         (app : Github.App) (remote : Github.Remote) (newRecord : JSON.value),
    (forall content, blobSha content <> "") ->
    Transport.ascii newRecord = true ->
    Github.token settings <> "" ->
    Github.githubSettings app = Some settings ->
    Github.access remote = Github.ReadWrite ->
    Github.files remote !! "schedule.json" = None ->
    Github.files remote !! "data.json" = None ->
    exists statusText app1 remote1 app2 app3 remote3,
      Github.loadDataFromGithub blobSha settings (app, remote)
        = (Github.Ok tt, (app1, remote1)) /\
      Github.records app1 = JSON.JArray [] /\
      Github.recordsSha app1 = None /\
      Github.addRecord blobSha newRecord (app1, remote1) = (Github.Ok tt, (app2, remote1)) /\
      Github.records app2 = JSON.JArray [] /\
      Github.alerts app2
        = Github.alerts app1
            ++ ["Gagal menyimpan absensi: Gagal menyimpan file data.json: " +:+ statusText] /\
      Github.addRecord blobSha newRecord (app2, remote1) = (Github.Ok tt, (app3, remote3)) /\
      Github.records app3 = JSON.JArray [newRecord] /\
      Github.text <$> Github.files remote3 !! "data.json"
        = Some (JSON.stringify (JSON.JArray [newRecord])).
Proof.
  intros blobSha settings app remote newRecord Hsha _ Htok Hset Ha Hs Hd.
  set (remote0 := GithubApp.written blobSha remote "schedule.json" Github.DEFAULT_JADWAL_RONDA).
  set (remote1 := GithubApp.written blobSha remote0 "data.json" (JSON.JArray [])).
  assert (Github.access remote1 = Github.ReadWrite) as Ha1 by exact Ha.
  assert (Github.files remote1 !! "data.json"
            = Some {| Github.text := "[]"; Github.sha := blobSha "[]" |}) as Hd1
    by apply lookup_insert_eq.
  assert (Github.files remote1 !! "schedule.json"
            = Some {| Github.text := JSON.stringify Github.DEFAULT_JADWAL_RONDA;
                      Github.sha := blobSha (JSON.stringify Github.DEFAULT_JADWAL_RONDA) |})
    as Hs1.
  { unfold remote1, remote0. cbn [GithubApp.written Github.files].
    rewrite lookup_insert_ne by discriminate. apply lookup_insert_eq. }
  (* the load that initialises *)
  pose proof (loadDataFromGithub_steps blobSha settings app remote Htok) as Hload.
  rewrite (loadOrCreate_created blobSha remote _ _ app Hs Ha) in Hload. cbv zeta in Hload.
  cbn [fst snd] in Hload.
  rewrite (loadOrCreate_created blobSha _ "data.json" (JSON.JArray []) _) in Hload;
    [| cbn [Github.files]; rewrite lookup_insert_ne by discriminate; exact Hd | exact Ha].
  cbn [fst snd] in Hload. fold remote0 in Hload. fold remote1 in Hload.
  set (app1 := Github.setIsInitialized true _) in Hload.
  (* the save without a token, and the reload *)
  assert (Github.getFile remote1 "schedule.json"
            = Github.Ok (Some (Github.DEFAULT_JADWAL_RONDA,
                               Some (blobSha (JSON.stringify Github.DEFAULT_JADWAL_RONDA)))))
    as Hgs.
  { apply (getFile_parsed remote1 "schedule.json" _ _ ltac:(rewrite Ha1; discriminate) Hs1).
    - vm_compute. discriminate.
    - apply parse_default_schedule. }
  assert (Github.getFile remote1 "data.json"
            = Github.Ok (Some (JSON.JArray [], Some (blobSha "[]")))) as Hgd.
  { apply (getFile_parsed remote1 "data.json" _ _ ltac:(rewrite Ha1; discriminate) Hd1).
    - discriminate.
    - vm_compute. reflexivity. }
  assert (exists app2,
             Github.addRecord blobSha newRecord (app1, remote1) = (Github.Ok tt, (app2, remote1)) /\
             Github.githubSettings app2 = Some settings /\
             Github.records app2 = JSON.JArray [] /\
             Github.recordsSha app2 = Some (blobSha "[]") /\
             Github.alerts app2
               = Github.alerts app1
                   ++ ["Gagal menyimpan absensi: Gagal menyimpan file data.json: Unprocessable Entity"])
    as (app2 & Hfail & Hset2 & Hrec2 & Hsha2 & Hal2).
  { eexists. split.
    - unfold Github.addRecord. cbn [fst snd].
      replace (Github.githubSettings app1) with (Some settings) by (symmetry; exact Hset).
      unfold Github.tryCatch, Github.spread, Github.bind at 1, Github.ret.
      change (Github.records app1) with (JSON.JArray []). cbn [List.app].
      unfold Github.bind at 1, Github.await_updateFile. cbn [fst snd].
      change (Github.recordsSha app1) with (@None string).
      rewrite (updateFile_untokened blobSha remote1 "data.json" _ _ Ha1 Hd1).
      unfold Github.bind at 1, Github.modify at 1. cbn [fst snd].
      rewrite (loadDataFromGithub_found blobSha settings _ remote1 _ _ _ _ Htok Hgs Hgd).
      reflexivity.
    - cbn. rewrite Hset. auto. }
  (* the same save again *)
  pose proof (addRecord_saved blobSha settings app2 remote1 [] _ newRecord
                Hset2 Hrec2 Ha1 Hd1 Hsha2 (Hsha "[]")) as Hsave.
  cbn [List.app] in Hsave.
  exists "Unprocessable Entity". eexists app1, remote1, app2, _, _.
  split; [exact Hload|]. split; [reflexivity|]. split; [reflexivity|].
  split; [exact Hfail|]. split; [exact Hrec2|]. split; [exact Hal2|].
  split; [exact Hsave|]. split; [reflexivity|].
  cbn [GithubApp.written Github.files]. now rewrite lookup_insert_eq.
Qed.

Lemma X10_first_save_after_initialising_witness :
  exists statusText app1 remote1 app2 app3 remote3,
    Github.loadDataFromGithub SyncScenario.blobSha SyncScenario.settings
        (SaveScenario.fresh, SyncScenario.emptyWritable)
      = (Github.Ok tt, (app1, remote1)) /\
    Github.records app1 = JSON.JArray [] /\
    Github.recordsSha app1 = None /\
    Github.addRecord SyncScenario.blobSha SyncScenario.monday (app1, remote1)
      = (Github.Ok tt, (app2, remote1)) /\
    Github.records app2 = JSON.JArray [] /\
    Github.alerts app2
      = Github.alerts app1
          ++ ["Gagal menyimpan absensi: Gagal menyimpan file data.json: " +:+ statusText] /\
    Github.addRecord SyncScenario.blobSha SyncScenario.monday (app2, remote1)
      = (Github.Ok tt, (app3, remote3)) /\
    Github.records app3 = JSON.JArray [SyncScenario.monday] /\
    Github.text <$> Github.files remote3 !! "data.json"
      = Some (JSON.stringify (JSON.JArray [SyncScenario.monday])).
Proof.
  apply (X10_first_save_after_initialising SyncScenario.blobSha SyncScenario.settings
           SaveScenario.fresh SyncScenario.emptyWritable SyncScenario.monday).
  - intros content H. vm_compute in H. discriminate H.
  - reflexivity.
  - discriminate.
  - reflexivity.
  - reflexivity.
  - reflexivity.
  - reflexivity.
Defined.

Section ScheduleFacts.
Import Github GithubApp.
Variable blobSha : string -> string.

(** A save that the store refuses for its hash, followed by a reload whose
    two fetches succeed. *)
Lemma addRecord_refused settings app remote l file newRecord sched ssha content rsha :
  githubSettings app = Some settings -> token settings <> "" ->
  records app = JSON.JArray l ->
  files remote !! "data.json" = Some file -> recordsSha app <> Some (sha file) ->
  getFile remote "schedule.json" = Ok (Some (sched, ssha)) ->
  getFile remote "data.json" = Ok (Some (content, rsha)) ->
  exists statusText,
    addRecord blobSha newRecord (app, remote) =
      (Ok tt,
       (setIsInitialized true
          (setRecordsSha rsha (setRecords content
             (setScheduleSha ssha (setSchedule sched
                (alert ("Gagal menyimpan absensi: Gagal menyimpan file data.json: "
                          +:+ statusText) app))))),
        remote)).
Proof.
  intros Hset Htok Hrec Hf Hstale Hs Hd.
  destruct (updateFile_stale blobSha remote "data.json"
              (JSON.JArray (l ++ [newRecord])) (recordsSha app) file Hf Hstale)
    as [statusText Hput].
  exists statusText. unfold addRecord. cbn [fst snd]. rewrite Hset, Hrec.
  unfold tryCatch, spread, bind at 1, ret.
  unfold bind at 1, await_updateFile. cbn [fst snd]. rewrite Hput.
  unfold bind at 1, modify at 1. cbn [fst snd].
  now rewrite (loadDataFromGithub_found blobSha settings _ remote sched ssha content rsha
                 Htok Hs Hd).
Qed.

End ScheduleFacts.

(** X11.  A save of the schedule with the version token of the stored
    schedule goes through: the store holds the text of the new schedule
    under schedule.json, the App holds the new schedule and the token of
    that text, the editor is closed and the save is confirmed.  The records,
    their token and every other file of the store stay as they are.  A
    fetch reads the new schedule back from the store, with the token the
    App holds, when its keys stand in property order (as those of a schedule
    of seven weekdays do).  The names of the new schedule are ASCII text. *)
Theorem X11_schedule_save_goes_through :
  forall (blobSha : string -> string) (settings : Github.GithubSettings)
         (app : Github.App) (remote : Github.Remote) (newSchedule : JSON.value)
         (showScheduleEditor : bool) (file : Github.RemoteFile),
    Transport.ascii newSchedule = true ->
    Github.githubSettings app = Some settings ->
    Github.access remote = Github.ReadWrite ->
    Github.files remote !! "schedule.json" = Some file ->
    Github.scheduleSha app = Some (Github.sha file) ->
    Github.sha file <> "" ->
    exists app' remote',
      GithubApp.handleSaveSchedule blobSha newSchedule showScheduleEditor (app, remote)
        = (Github.Ok false, (app', remote')) /\
      Github.files remote' !! "schedule.json"
        = Some {| Github.text := JSON.stringify newSchedule;
                  Github.sha := blobSha (JSON.stringify newSchedule) |} /\
      (forall p, p <> "schedule.json" -> Github.files remote' !! p = Github.files remote !! p) /\
      Github.schedule app' = newSchedule /\
      Github.scheduleSha app' = Some (blobSha (JSON.stringify newSchedule)) /\
      Github.alerts app' = Github.alerts app ++ ["Jadwal berhasil diperbarui!"] /\
      Github.records app' = Github.records app /\
      Github.recordsSha app' = Github.recordsSha app /\
      (Printer.canonical newSchedule ->
       Github.getFile remote' "schedule.json"
         = Github.Ok (Some (newSchedule, Github.scheduleSha app'))).
Proof.
  intros blobSha settings app remote newSchedule show file _ Hset Ha Hf Hsha Hne.
  eexists _, _. split.
  - unfold GithubApp.handleSaveSchedule. cbn [fst snd]. rewrite Hset.
    unfold Github.tryCatch, Github.bind at 1, Github.await_updateFile. cbn [fst snd].
    rewrite Hsha, (updateFile_current blobSha remote "schedule.json" _ file Ha Hf Hne).
    reflexivity.
  - split; [apply lookup_insert_eq|].
    split; [intros p Hp; apply lookup_insert_ne; congruence|].
    cbn [Github.alert Github.setSchedule Github.setScheduleSha Github.schedule
         Github.scheduleSha Github.alerts Github.records Github.recordsSha].
    repeat (split; [reflexivity|]).
    intros Hc. now apply getFile_written.
Qed.

Lemma X11_schedule_save_goes_through_witness :
  exists app' remote',
    GithubApp.handleSaveSchedule SyncScenario.blobSha Github.DEFAULT_JADWAL_RONDA true
        (SyncScenario.session, SaveScenario.current)
      = (Github.Ok false, (app', remote')) /\
    Github.files remote' !! "schedule.json"
      = Some {| Github.text := JSON.stringify Github.DEFAULT_JADWAL_RONDA;
                Github.sha := SyncScenario.blobSha (JSON.stringify Github.DEFAULT_JADWAL_RONDA) |} /\
    (forall p, p <> "schedule.json" ->
       Github.files remote' !! p = Github.files SaveScenario.current !! p) /\
    Github.schedule app' = Github.DEFAULT_JADWAL_RONDA /\
    Github.scheduleSha app'
      = Some (SyncScenario.blobSha (JSON.stringify Github.DEFAULT_JADWAL_RONDA)) /\
    Github.alerts app' = Github.alerts SyncScenario.session ++ ["Jadwal berhasil diperbarui!"] /\
    Github.records app' = Github.records SyncScenario.session /\
    Github.recordsSha app' = Github.recordsSha SyncScenario.session /\
    (Printer.canonical Github.DEFAULT_JADWAL_RONDA ->
     Github.getFile remote' "schedule.json"
       = Github.Ok (Some (Github.DEFAULT_JADWAL_RONDA, Github.scheduleSha app'))).
Proof.
  apply (X11_schedule_save_goes_through SyncScenario.blobSha SyncScenario.settings
           SyncScenario.session SaveScenario.current Github.DEFAULT_JADWAL_RONDA true
           (SyncScenario.file "{}")).
  - reflexivity.
  - reflexivity.
  - reflexivity.
  - vm_compute. reflexivity.
  - reflexivity.
  - vm_compute. discriminate.
Defined.

(** X12.  A save of the schedule with a version token that is not the
    token of the stored schedule is refused and leaves the store as it is.
    The failure is alerted and the editor stays as it was; when the reload
    that follows fetches both documents, the schedule of the App is the
    schedule of the store, not the edited one.  The names of the edited
    schedule are ASCII text. *)
Theorem X12_stale_schedule_save_reloads :
  forall (blobSha : string -> string) (settings : Github.GithubSettings)
         (app : Github.App) (remote : Github.Remote) (newSchedule : JSON.value)
         (showScheduleEditor : bool) (file : Github.RemoteFile)
         (sched : JSON.value) (ssha : option string)
         (content : JSON.value) (rsha : option string),
    Transport.ascii newSchedule = true ->
    Github.githubSettings app = Some settings ->
    Github.token settings <> "" ->
    Github.files remote !! "schedule.json" = Some file ->
    Github.scheduleSha app <> Some (Github.sha file) ->
    Github.getFile remote "schedule.json" = Github.Ok (Some (sched, ssha)) ->
    Github.getFile remote "data.json" = Github.Ok (Some (content, rsha)) ->
    exists statusText app',
      GithubApp.handleSaveSchedule blobSha newSchedule showScheduleEditor (app, remote)
        = (Github.Ok showScheduleEditor, (app', remote)) /\
      Github.schedule app' = sched /\
      Github.scheduleSha app' = ssha /\
      Github.records app' = content /\
      Github.recordsSha app' = rsha /\
      Github.alerts app'
        = Github.alerts app
            ++ ["Gagal menyimpan jadwal: Gagal menyimpan file schedule.json: " +:+ statusText].
Proof.
  intros blobSha settings app remote newSchedule show file sched ssha content rsha
         _ Hset Htok Hf Hstale Hs Hd.
  destruct (updateFile_stale blobSha remote "schedule.json" newSchedule
              (Github.scheduleSha app) file Hf Hstale) as [statusText Hput].
  exists statusText. eexists. split.
  - unfold GithubApp.handleSaveSchedule. cbn [fst snd]. rewrite Hset.
    unfold Github.tryCatch, Github.bind at 1, Github.await_updateFile. cbn [fst snd].
    rewrite Hput.
    unfold Github.bind at 1, Github.modify at 1. cbn [fst snd].
    unfold Github.bind at 1.
    rewrite (loadDataFromGithub_found blobSha settings _ remote sched ssha content rsha
               Htok Hs Hd).
    reflexivity.
  - cbn. auto.
Qed.

Lemma X12_stale_schedule_save_reloads_witness :
  exists statusText app',
    GithubApp.handleSaveSchedule SyncScenario.blobSha Github.DEFAULT_JADWAL_RONDA true
        (SaveScenario.behind, SaveScenario.current)
      = (Github.Ok true, (app', SaveScenario.current)) /\
    Github.schedule app' = JSON.JObject [] /\
    Github.scheduleSha app' = Some (SyncScenario.blobSha "{}") /\
    Github.records app' = JSON.JArray [SyncScenario.sunday] /\
    Github.recordsSha app'
      = Some (SyncScenario.blobSha (JSON.stringify (JSON.JArray [SyncScenario.sunday]))) /\
    Github.alerts app'
      = Github.alerts SaveScenario.behind
          ++ ["Gagal menyimpan jadwal: Gagal menyimpan file schedule.json: " +:+ statusText].
Proof.
  apply (X12_stale_schedule_save_reloads SyncScenario.blobSha SyncScenario.settings
           SaveScenario.behind SaveScenario.current Github.DEFAULT_JADWAL_RONDA true
           (SyncScenario.file "{}") (JSON.JObject []) (Some (SyncScenario.blobSha "{}"))
           (JSON.JArray [SyncScenario.sunday])
           (Some (SyncScenario.blobSha (JSON.stringify (JSON.JArray [SyncScenario.sunday]))))).
  - reflexivity.
  - reflexivity.
  - discriminate.
  - vm_compute. reflexivity.
  - vm_compute. discriminate.
  - vm_compute. reflexivity.
  - vm_compute. reflexivity.
Defined.

(** X13.  A submission in the App that stores on GitHub, on a day without a
    record and with the version token of the stored document: the record of
    the form is appended to the records of the App and to the document in
    the store, from which a fetch reads the same list back; the form is
    reset; and a further submission on that day is turned down with the
    warning alone, without a request to the store.  The amount typed is one
    that a number holds exactly, and the strings of the records are ASCII
    text. *)
Theorem X13_remote_submission :
  forall (blobSha : string -> string) (settings : Github.GithubSettings)
         (props : AttendanceForm.Props) (today : AttendanceForm.Date) (now : string)
         (st : AttendanceForm.State) (app : Github.App) (remote : Github.Remote)
         (file : Github.RemoteFile),
    AttendanceForm.isAlreadySubmitted props today = false ->
    JS.orZero (JS.parseInt (AttendanceForm.collection st)) < 2 ^ 53 ->
    Transport.ascii
      (JSON.JArray
         (map Runtime.toJS
            (AttendanceForm.existingRecords props
               ++ [AttendanceForm.newRecord props today now st]))) = true ->
    Github.githubSettings app = Some settings ->
    Github.access remote = Github.ReadWrite ->
    Github.records app
      = JSON.JArray (map Runtime.toJS (AttendanceForm.existingRecords props)) ->
    Github.files remote !! "data.json" = Some file ->
    Github.recordsSha app = Some (Github.sha file) ->
    Github.sha file <> "" ->
    let record := AttendanceForm.newRecord props today now st in
    let stored :=
      JSON.JArray (map Runtime.toJS (AttendanceForm.existingRecords props ++ [record])) in
    let props' :=
      {| AttendanceForm.existingRecords := AttendanceForm.existingRecords props ++ [record];
         AttendanceForm.schedule := AttendanceForm.schedule props |} in
    exists app' remote',
      GithubApp.handleSubmit blobSha props today now st (app, remote)
        = (Github.Ok (AttendanceForm.initialState props today), (app', remote')) /\
      Github.records app' = stored /\
      Github.getFile remote' "data.json" = Github.Ok (Some (stored, Github.recordsSha app')) /\
      (forall now' st',
          GithubApp.handleSubmit blobSha props' today now' st' (app', remote')
            = (Github.Ok st',
               (Github.alert "Absensi untuk hari ini sudah diisi." app', remote'))).
Proof.
  intros blobSha settings props today now st app remote file
         Hfree _ _ Hset Ha Hrec Hf Hsha Hne record stored props'.
  assert (stored = JSON.JArray (map Runtime.toJS (AttendanceForm.existingRecords props)
                                  ++ [Runtime.toJS record])) as Hst
    by (unfold stored; now rewrite map_app).
  eexists _, _. split; [|split; [|split]].
  - unfold GithubApp.handleSubmit. rewrite Hfree. unfold Github.bind at 1.
    rewrite (addRecord_saved blobSha settings app remote _ file _ Hset Hrec Ha Hf Hsha Hne).
    reflexivity.
  - rewrite Hst. reflexivity.
  - rewrite Hst. cbn [Github.alert Github.setRecords Github.setRecordsSha Github.recordsSha].
    apply getFile_written; [|exact Ha].
    pose proof (canonical_records (AttendanceForm.existingRecords props ++ [record])) as Hp.
    rewrite map_app in Hp. exact Hp.
  - intros now' st'. unfold GithubApp.handleSubmit.
    assert (AttendanceForm.isAlreadySubmitted props' today = true) as ->.
    { apply isAlreadySubmitted_true. exists record. split.
      - cbn. apply in_or_app. right. now left.
      - reflexivity. }
    reflexivity.
Qed.

(** X14.  A submission whose save the store refuses for its version token
    resets the form all the same: the fields that were filled in are gone,
    the store is as it was, and after the reload the App holds what the
    store holds, without the record of the form.  The strings of the
    records are ASCII text. *)
Theorem X14_refused_submission_resets_form :
  forall (blobSha : string -> string) (settings : Github.GithubSettings)
         (props : AttendanceForm.Props) (today : AttendanceForm.Date) (now : string)
         (st : AttendanceForm.State) (app : Github.App) (remote : Github.Remote)
         (l : list JSON.value) (file : Github.RemoteFile)
         (sched : JSON.value) (ssha : option string)
         (content : JSON.value) (rsha : option string),
    AttendanceForm.isAlreadySubmitted props today = false ->
    Transport.ascii
      (JSON.JArray (l ++ [Runtime.toJS (AttendanceForm.newRecord props today now st)]))
      = true ->
    Github.githubSettings app = Some settings ->
    Github.token settings <> "" ->
    Github.records app = JSON.JArray l ->
    Github.files remote !! "data.json" = Some file ->
    Github.recordsSha app <> Some (Github.sha file) ->
    Github.getFile remote "schedule.json" = Github.Ok (Some (sched, ssha)) ->
    Github.getFile remote "data.json" = Github.Ok (Some (content, rsha)) ->
    exists statusText app',
      GithubApp.handleSubmit blobSha props today now st (app, remote)
        = (Github.Ok (AttendanceForm.initialState props today), (app', remote)) /\
      Github.records app' = content /\
      Github.alerts app'
        = Github.alerts app
            ++ ["Gagal menyimpan absensi: Gagal menyimpan file data.json: " +:+ statusText].
Proof.
  intros blobSha settings props today now st app remote l file sched ssha content rsha
         Hfree _ Hset Htok Hrec Hf Hstale Hs Hd.
  destruct (addRecord_refused blobSha settings app remote l file
              (Runtime.toJS (AttendanceForm.newRecord props today now st))
              sched ssha content rsha Hset Htok Hrec Hf Hstale Hs Hd) as [statusText Hadd].
  exists statusText. eexists. split.
  - unfold GithubApp.handleSubmit. rewrite Hfree. unfold Github.bind at 1.
    rewrite Hadd. reflexivity.
  - cbn. auto.
Qed.

Lemma X13_remote_submission_witness :
  let record :=
    AttendanceForm.newRecord FormRunScenario.props Scenario.monday
      "2024-01-01T19:31:00.000Z" Scenario.marked in
  let stored :=
    JSON.JArray
      (map Runtime.toJS (AttendanceForm.existingRecords FormRunScenario.props ++ [record])) in
  let props' :=
    {| AttendanceForm.existingRecords :=
         AttendanceForm.existingRecords FormRunScenario.props ++ [record];
       AttendanceForm.schedule := AttendanceForm.schedule FormRunScenario.props |} in
  exists app' remote',
    GithubApp.handleSubmit SyncScenario.blobSha FormRunScenario.props Scenario.monday
        "2024-01-01T19:31:00.000Z" Scenario.marked (SyncScenario.session, SaveScenario.current)
      = (Github.Ok (AttendanceForm.initialState FormRunScenario.props Scenario.monday),
         (app', remote')) /\
    Github.records app' = stored /\
    Github.getFile remote' "data.json" = Github.Ok (Some (stored, Github.recordsSha app')) /\
    (forall now' st',
        GithubApp.handleSubmit SyncScenario.blobSha props' Scenario.monday now' st'
            (app', remote')
          = (Github.Ok st',
             (Github.alert "Absensi untuk hari ini sudah diisi." app', remote'))).
Proof.
  apply (X13_remote_submission SyncScenario.blobSha SyncScenario.settings
           FormRunScenario.props Scenario.monday "2024-01-01T19:31:00.000Z" Scenario.marked
           SyncScenario.session SaveScenario.current
           (SyncScenario.file (JSON.stringify (JSON.JArray [SyncScenario.sunday])))).
  - vm_compute. reflexivity.
  - vm_compute. reflexivity.
  - vm_compute. reflexivity.
  - reflexivity.
  - reflexivity.
  - reflexivity.
  - vm_compute. reflexivity.
  - reflexivity.
  - vm_compute. discriminate.
Defined.

Lemma X14_refused_submission_resets_form_witness :
  exists statusText app',
    GithubApp.handleSubmit SyncScenario.blobSha FormRunScenario.props Scenario.monday
        "2024-01-01T19:31:00.000Z" Scenario.marked (SyncScenario.session, SyncScenario.moved)
      = (Github.Ok (AttendanceForm.initialState FormRunScenario.props Scenario.monday),
         (app', SyncScenario.moved)) /\
    Github.records app' = JSON.JArray [SyncScenario.sunday; SyncScenario.monday] /\
    Github.alerts app'
      = Github.alerts SyncScenario.session
          ++ ["Gagal menyimpan absensi: Gagal menyimpan file data.json: " +:+ statusText].
Proof.
  apply (X14_refused_submission_resets_form SyncScenario.blobSha SyncScenario.settings
           FormRunScenario.props Scenario.monday "2024-01-01T19:31:00.000Z" Scenario.marked
           SyncScenario.session SyncScenario.moved [SyncScenario.sunday]
           (SyncScenario.file
              (JSON.stringify (JSON.JArray [SyncScenario.sunday; SyncScenario.monday])))
           (JSON.JObject []) (Some (SyncScenario.blobSha "{}"))
           (JSON.JArray [SyncScenario.sunday; SyncScenario.monday])
           (Some (SyncScenario.blobSha
                    (JSON.stringify (JSON.JArray [SyncScenario.sunday; SyncScenario.monday]))))).
  - vm_compute. reflexivity.
  - vm_compute. reflexivity.
  - reflexivity.
  - discriminate.
  - reflexivity.
  - vm_compute. reflexivity.
  - vm_compute. intros H. discriminate H.
  - vm_compute. reflexivity.
  - vm_compute. reflexivity.
Defined.

Section SettingsFacts.
Import Github GithubApp.

Lemma run_touched changes : forall st,
  changes <> [] ->
  SettingsModal.untouched (fold_left SettingsModal.handleChange changes st) = false.
Proof.
  induction changes as [|c rest IH]; intros st Hne; [contradiction|].
  cbn [fold_left]. destruct rest as [|c' rest']; [reflexivity|].
  apply IH. discriminate.
Qed.

Lemma handleSave_complete st :
  user (SettingsModal.settings st) <> "" ->
  repo (SettingsModal.settings st) <> "" ->
  token (SettingsModal.settings st) <> "" ->
  SettingsModal.handleSave st
    = [SettingsModal.OnSave (SettingsModal.settings st) (SettingsModal.untouched st)].
Proof.
  intros Hu Hr Ht. unfold SettingsModal.handleSave.
  destruct (user (SettingsModal.settings st)); [contradiction|].
  destruct (repo (SettingsModal.settings st)); [contradiction|].
  destruct (token (SettingsModal.settings st)); [contradiction|].
  reflexivity.
Qed.

End SettingsFacts.

(** X15.  Simpan in the settings modal, with all three fields filled in and
    after a field was edited (or when the App had no settings).  When the
    storage takes the settings, they are stored and taken into the state,
    and the load that follows ends with the App initialised, either holding
    these settings with the modal closed, or, after a failed load, with the
    settings forgotten and the modal open again.  When the storage does not
    take them, the click ends in the exception and changes nothing. *)
Theorem X15_saved_settings_are_loaded_with :
  forall (blobSha : string -> string) (app : Github.App) (remote : Github.Remote)
         (changes : list (SettingsModal.Field * string)),
    let st := SettingsModal.run (Github.githubSettings app) changes in
    Github.user (SettingsModal.settings st) <> "" ->
    Github.repo (SettingsModal.settings st) <> "" ->
    Github.token (SettingsModal.settings st) <> "" ->
    changes <> [] \/ Github.githubSettings app = None ->
    (exists app' remote',
        GithubApp.clickSave blobSha true st (app, remote)
          = (Github.Ok tt, (app', remote')) /\
        Github.isInitialized app' = true /\
        ((Github.githubSettings app' = Some (SettingsModal.settings st) /\
          Github.storedSettings app' = Some (SettingsModal.settings st) /\
          Github.showSettings app' = false) \/
         (Github.githubSettings app' = None /\
          Github.storedSettings app' = None /\
          Github.showSettings app' = true))) /\
    (exists message,
        GithubApp.clickSave blobSha false st (app, remote)
          = (Github.Throw message, (app, remote))).
Proof.
  intros blobSha app remote changes st Hu Hr Ht Hedit.
  split; [|eexists; unfold GithubApp.clickSave;
           rewrite (handleSave_complete st Hu Hr Ht); reflexivity].
  assert (SettingsModal.untouched st = false) as Htouched.
  { destruct Hedit as [Hne | Hnone].
    - now apply run_touched.
    - unfold st, SettingsModal.run. rewrite Hnone.
      destruct changes as [|c rest]; [reflexivity|]. now apply run_touched. }
  destruct (loadDataFromGithub_cases blobSha (SettingsModal.settings st)
              (GithubApp.handleSaveSettings (SettingsModal.settings st) app) remote Ht)
    as (app' & remote' & Hload & _ & _ & Hcases).
  exists app', remote'. split.
  - unfold GithubApp.clickSave. rewrite (handleSave_complete st Hu Hr Ht), Htouched.
    cbn [fold_right]. unfold GithubApp.onSave, Github.bind, Github.modify, Github.ret,
      GithubApp.settingsEffect.
    cbn [fst snd GithubApp.handleSaveSettings Github.githubSettings].
    now rewrite Hload.
  - destruct Hcases as [(sched & ssha & content & rsha & -> & _)
                        | (message & app1 & -> & _)].
    + split; [reflexivity|]. left. cbn. auto.
    + split; [reflexivity|]. right. cbn. auto.
Qed.

Lemma X15_saved_settings_are_loaded_with_witness :
  let st := SettingsModal.run (Github.githubSettings Github.initialApp) SettingsScenario.typed in
  (exists app' remote',
      GithubApp.clickSave SyncScenario.blobSha true st
          (Github.initialApp, SyncScenario.emptyWritable)
        = (Github.Ok tt, (app', remote')) /\
      Github.isInitialized app' = true /\
      ((Github.githubSettings app' = Some (SettingsModal.settings st) /\
        Github.storedSettings app' = Some (SettingsModal.settings st) /\
        Github.showSettings app' = false) \/
       (Github.githubSettings app' = None /\
        Github.storedSettings app' = None /\
        Github.showSettings app' = true))) /\
  (exists message,
      GithubApp.clickSave SyncScenario.blobSha false st
          (Github.initialApp, SyncScenario.emptyWritable)
        = (Github.Throw message, (Github.initialApp, SyncScenario.emptyWritable))).
Proof.
  apply (X15_saved_settings_are_loaded_with SyncScenario.blobSha Github.initialApp
           SyncScenario.emptyWritable SettingsScenario.typed).
  - vm_compute. discriminate.
  - vm_compute. discriminate.
  - vm_compute. discriminate.
  - left. discriminate.
Defined.

(** X16.  Simpan in the settings modal on settings that were not edited,
    with a storage that takes them: the object passed to the App is the one
    the App holds, so the effect on the settings does not run.  The store
    is left as it is, nothing is alerted, and the App is left not
    initialised, with the modal closed and the records, schedule and
    settings as they were. *)
Theorem X16_untouched_settings_are_not_reloaded :
  forall (blobSha : string -> string) (app : Github.App) (remote : Github.Remote)
         (current : Github.GithubSettings),
    Github.githubSettings app = Some current ->
    Github.user current <> "" -> Github.repo current <> "" -> Github.token current <> "" ->
    exists app',
      GithubApp.clickSave blobSha true (SettingsModal.run (Github.githubSettings app) [])
          (app, remote)
        = (Github.Ok tt, (app', remote)) /\
      Github.isInitialized app' = false /\
      Github.showSettings app' = false /\
      Github.githubSettings app' = Some current /\
      Github.storedSettings app' = Some current /\
      Github.records app' = Github.records app /\
      Github.schedule app' = Github.schedule app /\
      Github.alerts app' = Github.alerts app.
Proof.
  intros blobSha app remote current Hset Hu Hr Ht.
  exists (GithubApp.handleSaveSettings current app). split; [|cbn; auto 10].
  unfold GithubApp.clickSave. rewrite Hset.
  rewrite (handleSave_complete (SettingsModal.run (Some current) []) Hu Hr Ht).
  reflexivity.
Qed.

Lemma X16_untouched_settings_are_not_reloaded_witness :
  exists app',
    GithubApp.clickSave SyncScenario.blobSha true
        (SettingsModal.run (Github.githubSettings SyncScenario.session) [])
        (SyncScenario.session, SaveScenario.current)
      = (Github.Ok tt, (app', SaveScenario.current)) /\
    Github.isInitialized app' = false /\
    Github.showSettings app' = false /\
    Github.githubSettings app' = Some SyncScenario.settings /\
    Github.storedSettings app' = Some SyncScenario.settings /\
    Github.records app' = Github.records SyncScenario.session /\
    Github.schedule app' = Github.schedule SyncScenario.session /\
    Github.alerts app' = Github.alerts SyncScenario.session.
Proof.
  apply (X16_untouched_settings_are_not_reloaded SyncScenario.blobSha SyncScenario.session
           SaveScenario.current SyncScenario.settings).
  - reflexivity.
  - discriminate.
  - discriminate.
  - discriminate.
Defined.

Section EdgeFacts.
Import Github GithubApp.

(** A stored file without content is read as the default for its path. *)
Lemma getFile_empty remote path file :
  access remote <> Denied ->
  files remote !! path = Some file -> text file = "" ->
  getFile remote path
    = Ok (Some (if JS.endsWith "data.json" path then JSON.JArray [] else DEFAULT_JADWAL_RONDA,
                Some (sha file))).
Proof.
  intros Ha Hf Ht. unfold getFile, GET. rewrite Hf.
  destruct (access remote); [contradiction| |]; now rewrite Ht.
Qed.

Lemma getFile_denied remote path :
  access remote = Denied ->
  getFile remote path = Throw ("Gagal mengambil file " +:+ path +:+ ": Unauthorized").
Proof. intros Ha. unfold getFile, GET. now rewrite Ha. Qed.

End EdgeFacts.

(** X21.  Documents that exist and are empty are read as the defaults: a
    load of a repository whose schedule.json and data.json hold no content
    ends with the built-in schedule and the empty list of records, and with
    the version tokens of the two stored files; nothing is written.  The
    first save then goes through, unlike the first save after the App has
    created the documents itself.  The strings of the record are ASCII
    text. *)
Theorem X21_empty_documents_load_as_defaults :
  forall (blobSha : string -> string) (settings : Github.GithubSettings)
         (app : Github.App) (remote : Github.Remote)
         (scheduleFile recordsFile : Github.RemoteFile) (newRecord : JSON.value),
    Transport.ascii newRecord = true ->
    Github.token settings <> "" ->
    Github.githubSettings app = Some settings ->
    Github.access remote = Github.ReadWrite ->
    Github.files remote !! "schedule.json" = Some scheduleFile ->
    Github.text scheduleFile = "" ->
    Github.files remote !! "data.json" = Some recordsFile ->
    Github.text recordsFile = "" ->
    Github.sha recordsFile <> "" ->
    exists app1 app2 remote2,
      Github.loadDataFromGithub blobSha settings (app, remote) = (Github.Ok tt, (app1, remote)) /\
      Github.schedule app1 = Github.DEFAULT_JADWAL_RONDA /\
      Github.scheduleSha app1 = Some (Github.sha scheduleFile) /\
      Github.records app1 = JSON.JArray [] /\
      Github.recordsSha app1 = Some (Github.sha recordsFile) /\
      Github.alerts app1 = Github.alerts app /\
      Github.addRecord blobSha newRecord (app1, remote) = (Github.Ok tt, (app2, remote2)) /\
      Github.records app2 = JSON.JArray [newRecord] /\
      Github.text <$> Github.files remote2 !! "data.json"
        = Some (JSON.stringify (JSON.JArray [newRecord])).
Proof.
  intros blobSha settings app remote scheduleFile recordsFile newRecord
         _ Htok Hset Ha Hs Hst Hd Hdt Hne.
  assert (Github.access remote <> Github.Denied) as Hread by (rewrite Ha; discriminate).
  pose proof (getFile_empty remote "schedule.json" scheduleFile Hread Hs Hst) as Hgs.
  pose proof (getFile_empty remote "data.json" recordsFile Hread Hd Hdt) as Hgd.
  change (JS.endsWith "data.json" "schedule.json") with false in Hgs.
  change (JS.endsWith "data.json" "data.json") with true in Hgd.
  pose proof (loadDataFromGithub_found blobSha settings app remote _ _ _ _ Htok Hgs Hgd)
    as Hload.
  set (app1 := Github.setIsInitialized true _) in Hload.
  pose proof (addRecord_saved blobSha settings app1 remote [] recordsFile newRecord
                Hset eq_refl Ha Hd eq_refl Hne) as Hsave.
  cbn [List.app] in Hsave.
  eexists app1, _, _. split; [exact Hload|].
  repeat (split; [reflexivity|]).
  split; [exact Hsave|]. split; [reflexivity|].
  cbn [GithubApp.written Github.files]. now rewrite lookup_insert_eq.
Qed.

Lemma X21_empty_documents_load_as_defaults_witness :
  exists app1 app2 remote2,
    Github.loadDataFromGithub SyncScenario.blobSha SyncScenario.settings
        (SaveScenario.fresh, EmptyFilesScenario.remote)
      = (Github.Ok tt, (app1, EmptyFilesScenario.remote)) /\
    Github.schedule app1 = Github.DEFAULT_JADWAL_RONDA /\
    Github.scheduleSha app1 = Some (Github.sha (SyncScenario.file "")) /\
    Github.records app1 = JSON.JArray [] /\
    Github.recordsSha app1 = Some (Github.sha (SyncScenario.file "")) /\
    Github.alerts app1 = Github.alerts SaveScenario.fresh /\
    Github.addRecord SyncScenario.blobSha SyncScenario.monday (app1, EmptyFilesScenario.remote)
      = (Github.Ok tt, (app2, remote2)) /\
    Github.records app2 = JSON.JArray [SyncScenario.monday] /\
    Github.text <$> Github.files remote2 !! "data.json"
      = Some (JSON.stringify (JSON.JArray [SyncScenario.monday])).
Proof.
  apply (X21_empty_documents_load_as_defaults SyncScenario.blobSha SyncScenario.settings
           SaveScenario.fresh EmptyFilesScenario.remote
           (SyncScenario.file "") (SyncScenario.file "") SyncScenario.monday).
  - reflexivity.
  - discriminate.
  - reflexivity.
  - reflexivity.
  - vm_compute. reflexivity.
  - reflexivity.
  - vm_compute. reflexivity.
  - reflexivity.
  - vm_compute. discriminate.
Defined.

(** X22.  Credentials that the store turns down are found out when the
    load runs: the fetch of the schedule throws, the store is left as it
    is, the failure is alerted with the status text of the store, the
    settings are removed from the state and from the storage,
    and the settings modal opens on an App that counts as initialised.
    Schedule and records stay as they were. *)
Theorem X22_denied_load_forgets_settings :
  forall (blobSha : string -> string) (settings : Github.GithubSettings)
         (app : Github.App) (remote : Github.Remote),
    Github.token settings <> "" ->
    Github.access remote = Github.Denied ->
    exists statusText app',
      Github.loadDataFromGithub blobSha settings (app, remote) = (Github.Ok tt, (app', remote)) /\
      Github.alerts app'
        = Github.alerts app
            ++ ["Gagal memuat data dari GitHub: Gagal mengambil file schedule.json: "
                  +:+ statusText] /\
      Github.githubSettings app' = None /\
      Github.storedSettings app' = None /\
      Github.showSettings app' = true /\
      Github.isInitialized app' = true /\
      Github.schedule app' = Github.schedule app /\
      Github.records app' = Github.records app.
Proof.
  intros blobSha settings app remote Htok Ha. exists "Unauthorized". eexists. split.
  - apply (loadDataFromGithub_schedule_failed blobSha settings app remote
             ("Gagal mengambil file schedule.json: Unauthorized") Htok).
    now apply getFile_denied.
  - cbn. auto 10.
Qed.

Lemma X22_denied_load_forgets_settings_witness :
  exists statusText app',
    Github.loadDataFromGithub SyncScenario.blobSha SyncScenario.settings
        (SyncScenario.session, EmptyFilesScenario.denied)
      = (Github.Ok tt, (app', EmptyFilesScenario.denied)) /\
    Github.alerts app'
      = Github.alerts SyncScenario.session
          ++ ["Gagal memuat data dari GitHub: Gagal mengambil file schedule.json: "
                +:+ statusText] /\
    Github.githubSettings app' = None /\
    Github.storedSettings app' = None /\
    Github.showSettings app' = true /\
    Github.isInitialized app' = true /\
    Github.schedule app' = Github.schedule SyncScenario.session /\
    Github.records app' = Github.records SyncScenario.session.
Proof.
  apply (X22_denied_load_forgets_settings SyncScenario.blobSha SyncScenario.settings
           SyncScenario.session EmptyFilesScenario.denied).
  - discriminate.
  - reflexivity.
Defined.

(** * Properties of the link of the export *)

Section UriFacts.
Import URI.

Lemma percentDecode_unreserved c r :
  unreserved c = true -> percentDecode (String c r) = String c (percentDecode r).
Proof.
  destruct c as [[] [] [] [] [] [] [] []]; intros H;
    first [reflexivity | discriminate H].
Qed.

Lemma percentDecode_escape c r :
  percentDecode (escape c +:+ r) = String c (percentDecode r).
Proof. destruct c as [[] [] [] [] [] [] [] []]; reflexivity. Qed.

Lemma plainLink_append s t :
  plainLink s = true -> plainLink t = true -> plainLink (s +:+ t) = true.
Proof.
  induction s as [|c s IH]; intros Hs Ht; [exact Ht|].
  rewrite append_cons. cbn [plainLink] in Hs |- *.
  apply andb_true_iff in Hs as [Hc Hs]. rewrite Hc. now apply IH.
Qed.

Lemma plainLink_escape c : plainLink (escape c) = true.
Proof. destruct c as [[] [] [] [] [] [] [] []]; reflexivity. Qed.

(** What [encodeURIComponent] returns is decoded to what it was given, and
    holds unreserved characters and escapes only. *)
Lemma encodeURIComponent_decoded s : forall encoded,
  encodeURIComponent s = Some encoded ->
  percentDecode encoded = s /\ plainLink encoded = true.
Proof.
  induction s as [|c s IH]; intros encoded H; cbn [encodeURIComponent] in H.
  - injection H as <-. split; reflexivity.
  - destruct (loneSurrogateAt c s); [discriminate H|].
    destruct (encodeURIComponent s) as [rest|]; [|discriminate H].
    destruct (IH rest eq_refl) as [Hd Hp].
    injection H as <-. destruct (unreserved c) eqn:Hc.
    + rewrite append_cons, append_nil_l. split.
      * rewrite percentDecode_unreserved by exact Hc. now rewrite Hd.
      * cbn [plainLink]. now rewrite Hc, Hp.
    + split.
      * rewrite percentDecode_escape. now rewrite Hd.
      * apply plainLink_append; [apply plainLink_escape | exact Hp].
Qed.

(** [encodeURIComponent] throws for a surrogate that stands alone, and for
    nothing else. *)
Lemma encodeURIComponent_wellFormed s :
  wellFormed s = true <-> exists encoded, encodeURIComponent s = Some encoded.
Proof.
  induction s as [|c s IH]; cbn [wellFormed encodeURIComponent].
  - split; [eauto | reflexivity].
  - destruct (loneSurrogateAt c s); cbn [negb andb].
    + split; [discriminate | intros [encoded H]; discriminate H].
    + rewrite IH. split; intros [encoded H].
      * rewrite H. eauto.
      * destruct (encodeURIComponent s) as [rest|]; [eauto | discriminate H].
Qed.

End UriFacts.

(** X20.  The link that [handleDownload] clicks carries the exported text
    without loss.  When the text holds no surrogate on its own,
    [encodeURIComponent] does not throw; the link is the [data:] prefix
    followed by unreserved characters and escapes only; the body decodes,
    byte for byte, to the exported text; and so the downloaded file,
    imported again, gives back the collection, when that holds no
    fractional number literal and its objects list their keys once. *)
Theorem X20_download_link_carries_the_export :
  forall (records : list JSON.value),
    URI.wellFormed (AttendanceRecap.handleDownload records) = true ->
    exists encoded,
      Download.dataUri records = Some (Download.prefix +:+ encoded) /\
      URI.plainLink encoded = true /\
      URI.percentDecode encoded = AttendanceRecap.handleDownload records /\
      (JSON.plain (JSON.JArray records) = true ->
       forall old,
         AttendanceRecap.import old (Some (URI.percentDecode encoded))
           = (records, ["Data berhasil diimpor!"])).
Proof.
  intros records Hw.
  apply encodeURIComponent_wellFormed in Hw as [encoded He].
  destruct (encodeURIComponent_decoded _ _ He) as [Hd Hp].
  exists encoded. split; [|split; [exact Hp | split; [exact Hd|]]].
  - unfold Download.dataUri. cbv zeta. now rewrite He.
  - intros Hplain old. rewrite Hd. unfold AttendanceRecap.import.
    now rewrite (import_export records Hplain).
Qed.

Lemma X20_download_link_carries_the_export_witness :
  exists encoded,
    Download.dataUri ImportScenario.store = Some (Download.prefix +:+ encoded) /\
    URI.plainLink encoded = true /\
    URI.percentDecode encoded = AttendanceRecap.handleDownload ImportScenario.store /\
    (JSON.plain (JSON.JArray ImportScenario.store) = true ->
     forall old,
       AttendanceRecap.import old (Some (URI.percentDecode encoded))
         = (ImportScenario.store, ["Data berhasil diimpor!"])).
Proof.
  apply (X20_download_link_carries_the_export ImportScenario.store).
  vm_compute. reflexivity.
Defined.

(** * The order of the recap view on the calendar *)

Section CalendarFacts.
Import Date Calendar.

Lemma daysFromCivil_parts y m d :
  daysFromCivil y m d = yearStart (marchYear y m) + dayOfMarchYear m d - 719468.
Proof. unfold daysFromCivil, yearStart, marchYear, dayOfMarchYear. cbv zeta. lia. Qed.

Local Ltac month_cases m Hm :=
  assert (m = 1 \/ m = 2 \/ m = 3 \/ m = 4 \/ m = 5 \/ m = 6 \/ m = 7 \/ m = 8 \/ m = 9
          \/ m = 10 \/ m = 11 \/ m = 12) as Hm by lia;
  repeat (destruct Hm as [Hm|Hm]); subst m.

Local Ltac leap_cases y :=
  unfold isLeapYear;
  destruct (Z.eqb_spec (y mod 4) 0), (Z.eqb_spec (y mod 100) 0), (Z.eqb_spec (y mod 400) 0);
  cbn [andb orb negb].

(** A March year has 365 days, and 366 when the year in which it ends is a
    leap year. *)
Lemma yearStart_next y :
  yearStart (y + 1) = yearStart y + 365 + (if isLeapYear (y + 1) then 1 else 0).
Proof.
  unfold yearStart. cbv zeta. leap_cases (y + 1); Z.div_mod_to_equations; lia.
Qed.

Lemma isLeapYear_cases y : (if isLeapYear y then 1 else 0) >= 0.
Proof. destruct (isLeapYear y); lia. Qed.

Lemma yearStart_later y n :
  0 <= n -> yearStart y <= yearStart (y + n).
Proof.
  intros Hn. revert n Hn. apply natlike_ind.
  - rewrite Z.add_0_r. lia.
  - intros n Hn IH. replace (y + Z.succ n) with ((y + n) + 1) by lia.
    rewrite yearStart_next. pose proof (isLeapYear_cases (y + n + 1)). lia.
Qed.

(** The day within the March year: from 0 to 364, and to 365 when the year
    ends in a leap year. *)
Lemma dayOfMarchYear_range y m d :
  1 <= m <= 12 -> 1 <= d <= daysInMonth y m ->
  0 <= dayOfMarchYear m d <= 364 + (if isLeapYear (marchYear y m + 1) then 1 else 0).
Proof.
  intros Hm Hd.
  replace (marchYear y m + 1) with (if m <=? 2 then y else y + 1)
    by (unfold marchYear; destruct (m <=? 2); lia).
  month_cases m Hm'; unfold dayOfMarchYear, daysInMonth in *; cbn in Hd |- *;
    repeat match goal with
           | |- context [isLeapYear ?year] => destruct (isLeapYear year)
           end;
    Z.div_mod_to_equations; lia.
Qed.

(** Within one March year the days are counted in the order of the
    calendar. *)
Lemma dayOfMarchYear_order y1 m1 d1 y2 m2 d2 :
  1 <= m1 <= 12 -> 1 <= d1 <= daysInMonth y1 m1 ->
  1 <= m2 <= 12 -> 1 <= d2 <= daysInMonth y2 m2 ->
  marchYear y1 m1 = marchYear y2 m2 ->
  earlier (y1, m1, d1) (y2, m2, d2) ->
  dayOfMarchYear m1 d1 < dayOfMarchYear m2 d2.
Proof.
  intros Hm1 Hd1 Hm2 Hd2 Hy He. unfold earlier in He.
  assert (daysInMonth y1 m1 <= 31) as Hmax
    by (unfold daysInMonth; repeat (destruct (_ =? _) || destruct (isLeapYear _)); cbn; lia).
  month_cases m1 Hm1'; unfold dayOfMarchYear, marchYear, daysInMonth in *;
    cbn in Hd1, Hy |- *;
    destruct (Z.leb_spec m2 2), (Z.ltb_spec 2 m2); try lia;
    Z.div_mod_to_equations; lia.
Qed.

(** [Date.daysFromCivil] grows with the calendar. *)
Lemma daysFromCivil_earlier y1 m1 d1 y2 m2 d2 :
  1 <= m1 <= 12 -> 1 <= d1 <= daysInMonth y1 m1 ->
  1 <= m2 <= 12 -> 1 <= d2 <= daysInMonth y2 m2 ->
  earlier (y1, m1, d1) (y2, m2, d2) ->
  daysFromCivil y1 m1 d1 < daysFromCivil y2 m2 d2.
Proof.
  intros Hm1 Hd1 Hm2 Hd2 He. rewrite !daysFromCivil_parts.
  pose proof (dayOfMarchYear_range y1 m1 d1 Hm1 Hd1) as Hr1.
  pose proof (dayOfMarchYear_range y2 m2 d2 Hm2 Hd2) as Hr2.
  destruct (Z.lt_trichotomy (marchYear y1 m1) (marchYear y2 m2)) as [Hlt | [Heq | Hgt]].
  - pose proof (yearStart_next (marchYear y1 m1)) as Hnext.
    pose proof (yearStart_later (marchYear y1 m1 + 1)
                  (marchYear y2 m2 - (marchYear y1 m1 + 1)) ltac:(lia)) as Hlater.
    replace (marchYear y1 m1 + 1 + (marchYear y2 m2 - (marchYear y1 m1 + 1)))
      with (marchYear y2 m2) in Hlater by lia.
    lia.
  - pose proof (dayOfMarchYear_order y1 m1 d1 y2 m2 d2 Hm1 Hd1 Hm2 Hd2 Heq He).
    rewrite Heq. lia.
  - exfalso. unfold earlier in He. unfold marchYear in Hgt.
    destruct (Z.leb_spec m1 2), (Z.leb_spec m2 2); lia.
Qed.

Lemma getTime_calendarDate s :
  getTime s = (fun t : Z * Z * Z =>
                 let '(y, m, d) := t in daysFromCivil y m d * 86400000) <$> calendarDate s.
Proof.
  unfold getTime, calendarDate. destruct (parseDateOnly s) as [[[y m] d]|]; [|reflexivity].
  destruct (_ && _); reflexivity.
Qed.

Lemma calendarDate_valid s y m d :
  calendarDate s = Some (y, m, d) -> 1 <= m <= 12 /\ 1 <= d <= daysInMonth y m.
Proof.
  unfold calendarDate. destruct (parseDateOnly s) as [[[y' m'] d']|]; [|discriminate].
  destruct (Z.leb_spec 1 m'), (Z.leb_spec m' 12), (Z.leb_spec 1 d'),
    (Z.leb_spec d' (daysInMonth y' m')); cbn [andb]; try discriminate.
  intros E. injection E as <- <- <-. lia.
Qed.

End CalendarFacts.

(** X23.  When the date of every record names a day of the calendar, the
    unfiltered recap view lists the records from the latest day to the
    earliest: no record stands before a record of a later day, in the view
    of the local variant and in the view of index.tsx. *)
Theorem X23_recap_lists_latest_day_first :
  forall (records : list Types.AttendanceRecord),
    (forall r, In r records -> Calendar.calendarDate (Types.date r) <> None) ->
    Calendar.latestFirst (AttendanceRecap.filteredRecords Date.getTime records "") /\
    Calendar.latestFirst (AttendanceRecap.filteredRecordsRemote Date.getTime records "").
Proof.
  intros records Hvalid.
  assert (Calendar.latestFirst (JS.sort (AttendanceRecap.byDateDescending Date.getTime) records))
    as Hsorted; [|split; exact Hsorted].
  assert (Forall (fun r => Date.getTime (Types.date r) <> None) records) as Htimes.
  { apply List.Forall_forall. intros r Hr. rewrite getTime_calendarDate.
    specialize (Hvalid r Hr). destruct (Calendar.calendarDate (Types.date r)); [discriminate|].
    contradiction. }
  pose proof (dateDescending_noLaterDateBehind Date.getTime _
                (sort_dateDescending Date.getTime records Htimes)) as Horder.
  intros i j a b [[ya ma] da] [[yb mb] db] Hij Ha Hb Hda Hdb Hearlier.
  pose proof (Horder i j a b (Date.daysFromCivil ya ma da * 86400000)
                (Date.daysFromCivil yb mb db * 86400000) Hij Ha Hb) as Hle.
  rewrite !getTime_calendarDate, Hda, Hdb in Hle. specialize (Hle eq_refl eq_refl).
  destruct (calendarDate_valid _ _ _ _ Hda) as [Hma Hdda].
  destruct (calendarDate_valid _ _ _ _ Hdb) as [Hmb Hddb].
  pose proof (daysFromCivil_earlier ya ma da yb mb db Hma Hdda Hmb Hddb Hearlier). lia.
Qed.

Lemma X23_recap_lists_latest_day_first_witness :
  Calendar.latestFirst
    (AttendanceRecap.filteredRecords Date.getTime RecapScenario.dated "") /\
  Calendar.latestFirst
    (AttendanceRecap.filteredRecordsRemote Date.getTime RecapScenario.dated "").
Proof.
  apply (X23_recap_lists_latest_day_first RecapScenario.dated).
  intros r [<- | [<- | [<- | []]]]; vm_compute; discriminate.
Defined.
